(** * OpenClawAgents: the task queue, the pipeline builder and the driver loop

    A shallow embedding of [src/orchestration/task_manager.py] and of
    [backend/src/workflow/workflow_engine.py], and the properties of the
    queue, of the status writes, of the wiring step and of the bounded
    driving loop that the design document states about them. The HTTP
    endpoints of [backend/main.py] and the session bookkeeping of
    [backend/src/agents/base_agent.py] are embedded after them, with further
    properties of all four files in the last part.

    Python values that travel through payloads and results are JSON values;
    the file system, the clock, [uuid4] and the workers are the environment. *)

From Stdlib Require Import List String Ascii ZArith Bool Arith Lia.
From Stdlib Require Import Sorted Permutation.
From Equations Require Import Equations.
Import ListNotations.
Open Scope string_scope.

Set Implicit Arguments.
Set Warnings "-register-all".

(* ===================================================================== *)
(** ** Python values and dictionaries *)
(* ===================================================================== *)

(** What [json.dump] can write and [json.load] gives back: the payloads and
    results of tasks are dictionaries of these. *)
Inductive value : Type :=
| VNone
| VBool (b : bool)
| VInt (z : Z)
| VStr (s : string)
| VList (l : list value)
| VDict (d : list (string * value)).

(** A Python [dict] with string keys, in insertion order. *)
Definition dict := list (string * value).

(** Python's truth value of an object: [None], [False], [0], the empty string,
    the empty list and the empty dictionary are false. *)
Definition truthy (v : value) : bool :=
  match v with
  | VNone => false
  | VBool b => b
  | VInt z => negb (Z.eqb z 0)
  | VStr s => negb (String.eqb s "")
  | VList l => match l with [] => false | _ => true end
  | VDict d => match d with [] => false | _ => true end
  end.

Section Dict.
Context {V : Type}.

(** [k in d] *)
Fixpoint dict_has (k : string) (d : list (string * V)) : bool :=
  match d with
  | [] => false
  | (k', _) :: d' => if String.eqb k' k then true else dict_has k d'
  end.

(** [d.get(k)], with [None] for Python's missing-key default *)
Fixpoint dict_get (k : string) (d : list (string * V)) : option V :=
  match d with
  | [] => None
  | (k', v) :: d' => if String.eqb k' k then Some v else dict_get k d'
  end.

(** [d[k] = v]: an existing key keeps its place, a new one goes last. *)
Fixpoint dict_set (k : string) (v : V) (d : list (string * V))
  : list (string * V) :=
  match d with
  | [] => [(k, v)]
  | (k', v') :: d' =>
      if String.eqb k' k then (k', v) :: d' else (k', v') :: dict_set k v d'
  end.

(** [d.values()] *)
Definition dict_values (d : list (string * V)) : list V := map snd d.

(** [d.update(e)] *)
Definition dict_update (d e : list (string * V)) : list (string * V) :=
  fold_left (fun acc kv => dict_set (fst kv) (snd kv) acc) e d.
End Dict.

(** [d.get(k, default)] *)
Definition dict_get_default (k : string) (default : value) (d : dict) : value :=
  match dict_get k d with
  | Some v => v
  | None => default
  end.

(** [d.get(k)] as a Python value *)
Definition py_get (k : string) (d : dict) : value :=
  dict_get_default k VNone d.

(* ===================================================================== *)
(** ** Tasks *)
(* ===================================================================== *)

Inductive TaskStatus : Type :=
| PENDING | ASSIGNED | IN_PROGRESS | COMPLETED | FAILED | BLOCKED.

Inductive TaskPriority : Type :=
| LOW | MEDIUM | HIGH | CRITICAL.

(** [TaskStatus.value] *)
Definition status_value (s : TaskStatus) : string :=
  match s with
  | PENDING => "pending"
  | ASSIGNED => "assigned"
  | IN_PROGRESS => "in_progress"
  | COMPLETED => "completed"
  | FAILED => "failed"
  | BLOCKED => "blocked"
  end.

(** [TaskPriority.value] *)
Definition priority_value (p : TaskPriority) : Z :=
  match p with
  | LOW => 3
  | MEDIUM => 2
  | HIGH => 1
  | CRITICAL => 0
  end%Z.

Definition status_eqb (a b : TaskStatus) : bool :=
  match a, b with
  | PENDING, PENDING | ASSIGNED, ASSIGNED | IN_PROGRESS, IN_PROGRESS
  | COMPLETED, COMPLETED | FAILED, FAILED | BLOCKED, BLOCKED => true
  | _, _ => false
  end.

Record Task : Type := mkTask {
  id : string;
  title : string;
  assigned_agent : string;
  status : TaskStatus;
  priority : TaskPriority;
  dependencies : list string;
  payload : dict;
  created_at : string;
  updated_at : string;
  assigned_at : option string;
  completed_at : option string;
  result : option dict
}.

(** Field assignments of [update_task_status] and of the driver. *)
Definition set_status (s : TaskStatus) (now : string) (t : Task) : Task :=
  mkTask (id t) (title t) (assigned_agent t) s (priority t) (dependencies t)
         (payload t) (created_at t) now (assigned_at t) (completed_at t)
         (result t).

Definition set_assigned_at (ts : string) (t : Task) : Task :=
  mkTask (id t) (title t) (assigned_agent t) (status t) (priority t)
         (dependencies t) (payload t) (created_at t) (updated_at t) (Some ts)
         (completed_at t) (result t).

Definition set_completed (ts : string) (r : option dict) (t : Task) : Task :=
  mkTask (id t) (title t) (assigned_agent t) (status t) (priority t)
         (dependencies t) (payload t) (created_at t) (updated_at t)
         (assigned_at t) (Some ts) r.

Definition set_payload (p : dict) (t : Task) : Task :=
  mkTask (id t) (title t) (assigned_agent t) (status t) (priority t)
         (dependencies t) p (created_at t) (updated_at t) (assigned_at t)
         (completed_at t) (result t).

(** [task.result] as a condition: neither [None] nor the empty dictionary. *)
Definition result_truthy (r : option dict) : bool :=
  match r with
  | Some (_ :: _) => true
  | _ => false
  end.

(* ===================================================================== *)
(** ** The environment: files, clock, identifiers, exceptions *)
(* ===================================================================== *)

(** [tasks.json]: absent, present but unusable ([open], [json.load] or
    [Task.from_dict] raises on it), or holding a list of tasks. In each of
    these states [self.tasks_file.exists()] answers; a store directory on
    which that check itself raises [OSError] is not among them. *)
Inductive file_state : Type :=
| FileMissing
| FileUnreadable
| FileTasks (tasks : list Task).

(** What the archive directory holds under a name [task_<id>.json]: a file
    that cannot be read or parsed, the copy of a task, or a name that the
    file system refuses to examine, so that [exists()] raises [OSError] on
    it (a name too long for a file name, for one). A name that is not
    listed is one for which [exists()] answers [False]. *)
Inductive archive_file : Type :=
| ArchiveUnreadable
| ArchiveTask (t : Task)
| ArchiveInaccessible.

(** How an [open(..., "w")] followed by [json.dump] ends: the file is
    written; [open] raises and the file is as before; or the dump raises
    after [open] has truncated the file, which leaves it unparseable. *)
Inductive write_outcome : Type :=
| WriteOk
| WriteRefused
| WriteTorn.

Inductive exn : Type :=
| OSError
| JSONError
| WorkerError (msg : string).

(** [str(e)] *)
Definition exn_str (e : exn) : string :=
  match e with
  | OSError => "OSError"
  | JSONError => "JSONDecodeError"
  | WorkerError msg => msg
  end.

(** What the program cannot decide: the identifiers [uuid4] draws, the
    readings of the clock, the fate of each write, and [str()] of a payload
    value that is used as a task id without being a string. *)
Record Env : Type := mkEnv {
  uuid4 : nat -> string;
  isoformat_now : nat -> string;
  disk : nat -> write_outcome;
  py_str : value -> string
}.

(** The files of the queue directory and how many identifiers, clock
    readings, writes and dispatches have happened so far. *)
Record World : Type := mkWorld {
  tasks_file : file_state;
  completed_dir : list (string * archive_file);
  n_uuid : nat;
  n_clock : nat;
  n_disk : nat;
  n_exec : nat
}.

Inductive res (A : Type) : Type :=
| Ret (a : A)
| Raise (e : exn).
Arguments Ret {A} a.
Arguments Raise {A} e.

(** Computations of the program: they read and change the world and
    either return or raise. *)
Definition M (A : Type) : Type := World -> res A * World.

Definition ret {A} (a : A) : M A := fun w => (Ret a, w).

Definition raise {A} (e : exn) : M A := fun w => (Raise e, w).

Definition bind {A B} (m : M A) (k : A -> M B) : M B :=
  fun w =>
    match m w with
    | (Ret a, w') => k a w'
    | (Raise e, w') => (Raise e, w')
    end.

(** [try: m  except Exception as e: h e] *)
Definition try_except {A} (m : M A) (h : exn -> M A) : M A :=
  fun w =>
    match m w with
    | (Ret a, w') => (Ret a, w')
    | (Raise e, w') => h e w'
    end.

Declare Scope monad_scope.
Delimit Scope monad_scope with monad.
Notation "x <- m ;; k" := (bind m (fun x => k))
  (at level 61, m at next level, right associativity) : monad_scope.
Notation "m ;;; k" := (bind m (fun _ => k))
  (at level 61, right associativity) : monad_scope.
Open Scope monad_scope.

(** [for x in l: acc = body x acc], with the loop's variables in [acc]. *)
Fixpoint for_each {A S} (l : list A) (body : A -> S -> M S) (acc : S) : M S :=
  match l with
  | [] => ret acc
  | x :: l' => acc' <- body x acc ;; for_each l' body acc'
  end.

(* ===================================================================== *)
(** ** TaskQueue *)
(* ===================================================================== *)

Section TaskQueue.
Variable env : Env.

(** [str(uuid.uuid4())[:8]] *)
Definition uuid8 : M string :=
  fun w =>
    (Ret (substring 0 8 (uuid4 env (n_uuid w))),
     mkWorld (tasks_file w) (completed_dir w) (S (n_uuid w)) (n_clock w)
             (n_disk w) (n_exec w)).

(** [datetime.now().isoformat()] *)
Definition datetime_now : M string :=
  fun w =>
    (Ret (isoformat_now env (n_clock w)),
     mkWorld (tasks_file w) (completed_dir w) (n_uuid w) (S (n_clock w))
             (n_disk w) (n_exec w)).

(** [self.tasks_file.exists()] *)
Definition tasks_file_exists : M bool :=
  fun w =>
    (Ret (match tasks_file w with FileMissing => false | _ => true end), w).

(** [open(self.tasks_file, "r")], [json.load] and [Task.from_dict] on
    every entry. *)
Definition read_tasks_file : M (list Task) :=
  fun w =>
    match tasks_file w with
    | FileTasks tasks => (Ret tasks, w)
    | FileUnreadable => (Raise JSONError, w)
    | FileMissing => (Raise OSError, w)
    end.

(** [open(self.tasks_file, "w")] and [json.dump] of the task list. *)
Definition write_tasks_file (tasks : list Task) : M unit :=
  fun w =>
    let w' f := mkWorld f (completed_dir w) (n_uuid w) (n_clock w)
                        (S (n_disk w)) (n_exec w) in
    match disk env (n_disk w) with
    | WriteOk => (Ret tt, w' (FileTasks tasks))
    | WriteRefused => (Raise OSError, w' (tasks_file w))
    | WriteTorn => (Raise OSError, w' FileUnreadable)
    end.

(** [open(archive_file, "w")] and [json.dump] of one task. *)
Definition write_archive_file (t : Task) : M unit :=
  fun w =>
    let w' d := mkWorld (tasks_file w) d (n_uuid w) (n_clock w)
                        (S (n_disk w)) (n_exec w) in
    match disk env (n_disk w) with
    | WriteOk => (Ret tt, w' (dict_set (id t) (ArchiveTask t) (completed_dir w)))
    | WriteRefused => (Raise OSError, w' (completed_dir w))
    | WriteTorn =>
        (Raise OSError, w' (dict_set (id t) ArchiveUnreadable (completed_dir w)))
    end.

(** [archive_file.exists()] for [task_<name>.json]: [Path.exists] answers
    for a file that is there and for one that is not, and raises the
    [OSError] of a name it cannot examine. *)
Definition archive_file_exists (name : string) : M bool :=
  fun w =>
    match dict_get name (completed_dir w) with
    | Some ArchiveInaccessible => (Raise OSError, w)
    | Some _ => (Ret true, w)
    | None => (Ret false, w)
    end.

(** [json.load] of [task_<name>.json], then [data.get("result")]. *)
Definition read_archived_result (name : string) : M (option dict) :=
  fun w =>
    match dict_get name (completed_dir w) with
    | Some (ArchiveTask t) => (Ret (result t), w)
    | Some ArchiveUnreadable => (Raise JSONError, w)
    | Some ArchiveInaccessible => (Raise OSError, w)
    | None => (Raise OSError, w)
    end.

Definition _load_all_tasks : M (list Task) :=
  e <- tasks_file_exists ;;
  if e then
    try_except read_tasks_file
               (fun _ => (* logger.error *) ret [])
  else ret [].

Definition _persist_tasks (tasks : list Task) : M unit :=
  try_except (write_tasks_file tasks)
             (fun _ => (* logger.error *) ret tt).

Definition _archive_task (task : Task) : M unit :=
  try_except (write_archive_file task)
             (fun _ => (* logger.warning *) ret tt).

Definition _persist_task (task : Task) : M unit :=
  tasks <- _load_all_tasks ;;
  _persist_tasks (tasks ++ [task]).

(** [dependencies or []]: a caller that passes [None] passes the empty list
    here, and one that omits [priority] passes MEDIUM. *)
Definition add_task (title assigned_agent : string) (payload : dict)
           (priority : TaskPriority) (dependencies : list string) : M string :=
  task_id <- uuid8 ;;
  now <- datetime_now ;;
  let task := mkTask task_id title assigned_agent PENDING priority
                     dependencies payload now now None None None in
  _persist_task task ;;;
  ret task_id.

(** [next((t for t in tasks if t.id == task_id), None)] *)
Definition first_with_id (task_id : string) (tasks : list Task) : option Task :=
  find (fun t => String.eqb (id t) task_id) tasks.

Definition _dependencies_satisfied (task : Task) (all_tasks : list Task) : bool :=
  match dependencies task with
  | [] => true
  | deps =>
      forallb (fun dep_id =>
                 match first_with_id dep_id all_tasks with
                 | Some dep_task => status_eqb (status dep_task) COMPLETED
                 | None => false
                 end) deps
  end.

(** [sorted(l, key=...)]: Python's sort is stable, so the outcome is the
    one of inserting each element, from the last to the first, in front of
    the first element whose key is not smaller. *)
Fixpoint insert_by_key {A} (key : A -> Z) (x : A) (l : list A) : list A :=
  match l with
  | [] => [x]
  | y :: l' =>
      if (key x <=? key y)%Z then x :: y :: l'
      else y :: insert_by_key key x l'
  end.

Fixpoint sorted {A} (key : A -> Z) (l : list A) : list A :=
  match l with
  | [] => []
  | x :: l' => insert_by_key key x (sorted key l')
  end.

(** The list comprehension of [get_pending_tasks]. *)
Definition agent_tasks (agent_id : string) (tasks : list Task) : list Task :=
  filter (fun t => String.eqb (assigned_agent t) agent_id
                   && status_eqb (status t) PENDING
                   && _dependencies_satisfied t tasks) tasks.

Definition get_pending_tasks (agent_id : string) : M (list Task) :=
  tasks <- _load_all_tasks ;;
  ret (sorted (fun t => priority_value (priority t)) (agent_tasks agent_id tasks)).

Definition get_task (task_id : string) : M (option Task) :=
  tasks <- _load_all_tasks ;;
  ret (first_with_id task_id tasks).

(** The [for task in tasks: if task.id == task_id: ... break] of
    [update_task_status]. *)
Fixpoint update_first (task_id : string) (new_status : TaskStatus)
         (new_result : option dict) (tasks : list Task) : M (list Task) :=
  match tasks with
  | [] => ret []
  | task :: rest =>
      if String.eqb (id task) task_id then
        now <- datetime_now ;;
        let task := set_status new_status now task in
        task <- match new_status with
                | IN_PROGRESS => ret (set_assigned_at (updated_at task) task)
                | COMPLETED =>
                    let task := set_completed (updated_at task) new_result task in
                    _archive_task task ;;;
                    ret task
                | _ => ret task
                end ;;
        ret (task :: rest)
      else
        rest' <- update_first task_id new_status new_result rest ;;
        ret (task :: rest')
  end.

Definition update_task_status (task_id : string) (new_status : TaskStatus)
           (new_result : option dict) : M unit :=
  tasks <- _load_all_tasks ;;
  tasks <- update_first task_id new_status new_result tasks ;;
  _persist_tasks tasks.

(** The second half of [get_task_result]: the archived copy. *)
Definition archived_result (name : string) : M (option dict) :=
  e <- archive_file_exists name ;;
  if e then
    try_except (read_archived_result name)
               (fun _ => (* logger.warning *) ret None)
  else ret None.

Definition get_task_result (task_id : string) : M (option dict) :=
  task <- get_task task_id ;;
  match task with
  | Some t =>
      if result_truthy (result t) then ret (result t)
      else archived_result task_id
  | None => archived_result task_id
  end.

End TaskQueue.

(* ===================================================================== *)
(** ** Coordinator: the pipeline builder *)
(* ===================================================================== *)

Record Pipeline : Type := mkPipeline {
  pipeline_id : string;
  topic : string;
  tasks : list (string * string)
}.

Section Coordinator.
Variable env : Env.

Definition execute_content_pipeline (topic : string) : M Pipeline :=
  pipeline_id <- uuid8 env ;;
  research_task_id <-
    add_task env ("Research: " ++ topic) "agent:researcher:main"
             [("topic", VStr topic); ("max_sources", VInt 5); ("id", VStr "")]
             HIGH [] ;;
  analysis_task_id <-
    add_task env ("Analyze: " ++ topic) "agent:analyst:main"
             [("research_task_id", VStr research_task_id);
              ("research_data", VDict []); ("id", VStr "")]
             HIGH [research_task_id] ;;
  writing_task_id <-
    add_task env ("Write: " ++ topic) "agent:writer:main"
             [("analysis_task_id", VStr analysis_task_id);
              ("outline", VDict []); ("style_guide", VStr "professional");
              ("research_data", VDict []); ("id", VStr "")]
             MEDIUM [analysis_task_id] ;;
  seo_task_id <-
    add_task env ("SEO Optimize: " ++ topic) "agent:seo:main"
             [("writing_task_id", VStr writing_task_id);
              ("content", VStr ""); ("topic", VStr topic); ("id", VStr "")]
             MEDIUM [writing_task_id] ;;
  quality_task_id <-
    add_task env ("Quality Check: " ++ topic) "agent:quality:main"
             [("seo_task_id", VStr seo_task_id); ("content", VStr "");
              ("seo_data", VDict []); ("id", VStr "")]
             HIGH [seo_task_id] ;;
  ret (mkPipeline pipeline_id topic
         [("research", research_task_id); ("analysis", analysis_task_id);
          ("writing", writing_task_id); ("seo", seo_task_id);
          ("quality", quality_task_id)]).

End Coordinator.

(* ===================================================================== *)
(** ** WorkflowEngine: wiring, dispatch and the driving loop *)
(* ===================================================================== *)

(** [agent.execute_task]: what the worker answers at its n-th dispatch to
    the payload it is given, a result or an exception. *)
Definition Worker : Type := nat -> dict -> res dict.

(** [EnvironmentConfig.MAX_ITERATIONS] *)
Definition MAX_ITERATIONS : nat := 20.

Record Processing : Type := mkProcessing {
  tasks_processed : nat;
  results : list (string * dict)
}.

Record PipelineRun : Type := mkPipelineRun {
  pipeline : Pipeline;
  iterations : nat;
  final_results : list (string * dict)
}.

Record TaskInfo : Type := mkTaskInfo {
  info_title : string;
  info_status : string;
  info_agent : string
}.

Record PipelineStatus : Type := mkPipelineStatus {
  status_pipeline_id : string;
  status_tasks : list (string * TaskInfo);
  overall_status : string
}.

Section WorkflowEngine.
Variable env : Env.

(** [self.agents], in the order [_initialize_agents] fills it: the five
    workers of [AGENT_CONFIGURATIONS], then the coordinator. *)
Definition engine_agents (researcher analyst writer seo quality coordinator : Worker)
  : list (string * Worker) :=
  [("agent:researcher:main", researcher);
   ("agent:analyst:main", analyst);
   ("agent:writer:main", writer);
   ("agent:seo:main", seo);
   ("agent:quality:main", quality);
   ("agent:coordinator:main", coordinator)].

Variable agents : list (string * Worker).

Definition execute_task (agent : Worker) (task : dict) : M dict :=
  fun w =>
    (agent (n_exec w) task,
     mkWorld (tasks_file w) (completed_dir w) (n_uuid w) (n_clock w)
             (n_disk w) (S (n_exec w))).

(** [self.task_queue.get_task_result(v)] for a payload value [v]: no task
    id equals a value that is not a string, so only the archive is
    consulted for it, under the name Python formats. *)
Definition get_task_result_of (v : value) : M (option dict) :=
  match v with
  | VStr s => get_task_result s
  | _ => archived_result (py_str env v)
  end.

Definition _load_dependent_task_data (task : Task) : M Task :=
  (* Load research data for analyst *)
  task <-
    (if dict_has "research_task_id" (payload task) then
       let research_task_id := py_get "research_task_id" (payload task) in
       if truthy research_task_id then
         research_result <- get_task_result_of research_task_id ;;
         match research_result with
         | Some r =>
             if result_truthy research_result then
               ret (set_payload (dict_set "research_data" (VDict r) (payload task)) task)
             else ret task
         | None => ret task
         end
       else ret task
     else ret task) ;;
  (* Load analysis data (outline + research) for writer *)
  task <-
    (if dict_has "analysis_task_id" (payload task) then
       let analysis_task_id := py_get "analysis_task_id" (payload task) in
       if truthy analysis_task_id then
         analysis_result <- get_task_result_of analysis_task_id ;;
         match analysis_result with
         | Some a =>
             if result_truthy analysis_result then
               let task :=
                 set_payload (dict_set "outline"
                                (dict_get_default "outline" (VDict []) a)
                                (payload task)) task in
               (* Also load research data *)
               let research_task_id := py_get "research_task_id" (payload task) in
               if truthy research_task_id then
                 research_result <- get_task_result_of research_task_id ;;
                 match research_result with
                 | Some r =>
                     if result_truthy research_result then
                       ret (set_payload
                              (dict_set "research_data" (VDict r) (payload task)) task)
                     else ret task
                 | None => ret task
                 end
               else ret task
             else ret task
         | None => ret task
         end
       else ret task
     else ret task) ;;
  (* Load writing data for SEO *)
  task <-
    (if dict_has "writing_task_id" (payload task) then
       let writing_task_id := py_get "writing_task_id" (payload task) in
       if truthy writing_task_id then
         writing_result <- get_task_result_of writing_task_id ;;
         match writing_result with
         | Some r =>
             if result_truthy writing_result then
               let task :=
                 set_payload (dict_set "content"
                                (dict_get_default "content" (VStr "") r)
                                (payload task)) task in
               ret (set_payload (dict_set "topic"
                                   (dict_get_default "topic" (VStr "") r)
                                   (payload task)) task)
             else ret task
         | None => ret task
         end
       else ret task
     else ret task) ;;
  (* Load SEO data for quality *)
  if dict_has "seo_task_id" (payload task) then
    let seo_task_id := py_get "seo_task_id" (payload task) in
    if truthy seo_task_id then
      seo_result <- get_task_result_of seo_task_id ;;
      match seo_result with
      | Some r =>
          if result_truthy seo_result then
            let task :=
              set_payload (dict_set "content"
                             (dict_get_default "optimized_content" (VStr "") r)
                             (payload task)) task in
            ret (set_payload (dict_set "seo_data" (VDict r) (payload task)) task)
          else ret task
      | None => ret task
      end
    else ret task
  else ret task.

(** The body of [for task in pending_tasks] in [process_pending_tasks]. *)
Definition process_task (agent : Worker) (task : Task) (acc : Processing)
  : M Processing :=
  update_task_status env (id task) IN_PROGRESS None ;;;
  try_except
    (let task := set_payload (dict_set "id" (VStr (id task)) (payload task)) task in
     task <- _load_dependent_task_data task ;;
     result <- execute_task agent (payload task) ;;
     update_task_status env (id task) COMPLETED (Some result) ;;;
     ret (mkProcessing (S (tasks_processed acc))
                       (dict_set (id task) result (results acc))))
    (fun e =>
       update_task_status env (id task) FAILED None ;;;
       ret (mkProcessing (tasks_processed acc)
              (dict_set (id task)
                        [("status", VStr "failed"); ("error", VStr (exn_str e))]
                        (results acc)))).

Definition process_pending_tasks : M Processing :=
  for_each agents
    (fun entry acc =>
       let (agent_id, agent) := entry in
       if String.eqb agent_id "agent:coordinator:main" then
         ret acc (* Skip coordinator for now *)
       else
         pending_tasks <- get_pending_tasks agent_id ;;
         for_each pending_tasks (process_task agent) acc)
    (mkProcessing 0 []).

(** [t.id in pipeline["tasks"].values()] *)
Definition in_pipeline (p : Pipeline) (t : Task) : bool :=
  existsb (String.eqb (id t)) (dict_values (tasks p)).

(** The test made when an iteration processed nothing: does the loop
    [break]? *)
Definition pipeline_settled (p : Pipeline) : M bool :=
  all_tasks <- _load_all_tasks ;;
  let pipeline_tasks := filter (in_pipeline p) all_tasks in
  if forallb (fun t => status_eqb (status t) COMPLETED) pipeline_tasks then
    ret true
  else if forallb (fun t => status_eqb (status t) COMPLETED
                            || status_eqb (status t) FAILED) pipeline_tasks then
    ret true
  else ret false.

(** The [while iteration < max_iterations] loop of [run_content_pipeline];
    [_propagate_task_data] is [pass] and [asyncio.sleep] only waits. *)
Equations? run_loop (max_iterations : nat) (p : Pipeline) (iteration : nat)
           (all_results : list (string * dict))
  : M (nat * list (string * dict)) by wf (max_iterations - iteration) lt :=
  run_loop max_iterations p iteration all_results
    with lt_dec iteration max_iterations := {
    | left _ =>
        _completed_tasks <- _load_all_tasks ;;
        processing_results <- process_pending_tasks ;;
        stop <- (if Nat.eqb (tasks_processed processing_results) 0
                 then pipeline_settled p else ret false) ;;
        if (stop : bool) then ret (iteration, all_results)
        else run_loop max_iterations p (S iteration)
                      (dict_update all_results (results processing_results))
    | right _ => ret (iteration, all_results) }.
Proof. lia. Qed.

Definition collect_final_results (p : Pipeline) : M (list (string * dict)) :=
  for_each (dict_values (tasks p))
    (fun task_id final_results =>
       task <- get_task task_id ;;
       match task with
       | Some t =>
           match result t with
           | Some r =>
               if result_truthy (result t)
               then ret (dict_set task_id r final_results)
               else ret final_results
           | None => ret final_results
           end
       | None => ret final_results
       end)
    [].

Definition run_content_pipeline_with (max_iterations : nat) (topic : string)
  : M PipelineRun :=
  p <- execute_content_pipeline env topic ;;
  out <- run_loop max_iterations p 0 [] ;;
  final_results <- collect_final_results p ;;
  ret (mkPipelineRun p (fst out) final_results).

Definition run_content_pipeline (topic : string) : M PipelineRun :=
  run_content_pipeline_with MAX_ITERATIONS topic.

(** [status["tasks"]] after the loop over all live tasks. *)
Definition status_table (all_tasks : list Task) : list (string * TaskInfo) :=
  fold_left
    (fun table task =>
       dict_set (id task)
                (mkTaskInfo (title task) (status_value (status task))
                            (assigned_agent task))
                table)
    all_tasks [].

Definition overall_of (task_statuses : list string) : string :=
  if forallb (fun s => String.eqb s "completed") task_statuses then "completed"
  else if existsb (fun s => String.eqb s "failed") task_statuses then "failed"
  else if existsb (fun s => String.eqb s "in_progress") task_statuses
       then "in_progress"
  else "pending".

Definition get_pipeline_status (pipeline_id : string) : M PipelineStatus :=
  all_tasks <- _load_all_tasks ;;
  let table := status_table all_tasks in
  let task_statuses := map info_status (dict_values table) in
  ret (mkPipelineStatus pipeline_id table (overall_of task_statuses)).

End WorkflowEngine.

(* ===================================================================== *)
(** ** The HTTP API of [backend/main.py] *)
(* ===================================================================== *)

(** What an endpoint gives the client: the body it returns, the
    [HTTPException] it raises, or an exception nothing catches. *)
Inductive http (A : Type) : Type :=
| Answer (body : A)
| HTTPException (status_code : nat) (detail : string)
| Unhandled (e : exn).
Arguments Answer {A} body.
Arguments HTTPException {A} status_code detail.
Arguments Unhandled {A} e.

Definition Endpoint (A : Type) : Type := World -> http A * World.

Record Health : Type := mkHealth {
  health_status : string;
  engine_ready : bool
}.

Record TaskEntry : Type := mkTaskEntry {
  entry_id : string;
  entry_status : string;
  entry_title : string
}.

Record PipelineResponse : Type := mkPipelineResponse {
  response_pipeline_id : string;
  response_topic : string;
  response_status : string;
  response_tasks : list (string * TaskEntry)
}.

Record ResultEntry : Type := mkResultEntry {
  listed_title : string;
  listed_status : string;
  listed_result : dict
}.

Record PipelineResults : Type := mkPipelineResults {
  results_pipeline_id : string;
  results_table : list (string * ResultEntry)
}.

(** The engine as the API sees it: the agents [WorkflowEngine.__init__]
    registered. *)
Definition Engine : Type := list (string * Worker).

(** [startup_event]: no engine is built when [GROQ_API_KEY] is empty;
    otherwise the constructor runs, and may raise. *)
Definition startup_event (api_key : string) (WorkflowEngine : string -> res Engine)
  : res (option Engine) :=
  if String.eqb api_key "" then Ret None
  else match WorkflowEngine api_key with
       | Ret engine => Ret (Some engine)
       | Raise e => Raise e
       end.

Module Api.
Section Endpoints.
Variable env : Env.
(** The global [workflow_engine]. *)
Variable workflow_engine : option Engine.

Definition health : Endpoint Health :=
  fun w =>
    (Answer (mkHealth "healthy"
                      (match workflow_engine with Some _ => true | None => false end)),
     w).

(** The loop of [run_pipeline] that fills [task_statuses]. *)
Definition task_statuses_of (p : Pipeline) : M (list (string * TaskEntry)) :=
  for_each (tasks p)
    (fun item task_statuses =>
       let task_name := fst item in
       let task_id := snd item in
       task <- get_task task_id ;;
       match task with
       | Some t =>
           ret (dict_set task_name
                         (mkTaskEntry task_id (status_value (status t)) (title t))
                         task_statuses)
       | None => ret task_statuses
       end)
    [].

Definition run_pipeline (request_topic : string) : Endpoint PipelineResponse :=
  fun w =>
    match workflow_engine with
    | None => (HTTPException 503 "Workflow engine not initialized", w)
    | Some engine =>
        match (results <- run_content_pipeline env engine request_topic ;;
               let pipeline := pipeline results in
               task_statuses <- task_statuses_of pipeline ;;
               ret (mkPipelineResponse (pipeline_id pipeline) (topic pipeline)
                                       "completed" task_statuses)) w with
        | (Ret response, w') => (Answer response, w')
        | (Raise e, w') => (HTTPException 500 (exn_str e), w')
        end
    end.

Definition get_pipeline_status (pipeline_id : string) : Endpoint PipelineStatus :=
  fun w =>
    match workflow_engine with
    | None => (HTTPException 503 "Workflow engine not initialized", w)
    | Some engine =>
        match get_pipeline_status pipeline_id w with
        | (Ret status, w') => (Answer status, w')
        | (Raise e, w') => (Unhandled e, w')
        end
    end.

(** [results] after the loop of [get_pipeline_results] over all tasks. *)
Definition listed_results (all_tasks : list Task) : list (string * ResultEntry) :=
  fold_left
    (fun results task =>
       match result task with
       | Some r =>
           if result_truthy (result task)
           then dict_set (id task)
                         (mkResultEntry (title task) (status_value (status task)) r)
                         results
           else results
       | None => results
       end)
    all_tasks [].

Definition get_pipeline_results (pipeline_id : string) : Endpoint PipelineResults :=
  fun w =>
    match workflow_engine with
    | None => (HTTPException 503 "Workflow engine not initialized", w)
    | Some engine =>
        match _load_all_tasks w with
        | (Ret all_tasks, w') =>
            (Answer (mkPipelineResults pipeline_id (listed_results all_tasks)), w')
        | (Raise e, w') => (Unhandled e, w')
        end
    end.

End Endpoints.
End Api.

(* ===================================================================== *)
(** ** Agent sessions ([backend/src/agents/base_agent.py]) *)
(* ===================================================================== *)

Module BaseAgent.

(** [session.json] in the memory directory of an agent. A readable file
    holds a JSON object, which is what every write of [save_session] leaves
    there; a torn write leaves text that is not JSON. *)
Inductive session_state : Type :=
| SessionMissing
| SessionCorrupt
| SessionObject (d : dict).

Inductive error : Type :=
| OSError
| JSONDecodeError
| TypeError.

Inductive outcome (A : Type) : Type :=
| Done (a : A)
| Raised (e : error).
Arguments Done {A} a.
Arguments Raised {A} e.

(** The [AgentMemory] of one agent: its session file, and how many clock
    readings and writes the agent has made. *)
Record AgentMemory : Type := mkAgentMemory {
  session_file : session_state;
  n_clock : nat;
  n_disk : nat
}.

Record Agent : Type := mkAgent {
  agent_id : string;
  role : string;
  session : dict;
  memory : AgentMemory
}.

Section Methods.
Variable env : Env.

(** [AgentMemory.save_session] *)
Definition save_session (session_data : dict) (m : AgentMemory)
  : outcome unit * AgentMemory :=
  match disk env (n_disk m) with
  | WriteOk =>
      (Done tt, mkAgentMemory (SessionObject session_data) (n_clock m) (S (n_disk m)))
  | WriteRefused =>
      (Raised OSError, mkAgentMemory (session_file m) (n_clock m) (S (n_disk m)))
  | WriteTorn =>
      (Raised OSError, mkAgentMemory SessionCorrupt (n_clock m) (S (n_disk m)))
  end.

(** [AgentMemory.load_session] *)
Definition load_session (m : AgentMemory) : outcome dict :=
  match session_file m with
  | SessionMissing => Done []
  | SessionCorrupt => Raised JSONDecodeError
  | SessionObject d => Done d
  end.

(** [BaseAgent.__init__], on the memory directory as it is found. *)
Definition init (the_agent_id the_role : string) (m : AgentMemory)
  : outcome Agent * AgentMemory :=
  match load_session m with
  | Raised e => (Raised e, m)
  | Done loaded =>
      if truthy (VDict loaded) then (Done (mkAgent the_agent_id the_role loaded m), m)
      else
        let created_at := isoformat_now env (n_clock m) in
        let m1 := mkAgentMemory (session_file m) (S (n_clock m)) (n_disk m) in
        let fresh := [("agent_id", VStr the_agent_id); ("role", VStr the_role);
                      ("created_at", VStr created_at);
                      ("tasks_completed", VInt 0)] in
        match save_session fresh m1 with
        | (Done _, m2) => (Done (mkAgent the_agent_id the_role fresh m2), m2)
        | (Raised e, m2) => (Raised e, m2)
        end
  end.

(** [v + 1] *)
Definition plus_one (v : value) : outcome value :=
  match v with
  | VInt z => Done (VInt (z + 1))
  | VBool b => Done (VInt ((if b then 1 else 0) + 1))
  | _ => Raised TypeError
  end.

(** [BaseAgent.update_session]: the session object is changed in place,
    then saved. *)
Definition update_session (task_id status : string) (self : Agent)
  : outcome unit * Agent :=
  let s1 := dict_set "last_task_id" (VStr task_id) (session self) in
  let s2 := dict_set "last_task_status" (VStr status) s1 in
  let now := isoformat_now env (n_clock (memory self)) in
  let m1 := mkAgentMemory (session_file (memory self)) (S (n_clock (memory self)))
                          (n_disk (memory self)) in
  let s3 := dict_set "last_updated" (VStr now) s2 in
  let save s :=
    match save_session s m1 with
    | (r, m2) => (r, mkAgent (agent_id self) (role self) s m2)
    end in
  if String.eqb status "completed" then
    match plus_one (dict_get_default "tasks_completed" (VInt 0) s3) with
    | Done v => save (dict_set "tasks_completed" v s3)
    | Raised e => (Raised e, mkAgent (agent_id self) (role self) s3 m1)
    end
  else save s3.

End Methods.
End BaseAgent.

Unset Implicit Arguments.

(* ===================================================================== *)
(** ** Notions used to state the properties *)
(* ===================================================================== *)

(** The live task collection: what [tasks.json] holds when it can be read. *)
Definition live (w : World) : list Task :=
  match tasks_file w with
  | FileTasks l => l
  | _ => []
  end.

(** The order of a sort key. *)
Definition key_le {A} (key : A -> Z) (a b : A) : Prop := (key a <= key b)%Z.

(** The sort key of [get_pending_tasks]. *)
Definition priority_key (t : Task) : Z := priority_value (priority t).

(** The ready set of a worker, as [get_pending_tasks] computes it from the
    loaded list. *)
Definition ready (agent_id : string) (all : list Task) : list Task :=
  sorted priority_key (agent_tasks agent_id all).

(** Every write of the environment succeeds. *)
Definition healthy (env : Env) : Prop := forall n, disk env n = WriteOk.

(** What the matching branch of [update_task_status] makes of a task when
    the clock reads [now]. *)
Definition applied (s : TaskStatus) (r : option dict) (now : string) (t : Task)
  : Task :=
  let t := set_status s now t in
  match s with
  | IN_PROGRESS => set_assigned_at now t
  | COMPLETED => set_completed now r t
  | _ => t
  end.

(** The list [update_task_status] hands to [_persist_tasks]: [f] applied to
    the first task with the given id. *)
Fixpoint update_first_with (f : Task -> Task) (task_id : string)
         (l : list Task) : list Task :=
  match l with
  | [] => []
  | t :: rest =>
      if String.eqb (id t) task_id then f t :: rest
      else t :: update_first_with f task_id rest
  end.

(** The world after one more identifier, clock reading or dispatch. *)
Definition tick_uuid (w : World) : World :=
  mkWorld (tasks_file w) (completed_dir w) (S (n_uuid w)) (n_clock w)
          (n_disk w) (n_exec w).

Definition tick_clock (w : World) : World :=
  mkWorld (tasks_file w) (completed_dir w) (n_uuid w) (S (n_clock w))
          (n_disk w) (n_exec w).

Definition tick_exec (w : World) : World :=
  mkWorld (tasks_file w) (completed_dir w) (n_uuid w) (n_clock w)
          (n_disk w) (S (n_exec w)).

(** The world [_persist_tasks] leaves, by the fate of its write. *)
Definition after_persist (env : Env) (l : list Task) (w : World) : World :=
  mkWorld (match disk env (n_disk w) with
           | WriteOk => FileTasks l
           | WriteRefused => tasks_file w
           | WriteTorn => FileUnreadable
           end)
          (completed_dir w) (n_uuid w) (n_clock w) (S (n_disk w)) (n_exec w).

(** The world [_archive_task] leaves, by the fate of its write. *)
Definition after_archive (env : Env) (t : Task) (w : World) : World :=
  mkWorld (tasks_file w)
          (match disk env (n_disk w) with
           | WriteOk => dict_set (id t) (ArchiveTask t) (completed_dir w)
           | WriteRefused => completed_dir w
           | WriteTorn => dict_set (id t) ArchiveUnreadable (completed_dir w)
           end)
          (n_uuid w) (n_clock w) (S (n_disk w)) (n_exec w).

(** The world after the loop of [update_task_status]: untouched when no task
    has the id; otherwise the clock was read and, for COMPLETED, the task
    was archived. *)
Definition after_update_first (env : Env) (task_id : string) (s : TaskStatus)
           (r : option dict) (l : list Task) (w : World) : World :=
  match first_with_id task_id l with
  | None => w
  | Some t =>
      match s with
      | COMPLETED =>
          after_archive env (applied s r (isoformat_now env (n_clock w)) t)
                        (tick_clock w)
      | _ => tick_clock w
      end
  end.

(** The world after [update_task_status]. *)
Definition after_update (env : Env) (task_id : string) (s : TaskStatus)
           (r : option dict) (w : World) : World :=
  after_persist env
    (update_first_with (applied s r (isoformat_now env (n_clock w))) task_id (live w))
    (after_update_first env task_id s r (live w) w).

(** The task [add_task] builds in world [w]. *)
Definition new_task (env : Env) (title assigned_agent : string) (payload : dict)
           (priority : TaskPriority) (dependencies : list string) (w : World)
  : Task :=
  mkTask (substring 0 8 (uuid4 env (n_uuid w))) title assigned_agent PENDING
         priority dependencies payload
         (isoformat_now env (n_clock w)) (isoformat_now env (n_clock w))
         None None None.

(** The world after [add_task]. *)
Definition after_add (env : Env) (t : Task) (w : World) : World :=
  after_persist env (live w ++ [t]) (tick_clock (tick_uuid w)).

(** What the archive answers for a task id. *)
Definition archived (name : string) (w : World) : option dict :=
  match dict_get name (completed_dir w) with
  | Some (ArchiveTask t) => result t
  | _ => None
  end.

(** What [get_task_result] answers: the live result when it is neither
    [None] nor empty, the archived one otherwise. *)
Definition stored_result (task_id : string) (w : World) : option dict :=
  match first_with_id task_id (live w) with
  | Some t => if result_truthy (result t) then result t else archived task_id w
  | None => archived task_id w
  end.

(* ===================================================================== *)
(** ** Concrete environments and stores *)
(* ===================================================================== *)

(** Identifiers as [uuid4] could draw them, one per call. *)
Definition example_uuid (n : nat) : string :=
  nth n ["c0ffee00-1a2b-4c3d-8e4f-000000000000";
         "1b9d6bcd-bbfd-4b2d-9b5d-ab8dfbbd4bed";
         "7c9e6679-7425-40de-944b-e07fc1f90ae7";
         "3f2504e0-4f89-41d3-9a0c-0305e82c3301";
         "9a7b330a-a736-4f1e-b0c4-1f0e7e2d5a11";
         "e4eaaaf2-d142-11e1-b3e4-080027620cdd";
         "0e37df36-f698-11e6-8dd4-cb9ced3df976";
         "6fa459ea-ee8a-3ca4-894e-db77e160355e"]
      "ffffffff-ffff-4fff-8fff-ffffffffffff".

(** Clock readings, one second apart. *)
Definition example_clock (n : nat) : string :=
  "2025-01-01T00:00:"
  ++ String (ascii_of_nat (48 + (n / 10) mod 10))
       (String (ascii_of_nat (48 + n mod 10)) "").

(** A disk on which every write succeeds, one that refuses every write, and
    one that tears every write. *)
Definition example_env : Env :=
  mkEnv example_uuid example_clock (fun _ => WriteOk) (fun _ => "").

Definition refusing_env : Env :=
  mkEnv example_uuid example_clock (fun _ => WriteRefused) (fun _ => "").

Definition tearing_env : Env :=
  mkEnv example_uuid example_clock (fun _ => WriteTorn) (fun _ => "").

(** The queue directory right after [TaskQueue.__init__]. *)
Definition empty_world : World := mkWorld FileMissing [] 0 0 0 0.

(** The world a computation leaves, and its value when it returned. *)
Definition world_after {A} (m : M A) (w : World) : World := snd (m w).

Definition returned {A} (m : M A) (w : World) : option A :=
  match fst (m w) with
  | Ret a => Some a
  | Raise _ => None
  end.

(** One task, created and then completed with a result. *)
Definition example_result : dict :=
  [("status", VStr "completed"); ("data", VStr "test")].

Definition world_one_pending : World :=
  world_after (add_task example_env "Test Task" "test_agent" [] MEDIUM [])
              empty_world.

Definition world_one_completed : World :=
  world_after (update_task_status example_env "c0ffee00" COMPLETED
                                  (Some example_result))
              world_one_pending.

(* ===================================================================== *)
(** ** Sequences of queue operations *)
(* ===================================================================== *)

Inductive QueueOp : Type :=
| OpCreate (title assigned_agent : string) (payload : dict)
           (priority : TaskPriority) (dependencies : list string)
| OpUpdateStatus (task_id : string) (new_status : TaskStatus)
                 (new_result : option dict).

Definition run_op (env : Env) (o : QueueOp) : M unit :=
  match o with
  | OpCreate title agent payload prio deps =>
      add_task env title agent payload prio deps ;;; ret tt
  | OpUpdateStatus task_id s r => update_task_status env task_id s r
  end.

Fixpoint run_ops (env : Env) (ops : list QueueOp) : M unit :=
  match ops with
  | [] => ret tt
  | o :: ops' => run_op env o ;;; run_ops env ops'
  end.

(** The discipline of the driver's status writes: COMPLETED comes with a
    result, and no other status is written to a task that is COMPLETED. *)
Definition disciplined_op (o : QueueOp) (w : World) : bool :=
  match o with
  | OpCreate _ _ _ _ _ => true
  | OpUpdateStatus task_id s r =>
      match s with
      | COMPLETED => match r with Some _ => true | None => false end
      | _ =>
          match first_with_id task_id (live w) with
          | Some t => negb (status_eqb (status t) COMPLETED)
          | None => true
          end
      end
  end.

Fixpoint disciplined (env : Env) (ops : list QueueOp) (w : World) : bool :=
  match ops with
  | [] => true
  | o :: ops' =>
      disciplined_op o w && disciplined env ops' (world_after (run_op env o) w)
  end.

(** The invariant of the data model on one task. *)
Definition result_iff_completed (t : Task) : Prop :=
  result t <> None <-> status t = COMPLETED.

(* ===================================================================== *)
(** ** Pipeline status: the code's table and the document's join *)
(* ===================================================================== *)

(** The last task stored under an id: the one whose entry survives in the
    table of [get_pipeline_status], which is keyed by id. *)
Fixpoint last_with_id (task_id : string) (l : list Task) : option Task :=
  match l with
  | [] => None
  | t :: rest =>
      match last_with_id task_id rest with
      | Some u => Some u
      | None => if String.eqb (id t) task_id then Some t else None
      end
  end.

(** The tasks the table counts: one per id. *)
Definition counted (all : list Task) (t : Task) : Prop :=
  last_with_id (id t) all = Some t.

(** The design document's PipelineStatus, written after its words: join the
    pipeline's own task ids against the live store, then Completed iff all
    joined tasks are Completed, else Failed if any is Failed, else
    InProgress if any is InProgress, else Pending. *)
Definition joined_tasks (p : Pipeline) (all : list Task) : list Task :=
  flat_map (fun task_id =>
              match first_with_id task_id all with
              | Some t => [t]
              | None => []
              end)
           (dict_values (tasks p)).

Definition PipelineStatus_spec (p : Pipeline) (all : list Task) : TaskStatus :=
  let joined := joined_tasks p all in
  if forallb (fun t => status_eqb (status t) COMPLETED) joined then COMPLETED
  else if existsb (fun t => status_eqb (status t) FAILED) joined then FAILED
  else if existsb (fun t => status_eqb (status t) IN_PROGRESS) joined
       then IN_PROGRESS
  else PENDING.

(** Workers for the examples: one that answers every payload with a fixed
    result, one that answers with the payload it was given, one that
    raises. *)
Definition succeeding_worker : Worker :=
  fun _ _ => Ret [("status", VStr "completed");
                  ("outline", VDict [("title", VStr "Outline")]);
                  ("content", VStr "Text")].

Definition echo_worker : Worker :=
  fun _ payload => Ret payload.

Definition failing_worker : Worker :=
  fun _ _ => Raise (WorkerError "LLM call failed").

Definition succeeding_agents : list (string * Worker) :=
  engine_agents succeeding_worker succeeding_worker succeeding_worker
                succeeding_worker succeeding_worker succeeding_worker.

(** The pipeline that [execute_content_pipeline] builds in the example
    environment from the empty queue. *)
Definition example_pipeline : Pipeline :=
  mkPipeline "c0ffee00" "AI"
             [("research", "1b9d6bcd"); ("analysis", "7c9e6679");
              ("writing", "3f2504e0"); ("seo", "9a7b330a");
              ("quality", "e4eaaaf2")].

(** The store after a run in which every worker succeeded. *)
Definition world_pipeline_completed : World :=
  world_after (run_content_pipeline example_env succeeding_agents "AI")
              empty_world.

(** The same store after a task of another request was added and failed. *)
Definition world_with_foreign_failure : World :=
  world_after (run_ops example_env
                 [OpCreate "Research: Other" "agent:researcher:main" [] HIGH [];
                  OpUpdateStatus "0e37df36" FAILED None])
              world_pipeline_completed.

(** The entry of one task in the table of [get_pipeline_status]. *)
Definition task_info (t : Task) : TaskInfo :=
  mkTaskInfo (title t) (status_value (status t)) (assigned_agent t).

(* ===================================================================== *)
(** ** Notions for the driver *)
(* ===================================================================== *)

(** A computation that returns and leaves the world as it is. *)
Definition quiet {A} (m : M A) : Prop :=
  forall w, exists a, m w = (Ret a, w).

(** [exists()] answers for the archive name of [name]. *)
Definition examinable_at (w : World) (name : string) : Prop :=
  dict_get name (completed_dir w) <> Some ArchiveInaccessible.

(** The four payload keys [_load_dependent_task_data] follows, and the name
    under which [get_task_result] looks a payload value up. *)
Definition reference_keys : list string :=
  ["research_task_id"; "analysis_task_id"; "writing_task_id"; "seo_task_id"].

Definition reference_name (env : Env) (v : value) : string :=
  match v with
  | VStr s => s
  | _ => py_str env v
  end.

(** [name] is what a payload refers to under one of the four keys, with a
    value that is not falsy. *)
Definition referenced (env : Env) (payload : dict) (name : string) : Prop :=
  exists key, In key reference_keys /\
              truthy (py_get key payload) = true /\
              reference_name env (py_get key payload) = name.

(** [exists()] answers for every name the payload refers to. *)
Definition wirable (env : Env) (w : World) (payload : dict) : Prop :=
  forall name, referenced env payload name -> examinable_at w name.

(** So it does for the payload of every stored task. *)
Definition wirable_store (env : Env) (w : World) : Prop :=
  forall t, In t (live w) -> wirable env w (payload t).

(** What the payload of a task refers to is among its dependencies. *)
Definition refers_to_dependencies (env : Env) (t : Task) : Prop :=
  forall name, referenced env (payload t) name -> In name (dependencies t).

(** A computation that leaves the world as it is and, in world [w],
    returns, or raises where [allow] holds. *)
Definition reads {A} (allow : Prop) (w : World) (m : M A) : Prop :=
  (exists a, m w = (Ret a, w)) \/ (allow /\ exists e, m w = (Raise e, w)).

(** [t'] has the id of [t] and the same values under the four reference
    keys. *)
Definition same_references (t t' : Task) : Prop :=
  id t' = id t /\
  forall key, In key reference_keys ->
              py_get key (payload t') = py_get key (payload t).

(** Such a computation of a task with the id and the references of [t]. *)
Definition keeps_id (allow : Prop) (w : World) (t : Task) (m : M Task) : Prop :=
  (exists t', m w = (Ret t', w) /\ same_references t t') \/
  (allow /\ exists e, m w = (Raise e, w)).

(** A payload without any of the four keys the wiring step follows. *)
Definition unreferenced (payload : dict) : Prop :=
  dict_has "research_task_id" payload = false /\
  dict_has "analysis_task_id" payload = false /\
  dict_has "writing_task_id" payload = false /\
  dict_has "seo_task_id" payload = false.

(** The task [_load_dependent_task_data] leaves. *)
Definition wired (env : Env) (t : Task) (w : World) : Task :=
  match fst (_load_dependent_task_data env t w) with
  | Ret t' => t'
  | Raise _ => t
  end.

(** The payload a task is dispatched with. *)
Definition dispatched_payload (env : Env) (task : Task) (w : World) : dict :=
  payload (wired env
             (set_payload (dict_set "id" (VStr (id task)) (payload task)) task)
             w).

(** The [try] block of [process_pending_tasks] up to the worker's answer:
    the wiring step, which only reads, and then one dispatch; when the
    wiring step raises, there is no dispatch. *)
Definition attempt (env : Env) (agent : Worker) (task : Task) (w : World)
  : res dict * World :=
  match _load_dependent_task_data env
          (set_payload (dict_set "id" (VStr (id task)) (payload task)) task) w with
  | (Ret task', _) => (agent (n_exec w) (payload task'), tick_exec w)
  | (Raise e, _) => (Raise e, w)
  end.

(** The entry of the driver's result map for a failed task. *)
Definition failure_entry (e : exn) : dict :=
  [("status", VStr "failed"); ("error", VStr (exn_str e))].

(** The statuses of the tasks stored under an id. *)
Definition statuses_with_id (task_id : string) (l : list Task) : list TaskStatus :=
  map status (filter (fun t => String.eqb (id t) task_id) l).

(** A worker that raises at every dispatch, and one that returns at every
    dispatch. *)
Definition always_fails (worker : Worker) : Prop :=
  forall n payload, exists e, worker n payload = Raise e.

Definition always_succeeds (worker : Worker) : Prop :=
  forall n payload, exists r, worker n payload = Ret r.

(** Agents whose writer answers with the payload it was dispatched with. *)
Definition echo_writer_agents : list (string * Worker) :=
  engine_agents succeeding_worker succeeding_worker echo_worker
                succeeding_worker succeeding_worker succeeding_worker.

(** The payload [execute_content_pipeline] gives the writing task. *)
Definition writing_payload (analysis_task_id : string) : dict :=
  [("analysis_task_id", VStr analysis_task_id);
   ("outline", VDict []); ("style_guide", VStr "professional");
   ("research_data", VDict []); ("id", VStr "")].

(** The body of [for agent_id, agent in self.agents.items()]. *)
Definition agent_step (env : Env) (entry : string * Worker) (acc : Processing)
  : M Processing :=
  let (agent_id, agent) := entry in
  if String.eqb agent_id "agent:coordinator:main" then ret acc
  else
    pending_tasks <- get_pending_tasks agent_id ;;
    for_each pending_tasks (process_task env agent) acc.

(** A store that was left unreadable after a task had been completed and
    archived. *)
Definition world_damaged : World :=
  mkWorld FileUnreadable (completed_dir world_one_completed)
          (n_uuid world_one_completed) (n_clock world_one_completed)
          (n_disk world_one_completed) (n_exec world_one_completed).

(** The identifier [uuid8] yields at its k-th call from world [w] on. *)
Definition drawn_id (env : Env) (w : World) (k : nat) : string :=
  substring 0 8 (uuid4 env (k + n_uuid w)).

(** The clock reading at the k-th call from world [w] on. *)
Definition clock_at (env : Env) (w : World) (k : nat) : string :=
  isoformat_now env (k + n_clock w).

(** The pipeline [execute_content_pipeline] returns from world [w] and the
    five tasks it creates, in the order of their creation. *)
Definition built_pipeline (env : Env) (topic : string) (w : World) : Pipeline :=
  mkPipeline (drawn_id env w 0) topic
             [("research", drawn_id env w 1); ("analysis", drawn_id env w 2);
              ("writing", drawn_id env w 3); ("seo", drawn_id env w 4);
              ("quality", drawn_id env w 5)].

Definition built_tasks (env : Env) (topic : string) (w : World) : list Task :=
  [mkTask (drawn_id env w 1) ("Research: " ++ topic) "agent:researcher:main"
          PENDING HIGH []
          [("topic", VStr topic); ("max_sources", VInt 5); ("id", VStr "")]
          (clock_at env w 0) (clock_at env w 0) None None None;
   mkTask (drawn_id env w 2) ("Analyze: " ++ topic) "agent:analyst:main"
          PENDING HIGH [drawn_id env w 1]
          [("research_task_id", VStr (drawn_id env w 1));
           ("research_data", VDict []); ("id", VStr "")]
          (clock_at env w 1) (clock_at env w 1) None None None;
   mkTask (drawn_id env w 3) ("Write: " ++ topic) "agent:writer:main"
          PENDING MEDIUM [drawn_id env w 2]
          (writing_payload (drawn_id env w 2))
          (clock_at env w 2) (clock_at env w 2) None None None;
   mkTask (drawn_id env w 4) ("SEO Optimize: " ++ topic) "agent:seo:main"
          PENDING MEDIUM [drawn_id env w 3]
          [("writing_task_id", VStr (drawn_id env w 3)); ("content", VStr "");
           ("topic", VStr topic); ("id", VStr "")]
          (clock_at env w 3) (clock_at env w 3) None None None;
   mkTask (drawn_id env w 5) ("Quality Check: " ++ topic) "agent:quality:main"
          PENDING HIGH [drawn_id env w 4]
          [("seo_task_id", VStr (drawn_id env w 4)); ("content", VStr "");
           ("seo_data", VDict []); ("id", VStr "")]
          (clock_at env w 4) (clock_at env w 4) None None None].

(** The workers of the five stages, in the order of the stages, which is
    also the order in which the engine visits them. *)
Definition pipeline_agent_ids : list string :=
  ["agent:researcher:main"; "agent:analyst:main"; "agent:writer:main";
   "agent:seo:main"; "agent:quality:main"].

(** The dependencies of a linear chain: none for the first task, the
    previous task for every other one. *)
Definition chain_dependencies (ids : list string) : list (list string) :=
  match ids with
  | [] => []
  | _ :: _ => [] :: map (fun i => [i]) (removelast ids)
  end.

(** A store that holds exactly the five tasks of one pipeline, the first
    [k] of them COMPLETED and the others PENDING. *)
Definition chain_shape (ids : list string) (k : nat) (l : list Task) : Prop :=
  map id l = ids /\
  map assigned_agent l = pipeline_agent_ids /\
  map dependencies l = chain_dependencies ids /\
  map status l = (repeat COMPLETED k ++ repeat PENDING (5 - k))%list.

(** The ids of the five tasks [execute_content_pipeline] creates. *)
Definition built_ids (env : Env) (w : World) : list string :=
  [drawn_id env w 1; drawn_id env w 2; drawn_id env w 3; drawn_id env w 4;
   drawn_id env w 5].

(** A computation that returns in every world. *)
Definition returns {A} (m : M A) : Prop :=
  forall w, exists a w', m w = (Ret a, w').

(* ===================================================================== *)
(** ** Further stores for the examples *)
(* ===================================================================== *)

(** A parent task and a task of another worker that depends on it. *)
Definition world_parent_child : World :=
  world_after (run_ops example_env
                 [OpCreate "Parent Task" "agent1" [] MEDIUM [];
                  OpCreate "Child Task" "agent2" [] MEDIUM ["c0ffee00"]])
              empty_world.

(** An environment whose first write fails and whose later writes succeed:
    the archive copy of a first completion is lost, the task list is
    written. *)
Definition archive_failing_env : Env :=
  mkEnv example_uuid example_clock
        (fun n => match n with 0 => WriteRefused | _ => WriteOk end)
        (fun _ => "").

(** One PENDING task in a store whose write counter is back at zero. *)
Definition world_one_pending_fresh_disk : World :=
  mkWorld (tasks_file world_one_pending) (completed_dir world_one_pending)
          (n_uuid world_one_pending) (n_clock world_one_pending) 0
          (n_exec world_one_pending).

(** A store whose one PENDING task is assigned to the coordinator. *)
Definition world_coordinator_task : World :=
  world_after (add_task example_env "Plan" "agent:coordinator:main"
                        [("type", VStr "coordinate")] CRITICAL [])
              empty_world.

(** The result [collect_final_results] keeps for a task id: the live result
    when it is neither [None] nor empty. *)
Definition kept_result (task_id : string) (w : World) : option dict :=
  match first_with_id task_id (live w) with
  | Some t => if result_truthy (result t) then result t else None
  | None => None
  end.

(** A store that holds exactly the five tasks of one pipeline, the first
    FAILED and the others PENDING, none with a result. *)
Definition stuck_shape (ids : list string) (l : list Task) : Prop :=
  map id l = ids /\
  map assigned_agent l = pipeline_agent_ids /\
  map dependencies l = chain_dependencies ids /\
  map status l = [FAILED; PENDING; PENDING; PENDING; PENDING] /\
  Forall (fun t => result t = None) l.

(** Agents whose research worker raises at every dispatch. *)
Definition failing_research_agents : list (string * Worker) :=
  engine_agents failing_worker succeeding_worker succeeding_worker
                succeeding_worker succeeding_worker succeeding_worker.

(** A computation that returns and keeps a property of the world. *)
Definition preserves {A} (I : World -> Prop) (m : M A) : Prop :=
  forall w, I w -> exists a w', m w = (Ret a, w') /\ I w'.

(** The tasks a state of [tasks.json] yields when loaded. *)
Definition file_tasks (f : file_state) : list Task :=
  match f with
  | FileTasks l => l
  | _ => []
  end.

(** The state of [tasks.json] after [add_task] tried to store [t], by the
    fate of the write. *)
Definition written_file (env : Env) (n : nat) (f : file_state) (t : Task)
  : file_state :=
  match disk env n with
  | WriteOk => FileTasks (file_tasks f ++ [t])
  | WriteRefused => f
  | WriteTorn => FileUnreadable
  end.

(** A disk on which no write succeeds. *)
Definition failing_disk (env : Env) : Prop :=
  forall n, disk env n <> WriteOk.

(** The entry [get_pipeline_results] lists for a task that has a result. *)
Definition result_entry (t : Task) : ResultEntry :=
  mkResultEntry (title t) (status_value (status t))
                (match result t with Some r => r | None => [] end).

(** An engine constructor that always succeeds, for the examples. *)
Definition example_constructor (api_key : string) : res Engine :=
  Ret succeeding_agents.

(** A series of [update_session] calls, each a task id and a status; the
    series stops at the first call that raises. *)
Fixpoint run_updates (env : Env) (calls : list (string * string))
         (a : BaseAgent.Agent) : BaseAgent.outcome unit * BaseAgent.Agent :=
  match calls with
  | [] => (BaseAgent.Done tt, a)
  | (task_id, the_status) :: rest =>
      match BaseAgent.update_session env task_id the_status a with
      | (BaseAgent.Done _, a') => run_updates env rest a'
      | (BaseAgent.Raised e, a') => (BaseAgent.Raised e, a')
      end
  end.

(** How many calls of a series report "completed". *)
Definition completions (calls : list (string * string)) : nat :=
  List.length (filter (fun c => String.eqb (snd c) "completed") calls).

(** The session file holds the session object of the agent, and the
    session counts [k] completed tasks. *)
Definition session_saved (a : BaseAgent.Agent) (k : Z) : Prop :=
  BaseAgent.session_file (BaseAgent.memory a)
  = BaseAgent.SessionObject (BaseAgent.session a) /\
  dict_get "tasks_completed" (BaseAgent.session a) = Some (VInt k).

(** An empty memory directory, and an agent whose session counter was
    stored as text. *)
Definition empty_memory : BaseAgent.AgentMemory :=
  BaseAgent.mkAgentMemory BaseAgent.SessionMissing 0 0.

Definition agent_with_text_counter : BaseAgent.Agent :=
  BaseAgent.mkAgent "agent:writer:main" "Writer"
    [("agent_id", VStr "agent:writer:main"); ("tasks_completed", VStr "3")]
    (BaseAgent.mkAgentMemory
       (BaseAgent.SessionObject
          [("agent_id", VStr "agent:writer:main"); ("tasks_completed", VStr "3")])
       0 0).

(** An agent freshly constructed on an empty memory directory. *)
Definition fresh_agent (env : Env) (the_agent_id the_role : string)
  : BaseAgent.Agent :=
  match BaseAgent.init env the_agent_id the_role empty_memory with
  | (BaseAgent.Done a, _) => a
  | (BaseAgent.Raised _, m) => BaseAgent.mkAgent the_agent_id the_role [] m
  end.

(** From the [n0]-th write on, every write is refused. *)
Definition refusing_from (env : Env) (n0 : nat) : Prop :=
  forall n, n0 <= n -> disk env n = WriteRefused.

(** How many dispatches one pass over the agents makes on a store whose
    tasks are [all] and do not change: the ready tasks of every agent but
    the coordinator. *)
Definition dispatch_count (agents : list (string * Worker)) (all : list Task)
  : nat :=
  list_sum
    (map (fun entry =>
            if String.eqb (fst entry) "agent:coordinator:main" then 0
            else List.length (agent_tasks (fst entry) all))
         agents).

(** The files of [w'] are those of [w], and the writes of [w'] are past
    the [n0]-th. *)
Definition stalled (n0 : nat) (w w' : World) : Prop :=
  tasks_file w' = tasks_file w /\ completed_dir w' = completed_dir w /\
  n0 <= n_disk w'.

(** A disk that takes the first write and refuses every later one, and the
    store a research task leaves in it. *)
Definition first_write_only_env : Env :=
  mkEnv example_uuid example_clock
        (fun n => match n with 0 => WriteOk | _ => WriteRefused end)
        (fun _ => "").

Definition world_one_research_task : World :=
  world_after (add_task first_write_only_env "Research: AI"
                        "agent:researcher:main"
                        [("topic", VStr "AI"); ("max_sources", VInt 5);
                         ("id", VStr "")] HIGH [])
              empty_world.

(** Tasks of the three later stages that refer to the completed task of
    [world_one_completed]. *)
Definition example_stage_task (agent reference : string) (rest : dict) : Task :=
  mkTask "7c9e6679" "Stage" agent PENDING HIGH ["c0ffee00"]
         ((reference, VStr "c0ffee00") :: rest)
         "2025-01-01T00:00:01" "2025-01-01T00:00:01" None None None.

Definition example_analysis_task : Task :=
  example_stage_task "agent:analyst:main" "research_task_id"
                     [("research_data", VDict []); ("id", VStr "")].

Definition example_seo_task : Task :=
  example_stage_task "agent:seo:main" "writing_task_id"
                     [("content", VStr ""); ("topic", VStr "AI"); ("id", VStr "")].

Definition example_quality_task : Task :=
  example_stage_task "agent:quality:main" "seo_task_id"
                     [("content", VStr ""); ("seo_data", VDict []); ("id", VStr "")].

(** Identifiers that do not repeat within the first 256 calls: the call
    number in hexadecimal digits, then the rest of a version 4
    identifier. *)
Definition hex_digit (d : nat) : ascii :=
  ascii_of_nat (if d <? 10 then 48 + d else 87 + d)%nat.

Definition counting_uuid (n : nat) : string :=
  "000000"
  ++ String (hex_digit ((n / 16) mod 16))
       (String (hex_digit (n mod 16)) "-0000-4000-8000-000000000000").

Definition counting_env : Env :=
  mkEnv counting_uuid example_clock (fun _ => WriteOk) (fun _ => "").

(** A store that holds six tasks of the research worker from earlier
    requests, each depending on the one before it. *)
Definition world_backlog : World :=
  world_after
    (run_ops counting_env
       [OpCreate "Backlog 1" "agent:researcher:main" [] MEDIUM [];
        OpCreate "Backlog 2" "agent:researcher:main" [] MEDIUM ["00000000"];
        OpCreate "Backlog 3" "agent:researcher:main" [] MEDIUM ["00000001"];
        OpCreate "Backlog 4" "agent:researcher:main" [] MEDIUM ["00000002"];
        OpCreate "Backlog 5" "agent:researcher:main" [] MEDIUM ["00000003"];
        OpCreate "Backlog 6" "agent:researcher:main" [] MEDIUM ["00000004"]])
    empty_world.

(** A store that holds one task of an earlier request, which failed. *)
Definition world_one_failed : World :=
  world_after
    (run_ops counting_env
       [OpCreate "Research: Other" "agent:researcher:main" [] HIGH [];
        OpUpdateStatus "00000000" FAILED None])
    empty_world.

(** A disk that refuses its first write, takes the second and tears every
    later one: the archive copy of a first completion is lost, the task list
    is written, and the next write of the task list destroys it. *)
Definition archive_lost_then_torn_env : Env :=
  mkEnv example_uuid example_clock
        (fun n => match n with 0 => WriteRefused | 1 => WriteOk | _ => WriteTorn end)
        (fun _ => "").

(* ===================================================================== *)
(** ** Dictionaries, statuses and the stable sort *)
(* ===================================================================== *)

Lemma status_eqb_eq (a b : TaskStatus) : status_eqb a b = true <-> a = b.
Proof. destruct a, b; simpl; split; congruence. Qed.

Lemma status_eqb_refl (a : TaskStatus) : status_eqb a a = true.
Proof. now destruct a. Qed.

Lemma status_eqb_neq (a b : TaskStatus) : status_eqb a b = false <-> a <> b.
Proof. destruct a, b; simpl; split; congruence. Qed.

Lemma status_value_inj (a b : TaskStatus) :
  status_value a = status_value b -> a = b.
Proof. destruct a, b; simpl; intros H; try reflexivity; discriminate H. Qed.

Section SortFacts.
Context {A : Type} (key : A -> Z).

Lemma insert_by_key_perm (x : A) (l : list A) :
  Permutation (insert_by_key key x l) (x :: l).
Proof.
  induction l as [|y l IH]; simpl.
  - apply Permutation_refl.
  - destruct (key x <=? key y)%Z.
    + apply Permutation_refl.
    + eapply perm_trans; [apply perm_skip, IH | apply perm_swap].
Qed.

Lemma sorted_perm (l : list A) : Permutation (sorted key l) l.
Proof.
  induction l as [|x l IH]; simpl.
  - constructor.
  - eapply perm_trans; [apply insert_by_key_perm | now apply perm_skip].
Qed.

Lemma insert_by_key_sorted (x : A) (l : list A) :
  StronglySorted (key_le key) l ->
  StronglySorted (key_le key) (insert_by_key key x l).
Proof.
  induction 1 as [|y l Hs IH Hall]; simpl.
  - repeat constructor.
  - destruct (key x <=? key y)%Z eqn:E.
    + apply Z.leb_le in E. constructor.
      * now constructor.
      * constructor; [exact E|].
        eapply Forall_impl; [|exact Hall].
        intros z Hz. unfold key_le in *. lia.
    + apply Z.leb_gt in E. constructor; [exact IH|].
      eapply Permutation_Forall.
      * apply Permutation_sym, insert_by_key_perm.
      * constructor; [unfold key_le; lia | exact Hall].
Qed.

Lemma sorted_sorted (l : list A) : StronglySorted (key_le key) (sorted key l).
Proof.
  induction l as [|x l IH]; simpl.
  - constructor.
  - now apply insert_by_key_sorted.
Qed.

(** Stability: among the elements of one key, the order is the one of the
    input. *)
Lemma insert_by_key_stable (p : Z) (x : A) (l : list A) :
  filter (fun a => (key a =? p)%Z) (insert_by_key key x l)
  = filter (fun a => (key a =? p)%Z) (x :: l).
Proof.
  induction l as [|y l IH]; simpl.
  - reflexivity.
  - destruct (key x <=? key y)%Z eqn:E; simpl.
    + reflexivity.
    + apply Z.leb_gt in E. rewrite IH. simpl.
      destruct (key x =? p)%Z eqn:Ex, (key y =? p)%Z eqn:Ey; try reflexivity.
      apply Z.eqb_eq in Ex, Ey. lia.
Qed.

Lemma sorted_stable (p : Z) (l : list A) :
  filter (fun a => (key a =? p)%Z) (sorted key l)
  = filter (fun a => (key a =? p)%Z) l.
Proof.
  induction l as [|x l IH]; simpl.
  - reflexivity.
  - rewrite insert_by_key_stable. simpl. now rewrite IH.
Qed.
End SortFacts.

(* ===================================================================== *)
(** ** The queue's reads *)
(* ===================================================================== *)

Lemma load_all_tasks_live (w : World) : _load_all_tasks w = (Ret (live w), w).
Proof.
  unfold _load_all_tasks, bind, tasks_file_exists, try_except, read_tasks_file,
    live, ret.
  destruct w as [f d n1 n2 n3 n4]; simpl. destruct f; reflexivity.
Qed.

Lemma get_pending_tasks_ready (agent_id : string) (w : World) :
  get_pending_tasks agent_id w = (Ret (ready agent_id (live w)), w).
Proof.
  unfold get_pending_tasks, bind. now rewrite load_all_tasks_live.
Qed.

Lemma get_task_first (task_id : string) (w : World) :
  get_task task_id w = (Ret (first_with_id task_id (live w)), w).
Proof.
  unfold get_task, bind. now rewrite load_all_tasks_live.
Qed.

Lemma first_with_id_some (i : string) (l : list Task) (t : Task) :
  first_with_id i l = Some t -> In t l /\ id t = i.
Proof.
  unfold first_with_id. intros H. apply find_some in H.
  destruct H as [Hin Heq]. now apply String.eqb_eq in Heq.
Qed.

Lemma dependencies_satisfied_iff (t : Task) (all : list Task) :
  _dependencies_satisfied t all = true <->
  forall dep, In dep (dependencies t) ->
    exists d, first_with_id dep all = Some d /\ status d = COMPLETED.
Proof.
  unfold _dependencies_satisfied.
  destruct (dependencies t) as [|d0 ds] eqn:E.
  - split; [intros _ dep []|reflexivity].
  - rewrite forallb_forall. split.
    + intros H dep Hin. specialize (H dep Hin).
      destruct (first_with_id dep all) as [d|]; [|discriminate].
      exists d. split; [reflexivity|]. now apply status_eqb_eq.
    + intros H dep Hin. destruct (H dep Hin) as (d & -> & Hs).
      now apply status_eqb_eq.
Qed.

Lemma agent_tasks_In (agent_id : string) (all : list Task) (t : Task) :
  In t (agent_tasks agent_id all) <->
  In t all /\ assigned_agent t = agent_id /\ status t = PENDING
  /\ _dependencies_satisfied t all = true.
Proof.
  unfold agent_tasks. rewrite filter_In, !andb_true_iff, String.eqb_eq,
    status_eqb_eq. tauto.
Qed.

Lemma ready_In (agent_id : string) (all : list Task) (t : Task) :
  In t (ready agent_id all) <-> In t (agent_tasks agent_id all).
Proof.
  unfold ready. split; apply Permutation_in.
  - apply sorted_perm.
  - apply Permutation_sym, sorted_perm.
Qed.

(* ===================================================================== *)
(** ** The queue's writes *)
(* ===================================================================== *)

Lemma live_tick_clock (w : World) : live (tick_clock w) = live w.
Proof. reflexivity. Qed.

Lemma live_tick_uuid (w : World) : live (tick_uuid w) = live w.
Proof. reflexivity. Qed.

Lemma live_tick_exec (w : World) : live (tick_exec w) = live w.
Proof. reflexivity. Qed.

Lemma live_after_archive (env : Env) (t : Task) (w : World) :
  live (after_archive env t w) = live w.
Proof. reflexivity. Qed.

Lemma live_after_update_first env i s r l w :
  live (after_update_first env i s r l w) = live w.
Proof.
  unfold after_update_first. destruct (first_with_id i l); [|reflexivity].
  destruct s; reflexivity.
Qed.

Lemma persist_tasks_spec (env : Env) (l : list Task) (w : World) :
  _persist_tasks env l w = (Ret tt, after_persist env l w).
Proof.
  unfold _persist_tasks, try_except, write_tasks_file, after_persist, ret.
  destruct (disk env (n_disk w)); reflexivity.
Qed.

Lemma archive_task_spec (env : Env) (t : Task) (w : World) :
  _archive_task env t w = (Ret tt, after_archive env t w).
Proof.
  unfold _archive_task, try_except, write_archive_file, after_archive, ret.
  destruct (disk env (n_disk w)); reflexivity.
Qed.

Lemma live_after_persist_ok (env : Env) (l : list Task) (w : World) :
  disk env (n_disk w) = WriteOk -> live (after_persist env l w) = l.
Proof. unfold live, after_persist. simpl. now intros ->. Qed.

Lemma live_after_persist_refused (env : Env) (l : list Task) (w : World) :
  disk env (n_disk w) = WriteRefused -> live (after_persist env l w) = live w.
Proof. unfold live, after_persist. simpl. now intros ->. Qed.

Lemma update_first_spec env i s r (l : list Task) (w : World) :
  update_first env i s r l w
  = (Ret (update_first_with (applied s r (isoformat_now env (n_clock w))) i l),
     after_update_first env i s r l w).
Proof.
  unfold after_update_first, first_with_id.
  induction l as [|t l IH]; simpl.
  - reflexivity.
  - destruct (String.eqb (id t) i) eqn:E.
    + unfold bind, datetime_now. fold (tick_clock w).
      destruct s; simpl; try reflexivity.
      unfold bind. rewrite archive_task_spec. reflexivity.
    + unfold bind at 1. rewrite IH. reflexivity.
Qed.

Lemma update_task_status_spec env i s r (w : World) :
  update_task_status env i s r w = (Ret tt, after_update env i s r w).
Proof.
  unfold update_task_status, bind.
  rewrite load_all_tasks_live, update_first_spec, persist_tasks_spec.
  reflexivity.
Qed.

Lemma add_task_spec env title agent payload prio deps (w : World) :
  add_task env title agent payload prio deps w
  = (Ret (id (new_task env title agent payload prio deps w)),
     after_add env (new_task env title agent payload prio deps w) w).
Proof.
  unfold add_task, bind, uuid8, datetime_now, _persist_task, bind.
  fold (tick_uuid w). simpl. fold (tick_clock (tick_uuid w)).
  rewrite load_all_tasks_live, persist_tasks_spec. reflexivity.
Qed.

Lemma filter_split {A} (f : A -> bool) (l a b : list A) (x : A) :
  filter f l = (a ++ x :: b)%list ->
  exists l1 l2, l = (l1 ++ x :: l2)%list /\ filter f l1 = a /\ filter f l2 = b.
Proof.
  revert a. induction l as [|y l IH]; simpl; intros a H.
  - destruct a; discriminate.
  - destruct (f y) eqn:E.
    + destruct a as [|y' a]; simpl in H; inversion H; subst.
      * exists [], l. simpl. auto.
      * destruct (IH a H2) as (l1 & l2 & -> & H1 & H3).
        exists (y' :: l1), l2. simpl. rewrite E, H1. auto.
    + destruct (IH a H) as (l1 & l2 & -> & H1 & H3).
      exists (y :: l1), l2. simpl. rewrite E. auto.
Qed.

Lemma filter_keeps_order {A} (f : A -> bool) (l a b c : list A) (x y : A) :
  filter f l = (a ++ x :: b ++ y :: c)%list ->
  exists m1 m2 m3, l = (m1 ++ x :: m2 ++ y :: m3)%list.
Proof.
  intros H. apply filter_split in H. destruct H as (l1 & l2 & -> & _ & H).
  apply filter_split in H. destruct H as (l3 & l4 & -> & _ & _).
  now exists l1, l3, l4.
Qed.

(* ===================================================================== *)
(** ** Dictionary facts and the archive *)
(* ===================================================================== *)

Section DictFacts.
Context {V : Type}.
Implicit Types (d : list (string * V)) (k : string) (v : V).

Lemma dict_has_get k d : dict_has k d = true <-> dict_get k d <> None.
Proof.
  induction d as [|[k' v'] d IH]; simpl.
  - split; [discriminate | congruence].
  - destruct (String.eqb k' k); [|exact IH].
    split; [discriminate | reflexivity].
Qed.

Lemma dict_has_false k d : dict_has k d = false <-> dict_get k d = None.
Proof.
  induction d as [|[k' v'] d IH]; simpl.
  - tauto.
  - destruct (String.eqb k' k); [|exact IH].
    split; discriminate.
Qed.

Lemma dict_get_set_same k v d : dict_get k (dict_set k v d) = Some v.
Proof.
  induction d as [|[k' v'] d IH]; simpl.
  - now rewrite String.eqb_refl.
  - destruct (String.eqb k' k) eqn:E; simpl; rewrite E; auto.
Qed.

Lemma dict_get_set_other k k' v d :
  k' <> k -> dict_get k (dict_set k' v d) = dict_get k d.
Proof.
  intros Hne. induction d as [|[k0 v0] d IH]; simpl.
  - apply String.eqb_neq in Hne. now rewrite Hne.
  - destruct (String.eqb k0 k') eqn:E; simpl.
    + apply String.eqb_eq in E. subst k0.
      apply String.eqb_neq in Hne. now rewrite Hne.
    + destruct (String.eqb k0 k); auto.
Qed.

Lemma dict_set_keys_in k k' v d :
  In k (map fst (dict_set k' v d)) <-> k = k' \/ In k (map fst d).
Proof.
  induction d as [|[k0 v0] d IH]; simpl.
  - intuition.
  - destruct (String.eqb k0 k') eqn:E; simpl.
    + apply String.eqb_eq in E. subst. intuition.
    + rewrite IH. intuition.
Qed.

Lemma dict_set_NoDup k v d :
  NoDup (map fst d) -> NoDup (map fst (dict_set k v d)).
Proof.
  induction d as [|[k0 v0] d IH]; simpl; intros H.
  - repeat constructor. intros [].
  - inversion H as [|? ? Hnin Hnd]; subst.
    destruct (String.eqb k0 k) eqn:E; simpl.
    + now constructor.
    + constructor; [|auto].
      rewrite dict_set_keys_in. intros [->|Hin]; [|contradiction].
      now rewrite String.eqb_refl in E.
Qed.

Lemma dict_get_In k v d :
  NoDup (map fst d) -> In (k, v) d <-> dict_get k d = Some v.
Proof.
  induction d as [|[k0 v0] d IH]; simpl; intros H.
  - split; [intros [] | discriminate].
  - inversion H as [|? ? Hnin Hnd]; subst.
    destruct (String.eqb k0 k) eqn:E.
    + apply String.eqb_eq in E. subst k0. split.
      * intros [Heq|Hin]; [congruence|].
        exfalso. apply Hnin. now apply (in_map fst) in Hin.
      * intros Heq. left. congruence.
    + rewrite <- (IH Hnd). split; [|tauto].
      intros [Heq|Hin]; [|exact Hin].
      inversion Heq; subst. now rewrite String.eqb_refl in E.
Qed.
End DictFacts.

Lemma archived_result_cases (name : string) (w : World) :
  archived_result name w
  = match dict_get name (completed_dir w) with
    | Some ArchiveInaccessible => (Raise OSError, w)
    | _ => (Ret (archived name w), w)
    end.
Proof.
  unfold archived_result, bind, archive_file_exists, try_except,
    read_archived_result, archived, ret. cbv beta.
  destruct (dict_get name (completed_dir w)) as [[|t|]|] eqn:E;
    cbv beta iota; rewrite ?E; reflexivity.
Qed.

Lemma archived_result_spec (name : string) (w : World) :
  dict_get name (completed_dir w) <> Some ArchiveInaccessible ->
  archived_result name w = (Ret (archived name w), w).
Proof.
  intros H. rewrite archived_result_cases.
  destruct (dict_get name (completed_dir w)) as [[|t|]|]; try reflexivity.
  now destruct H.
Qed.

Lemma get_task_result_cases (task_id : string) (w : World) :
  get_task_result task_id w
  = match first_with_id task_id (live w) with
    | Some t => if result_truthy (result t) then (Ret (result t), w)
                else archived_result task_id w
    | None => archived_result task_id w
    end.
Proof.
  unfold get_task_result, bind. rewrite get_task_first.
  destruct (first_with_id task_id (live w)) as [t|]; [|reflexivity].
  destruct (result_truthy (result t)); reflexivity.
Qed.

Lemma get_task_result_spec (task_id : string) (w : World) :
  dict_get task_id (completed_dir w) <> Some ArchiveInaccessible ->
  get_task_result task_id w = (Ret (stored_result task_id w), w).
Proof.
  intros H. rewrite get_task_result_cases. unfold stored_result.
  destruct (first_with_id task_id (live w)) as [t|];
    [destruct (result_truthy (result t)); [reflexivity|]|];
    now apply archived_result_spec.
Qed.

Lemma get_task_result_live (task_id : string) (w : World) (t : Task) :
  first_with_id task_id (live w) = Some t ->
  result_truthy (result t) = true ->
  get_task_result task_id w = (Ret (result t), w).
Proof.
  intros Hf Ht. now rewrite get_task_result_cases, Hf, Ht.
Qed.

Lemma get_task_result_inaccessible (task_id : string) (w : World) :
  (forall t, first_with_id task_id (live w) = Some t ->
             result_truthy (result t) = false) ->
  dict_get task_id (completed_dir w) = Some ArchiveInaccessible ->
  get_task_result task_id w = (Raise OSError, w).
Proof.
  intros Hlive Harch. rewrite get_task_result_cases, archived_result_cases, Harch.
  destruct (first_with_id task_id (live w)) as [t|]; [|reflexivity].
  now rewrite (Hlive t eq_refl).
Qed.

Lemma id_applied s r now t : id (applied s r now t) = id t.
Proof. now destruct s. Qed.

Lemma status_applied s r now t : status (applied s r now t) = s.
Proof. now destruct s. Qed.

Lemma result_applied s r now t :
  result (applied s r now t) = match s with COMPLETED => r | _ => result t end.
Proof. now destruct s. Qed.

Lemma first_with_id_update_same (f : Task -> Task) i (l : list Task) :
  (forall t, id (f t) = id t) ->
  first_with_id i (update_first_with f i l) = option_map f (first_with_id i l).
Proof.
  intros Hf. unfold first_with_id.
  induction l as [|t l IH]; simpl; [reflexivity|].
  destruct (String.eqb (id t) i) eqn:E; simpl.
  - now rewrite Hf, E.
  - now rewrite E.
Qed.

Lemma first_with_id_update_other (f : Task -> Task) i j (l : list Task) :
  (forall t, id (f t) = id t) -> i <> j ->
  first_with_id j (update_first_with f i l) = first_with_id j l.
Proof.
  intros Hf Hne. unfold first_with_id.
  induction l as [|t l IH]; simpl; [reflexivity|].
  destruct (String.eqb (id t) i) eqn:E; simpl.
  - apply String.eqb_eq in E. rewrite Hf.
    replace (String.eqb (id t) j) with false; [reflexivity|].
    symmetry. apply String.eqb_neq. congruence.
  - now rewrite IH.
Qed.

Lemma map_id_update_first_with (f : Task -> Task) i (l : list Task) :
  (forall t, id (f t) = id t) ->
  map id (update_first_with f i l) = map id l.
Proof.
  intros Hf. induction l as [|t l IH]; simpl; [reflexivity|].
  destruct (String.eqb (id t) i); simpl; [now rewrite Hf | now rewrite IH].
Qed.

Lemma live_after_update (env : Env) i s r (w : World) :
  healthy env ->
  live (after_update env i s r w)
  = update_first_with (applied s r (isoformat_now env (n_clock w))) i (live w).
Proof. intros H. unfold after_update. now rewrite live_after_persist_ok. Qed.

(* ===================================================================== *)
(** ** Sequences of operations *)
(* ===================================================================== *)

Lemma In_update_first_with (f : Task -> Task) i (l : list Task) (x : Task) :
  In x (update_first_with f i l) ->
  In x l \/ exists t, first_with_id i l = Some t /\ x = f t.
Proof.
  unfold first_with_id. induction l as [|t l IH]; simpl; [tauto|].
  destruct (String.eqb (id t) i); simpl.
  - intros [<-|Hin]; [right; eauto | left; auto].
  - intros [<-|Hin]; [left; auto|].
    destruct (IH Hin) as [H|H]; [left; auto | right; exact H].
Qed.

Lemma run_op_spec (env : Env) (o : QueueOp) (w : World) :
  run_op env o w = (Ret tt, world_after (run_op env o) w).
Proof.
  unfold world_after. destruct o as [title agent pl prio deps | i s r]; simpl.
  - unfold bind. rewrite add_task_spec. reflexivity.
  - rewrite update_task_status_spec. reflexivity.
Qed.

Lemma live_after_persist_cases (env : Env) (l : list Task) (w : World) :
  live (after_persist env l w) = l
  \/ live (after_persist env l w) = live w
  \/ live (after_persist env l w) = [].
Proof.
  unfold after_persist, live. simpl.
  destruct (disk env (n_disk w)); auto.
Qed.

Lemma run_op_keeps_invariant (env : Env) (o : QueueOp) (w : World) :
  (forall t, In t (live w) -> result_iff_completed t) ->
  disciplined_op o w = true ->
  forall t, In t (live (world_after (run_op env o) w)) -> result_iff_completed t.
Proof.
  intros Hinv Hok.
  assert (Hnew : exists l w1,
            live (world_after (run_op env o) w) = live (after_persist env l w1)
            /\ live w1 = live w
            /\ forall t, In t l -> result_iff_completed t).
  { destruct o as [title agent pl prio deps | i s r]; unfold world_after; simpl.
    - unfold bind. rewrite add_task_spec. simpl. unfold after_add.
      eexists _, _. split; [reflexivity|]. split; [reflexivity|].
      intros t Hin. apply in_app_or in Hin. destruct Hin as [Hin|[<-|[]]].
      + now apply Hinv.
      + unfold result_iff_completed. simpl. split; [congruence|discriminate].
    - rewrite update_task_status_spec. simpl. unfold after_update.
      eexists _, _. split; [reflexivity|].
      split; [apply live_after_update_first|].
      intros t Hin. apply In_update_first_with in Hin.
      destruct Hin as [Hin | (t0 & Hfirst & ->)]; [now apply Hinv|].
      unfold result_iff_completed.
      rewrite result_applied, status_applied.
      simpl in Hok. rewrite Hfirst in Hok.
      pose proof (Hinv t0 (proj1 (first_with_id_some _ _ _ Hfirst))) as Ht0.
      unfold result_iff_completed in Ht0.
      destruct s; try (destruct r; [|discriminate]);
        try (split; [|discriminate]; intros Hr; apply Ht0 in Hr;
             rewrite Hr in Hok; discriminate).
      split; [reflexivity | discriminate]. }
  destruct Hnew as (l & w1 & -> & Hw1 & Hl).
  intros t. destruct (live_after_persist_cases env l w1) as [-> | [-> | ->]].
  - apply Hl.
  - rewrite Hw1. apply Hinv.
  - intros [].
Qed.

(* ===================================================================== *)
(** ** The status table *)
(* ===================================================================== *)

Lemma last_with_id_some (i : string) (l : list Task) (t : Task) :
  last_with_id i l = Some t -> In t l /\ id t = i.
Proof.
  induction l as [|u l IH]; simpl; [discriminate|].
  destruct (last_with_id i l) as [v|].
  - intros H. inversion H; subst. destruct IH as [Hin Hid]; auto.
  - destruct (String.eqb (id u) i) eqn:E; [|discriminate].
    intros H. inversion H; subst. apply String.eqb_eq in E. auto.
Qed.

Lemma last_with_id_none (i : string) (l : list Task) :
  last_with_id i l = None -> ~ In i (map id l).
Proof.
  induction l as [|u l IH]; simpl; [tauto|].
  destruct (last_with_id i l) as [v|]; [discriminate|].
  destruct (String.eqb (id u) i) eqn:E; [discriminate|].
  intros _ [Heq|Hin]; [|now apply IH].
  apply String.eqb_neq in E. contradiction.
Qed.

Lemma counted_when_unique (all : list Task) (t : Task) :
  NoDup (map id all) -> In t all -> counted all t.
Proof.
  unfold counted. induction all as [|u l IH]; simpl; [tauto|].
  intros Hnd Hin. inversion Hnd as [|? ? Hnin Hnd']; subst.
  destruct Hin as [->|Hin].
  - destruct (last_with_id (id t) l) as [v|] eqn:E.
    + apply last_with_id_some in E. destruct E as [Hv Hid].
      exfalso. apply Hnin. rewrite <- Hid. now apply in_map.
    + now rewrite String.eqb_refl.
  - now rewrite IH.
Qed.

Lemma fold_status_table_get (l : list Task) (tb : list (string * TaskInfo)) k :
  dict_get k
    (fold_left (fun table task => dict_set (id task) (task_info task) table) l tb)
  = match last_with_id k l with
    | Some t => Some (task_info t)
    | None => dict_get k tb
    end.
Proof.
  revert tb. induction l as [|t l IH]; intros tb; simpl; [reflexivity|].
  rewrite IH. destruct (last_with_id k l); [reflexivity|].
  destruct (String.eqb (id t) k) eqn:E.
  - apply String.eqb_eq in E. subst k. apply dict_get_set_same.
  - apply String.eqb_neq in E. now apply dict_get_set_other.
Qed.

Lemma fold_status_table_NoDup (l : list Task) (tb : list (string * TaskInfo)) :
  NoDup (map fst tb) ->
  NoDup (map fst
    (fold_left (fun table task => dict_set (id task) (task_info task) table) l tb)).
Proof.
  revert tb. induction l as [|t l IH]; intros tb H; simpl; [exact H|].
  apply IH. now apply dict_set_NoDup.
Qed.

Lemma status_table_get (all : list Task) k :
  dict_get k (status_table all) = option_map task_info (last_with_id k all).
Proof.
  unfold status_table. fold task_info.
  change (fun table task =>
            dict_set (id task)
              (mkTaskInfo (title task) (status_value (status task))
                          (assigned_agent task)) table)
    with (fun table task => dict_set (id task) (task_info task) table).
  rewrite fold_status_table_get. now destruct (last_with_id k all).
Qed.

Lemma status_table_NoDup (all : list Task) : NoDup (map fst (status_table all)).
Proof. apply fold_status_table_NoDup. constructor. Qed.

Lemma status_table_statuses (all : list Task) (s : string) :
  In s (map info_status (dict_values (status_table all))) <->
  exists t, counted all t /\ status_value (status t) = s.
Proof.
  unfold dict_values. rewrite map_map, in_map_iff. split.
  - intros ([k info] & Hs & Hin). simpl in Hs.
    rewrite dict_get_In in Hin by apply status_table_NoDup.
    rewrite status_table_get in Hin.
    destruct (last_with_id k all) as [t|] eqn:E; [|discriminate].
    inversion Hin; subst. exists t. split; [|reflexivity].
    unfold counted. destruct (last_with_id_some _ _ _ E) as [_ ->]. exact E.
  - intros (t & Hc & Hs). exists (id t, task_info t). split; [exact Hs|].
    rewrite dict_get_In by apply status_table_NoDup.
    rewrite status_table_get. unfold counted in Hc. now rewrite Hc.
Qed.

Lemma get_pipeline_status_spec (pipeline_id : string) (w : World) :
  get_pipeline_status pipeline_id w
  = (Ret (mkPipelineStatus pipeline_id (status_table (live w))
            (overall_of (map info_status (dict_values (status_table (live w)))))),
     w).
Proof.
  unfold get_pipeline_status, bind. now rewrite load_all_tasks_live.
Qed.

Lemma overall_of_cases (l : list string) :
  (overall_of l = "completed" <->
     forallb (fun s => String.eqb s "completed") l = true) /\
  (overall_of l = "failed" <->
     forallb (fun s => String.eqb s "completed") l = false /\
     existsb (fun s => String.eqb s "failed") l = true) /\
  (overall_of l = "in_progress" <->
     forallb (fun s => String.eqb s "completed") l = false /\
     existsb (fun s => String.eqb s "failed") l = false /\
     existsb (fun s => String.eqb s "in_progress") l = true) /\
  (overall_of l = "pending" <->
     forallb (fun s => String.eqb s "completed") l = false /\
     existsb (fun s => String.eqb s "failed") l = false /\
     existsb (fun s => String.eqb s "in_progress") l = false).
Proof.
  unfold overall_of.
  destruct (forallb (fun s => String.eqb s "completed") l),
           (existsb (fun s => String.eqb s "failed") l),
           (existsb (fun s => String.eqb s "in_progress") l);
    repeat split; intros; repeat match goal with H : _ /\ _ |- _ => destruct H end;
    try reflexivity; discriminate.
Qed.

Lemma table_all_completed (all : list Task) :
  forallb (fun s => String.eqb s "completed")
          (map info_status (dict_values (status_table all))) = true
  <-> (forall t, counted all t -> status t = COMPLETED).
Proof.
  rewrite forallb_forall. split.
  - intros H t Hc. apply status_value_inj. simpl. apply String.eqb_eq, H.
    apply status_table_statuses. eauto.
  - intros H s Hin. apply status_table_statuses in Hin.
    destruct Hin as (t & Hc & <-). now rewrite (H t Hc).
Qed.

Lemma table_any_status (all : list Task) (s0 : TaskStatus) :
  existsb (fun s => String.eqb s (status_value s0))
          (map info_status (dict_values (status_table all))) = true
  <-> (exists t, counted all t /\ status t = s0).
Proof.
  rewrite existsb_exists. split.
  - intros (s & Hin & Heq). apply String.eqb_eq in Heq. subst s.
    apply status_table_statuses in Hin. destruct Hin as (t & Hc & Hs).
    exists t. split; [exact Hc|]. now apply status_value_inj.
  - intros (t & Hc & Hs). exists (status_value s0).
    split; [|apply String.eqb_refl].
    apply status_table_statuses. exists t. now rewrite Hs.
Qed.

(* ===================================================================== *)
(** ** The wiring step and the dispatch of one task *)
(* ===================================================================== *)

Lemma reads_archived_result (allow : Prop) (name : string) (w : World) :
  examinable_at w name \/ allow -> reads allow w (archived_result name).
Proof.
  intros H. unfold reads. rewrite archived_result_cases.
  destruct (dict_get name (completed_dir w)) as [[|t|]|] eqn:E;
    try (left; eexists; reflexivity).
  destruct H as [H|H]; [exfalso; apply H; exact E | right; eauto].
Qed.

Lemma reads_get_task_result_of (env : Env) (allow : Prop) (v : value)
      (w : World) :
  examinable_at w (reference_name env v) \/ allow ->
  reads allow w (get_task_result_of env v).
Proof.
  intros H.
  destruct v; cbn [reference_name get_task_result_of] in *;
    try (apply reads_archived_result; exact H).
  unfold reads. rewrite get_task_result_cases.
  destruct (first_with_id s (live w)) as [t|];
    [|apply reads_archived_result; exact H].
  destruct (result_truthy (result t));
    [left; eexists; reflexivity | apply reads_archived_result; exact H].
Qed.

Lemma py_get_set_other (k k' : string) (v : value) (d : dict) :
  k' <> k -> py_get k (dict_set k' v d) = py_get k d.
Proof.
  intros Hne. unfold py_get, dict_get_default.
  now rewrite dict_get_set_other.
Qed.

Lemma same_references_refl (t : Task) : same_references t t.
Proof. split; [reflexivity | intros; reflexivity]. Qed.

Lemma same_references_set (t t' : Task) (k : string) (v : value) :
  ~ In k reference_keys -> same_references t t' ->
  same_references t (set_payload (dict_set k v (payload t')) t').
Proof.
  intros Hk [Hid Hrefs]. split; [exact Hid|].
  intros key Hin. cbn [payload set_payload].
  rewrite py_get_set_other; [now apply Hrefs|].
  intros ->. now apply Hk.
Qed.

Lemma wirable_reference (env : Env) (allow : Prop) (w : World) (t t' : Task)
      (key : string) :
  wirable env w (payload t) \/ allow -> same_references t t' ->
  In key reference_keys ->
  truthy (py_get key (payload t')) = true ->
  examinable_at w (reference_name env (py_get key (payload t'))) \/ allow.
Proof.
  intros [H|H] [_ Hrefs] Hk Ht; [left | now right].
  rewrite (Hrefs key Hk) in *. apply H. exists key. auto.
Qed.

Lemma keeps_id_ret (allow : Prop) (w : World) (t t' : Task) :
  same_references t t' -> keeps_id allow w t (ret t').
Proof. intros H. left. exists t'. now split. Qed.

Lemma keeps_id_bind (allow : Prop) (w : World) (t : Task) (m : M Task)
      (k : Task -> M Task) :
  keeps_id allow w t m ->
  (forall t', same_references t t' -> keeps_id allow w t (k t')) ->
  keeps_id allow w t (bind m k).
Proof.
  intros [(t1 & E1 & H1) | (Ha & e & E1)] Hk.
  - destruct (Hk t1 H1) as [(t2 & E2 & H2) | (Ha & e & E2)].
    + left. exists t2. unfold bind. rewrite E1. now split.
    + right. split; [exact Ha|]. exists e. unfold bind. now rewrite E1.
  - right. split; [exact Ha|]. exists e. unfold bind. now rewrite E1.
Qed.

Lemma keeps_id_after_reads {A} (allow : Prop) (w : World) (t : Task)
      (m : M A) (k : A -> M Task) :
  reads allow w m -> (forall a, keeps_id allow w t (k a)) ->
  keeps_id allow w t (bind m k).
Proof.
  intros [(a & E1) | (Ha & e & E1)] Hk.
  - destruct (Hk a) as [(t2 & E2 & H2) | (Ha & e & E2)].
    + left. exists t2. unfold bind. rewrite E1. now split.
    + right. split; [exact Ha|]. exists e. unfold bind. now rewrite E1.
  - right. split; [exact Ha|]. exists e. unfold bind. now rewrite E1.
Qed.

Ltac same_refs :=
  repeat first
    [ assumption
    | apply same_references_set; [simpl; intuition discriminate|] ].

Ltac wiring_cases env H :=
  repeat first
    [ apply keeps_id_ret; same_refs
    | apply keeps_id_after_reads;
      [ apply (reads_get_task_result_of env);
        eapply (wirable_reference env);
        [exact H | same_refs | simpl; tauto | eassumption]
      | intros ? ]
    | match goal with
      | |- keeps_id _ _ _ (if ?b then _ else _) => destruct b eqn:?
      | |- keeps_id _ _ _ (match ?o with Some _ => _ | None => _ end) =>
          destruct o
      end
    | progress cbv zeta ].

(** The wiring step only reads; it returns a task with the id and the
    references it was given, or raises what [exists()] raised on an archive
    name the payload refers to. *)
Lemma load_dependent_task_data_keeps_id (env : Env) (allow : Prop) (t : Task)
      (w : World) :
  wirable env w (payload t) \/ allow ->
  keeps_id allow w t (_load_dependent_task_data env t).
Proof.
  intros H. pose proof (same_references_refl t) as H0.
  unfold _load_dependent_task_data.
  apply keeps_id_bind; [wiring_cases env H|]. intros t1 H1.
  apply keeps_id_bind; [wiring_cases env H|]. intros t2 H2.
  apply keeps_id_bind; [wiring_cases env H|]. intros t3 H3.
  wiring_cases env H.
Qed.

Lemma wirable_with_id (env : Env) (w : World) (v : value) (payload : dict) :
  wirable env w payload -> wirable env w (dict_set "id" v payload).
Proof.
  intros H name (key & Hk & Ht & Hn). apply H. exists key.
  assert (Hne : "id" <> key)
    by (intros <-; simpl in Hk; intuition discriminate).
  rewrite py_get_set_other in Ht, Hn by exact Hne. auto.
Qed.

Lemma load_dependent_task_data_wirable (env : Env) (t : Task) (w : World) :
  wirable env w (payload t) ->
  _load_dependent_task_data env t w = (Ret (wired env t w), w)
  /\ id (wired env t w) = id t.
Proof.
  intros Hx. unfold wired.
  destruct (load_dependent_task_data_keeps_id env False t w (or_introl Hx))
    as [(t' & E & H & _) | ([] & _)].
  rewrite E. now split.
Qed.

Lemma dict_has_set_other {V} k k' (v : V) (d : list (string * V)) :
  k' <> k -> dict_has k (dict_set k' v d) = dict_has k d.
Proof.
  intros Hne. induction d as [|[k0 v0] d IH]; simpl.
  - apply String.eqb_neq in Hne. now rewrite Hne.
  - destruct (String.eqb k0 k') eqn:E; simpl.
    + apply String.eqb_eq in E. subst k0. reflexivity.
    + now rewrite IH.
Qed.

(** A task whose payload follows no reference is dispatched as it is. *)
Lemma load_dependent_task_data_unreferenced (env : Env) (t : Task) (w : World) :
  unreferenced (payload t) ->
  _load_dependent_task_data env t w = (Ret t, w).
Proof.
  intros (H1 & H2 & H3 & H4). unfold _load_dependent_task_data.
  rewrite H1. unfold bind at 1, ret at 1. cbv beta iota.
  rewrite H2. unfold bind at 1, ret at 1. cbv beta iota.
  rewrite H3. unfold bind at 1, ret at 1. cbv beta iota.
  rewrite H4. reflexivity.
Qed.

Lemma unreferenced_with_id (v : value) (payload : dict) :
  unreferenced payload -> unreferenced (dict_set "id" v payload).
Proof.
  intros (H1 & H2 & H3 & H4). unfold unreferenced.
  rewrite !dict_has_set_other by discriminate. auto.
Qed.

Lemma attempt_cases (env : Env) (agent : Worker) (task : Task) (w : World) :
  (exists dispatched,
     attempt env agent task w = (agent (n_exec w) dispatched, tick_exec w)) \/
  (exists e, attempt env agent task w = (Raise e, w)).
Proof.
  unfold attempt.
  destruct (load_dependent_task_data_keeps_id env True
              (set_payload (dict_set "id" (VStr (id task)) (payload task)) task)
              w (or_intror I)) as [(t' & E & _) | (_ & e & E)]; rewrite E.
  - left. eexists. reflexivity.
  - right. eexists. reflexivity.
Qed.

Lemma attempt_wirable (env : Env) (agent : Worker) (task : Task) (w : World) :
  wirable env w (payload task) ->
  attempt env agent task w
  = (agent (n_exec w) (dispatched_payload env task w), tick_exec w).
Proof.
  intros Hx. unfold attempt, dispatched_payload.
  destruct (load_dependent_task_data_wirable env
              (set_payload (dict_set "id" (VStr (id task)) (payload task)) task)
              w) as [E _].
  { cbn [payload set_payload]. now apply wirable_with_id. }
  now rewrite E.
Qed.

Lemma attempt_unreferenced (env : Env) (agent : Worker) (task : Task)
      (w : World) :
  unreferenced (payload task) ->
  attempt env agent task w
  = (agent (n_exec w) (dict_set "id" (VStr (id task)) (payload task)),
     tick_exec w).
Proof.
  intros Hu. unfold attempt.
  rewrite load_dependent_task_data_unreferenced; [reflexivity|].
  cbn [payload set_payload]. now apply unreferenced_with_id.
Qed.

Lemma process_task_spec (env : Env) (agent : Worker) (task : Task)
      (acc : Processing) (w : World) :
  process_task env agent task acc w
  = let w1 := after_update env (id task) IN_PROGRESS None w in
    match attempt env agent task w1 with
    | (Ret result, w2) =>
        (Ret (mkProcessing (S (tasks_processed acc))
                           (dict_set (id task) result (results acc))),
         after_update env (id task) COMPLETED (Some result) w2)
    | (Raise e, w2) =>
        (Ret (mkProcessing (tasks_processed acc)
                           (dict_set (id task) (failure_entry e) (results acc))),
         after_update env (id task) FAILED None w2)
    end.
Proof.
  unfold process_task, bind at 1. rewrite update_task_status_spec.
  cbv zeta. unfold try_except, bind at 1, attempt.
  set (w1 := after_update env (id task) IN_PROGRESS None w).
  destruct (load_dependent_task_data_keeps_id env True
              (set_payload (dict_set "id" (VStr (id task)) (payload task)) task)
              w1 (or_intror I)) as [(t' & E & Hid & _) | (_ & e & E)]; rewrite E.
  - unfold bind at 1, execute_task at 1. fold (tick_exec w1).
    destruct (agent _ _) as [result|e].
    + unfold bind. rewrite Hid. simpl. rewrite update_task_status_spec.
      reflexivity.
    + unfold bind. rewrite update_task_status_spec. reflexivity.
  - unfold bind. rewrite update_task_status_spec. reflexivity.
Qed.

(* ===================================================================== *)
(** ** One pass over the agents *)
(* ===================================================================== *)

Lemma statuses_update_other (f : Task -> Task) i j (l : list Task) :
  (forall t, id (f t) = id t) -> i <> j ->
  statuses_with_id j (update_first_with f i l) = statuses_with_id j l.
Proof.
  intros Hf Hne. unfold statuses_with_id.
  induction l as [|t l IH]; simpl; [reflexivity|].
  destruct (String.eqb (id t) i) eqn:E; simpl.
  - apply String.eqb_eq in E. rewrite Hf.
    replace (String.eqb (id t) j) with false; [reflexivity|].
    symmetry. apply String.eqb_neq. congruence.
  - destruct (String.eqb (id t) j); simpl; now rewrite IH.
Qed.

Lemma statuses_update_same (f : Task -> Task) i s s0 (l : list Task) :
  (forall t, id (f t) = id t) -> (forall t, status (f t) = s) ->
  statuses_with_id i l = [s0] ->
  statuses_with_id i (update_first_with f i l) = [s].
Proof.
  intros Hf Hs. unfold statuses_with_id.
  induction l as [|t l IH]; simpl; [discriminate|].
  destruct (String.eqb (id t) i) eqn:E; simpl.
  - rewrite Hf, E. simpl. rewrite Hs. intros H. inversion H. reflexivity.
  - rewrite E. exact IH.
Qed.

Lemma statuses_with_id_In i s (l : list Task) (x : Task) :
  statuses_with_id i l = [s] -> In x l -> id x = i -> status x = s.
Proof.
  intros H Hin Hid.
  assert (Hs : In (status x) (statuses_with_id i l)).
  { unfold statuses_with_id. apply in_map, filter_In. split; [exact Hin|].
    now apply String.eqb_eq. }
  rewrite H in Hs. destruct Hs as [Hs|[]]. now symmetry.
Qed.

Lemma examinable_at_set (name k : string) (v : archive_file)
      (d : list (string * archive_file)) :
  v <> ArchiveInaccessible ->
  dict_get name d <> Some ArchiveInaccessible ->
  dict_get name (dict_set k v d) <> Some ArchiveInaccessible.
Proof.
  intros Hv Hd. destruct (String.eqb k name) eqn:E.
  - apply String.eqb_eq in E. subst name. rewrite dict_get_set_same.
    congruence.
  - apply String.eqb_neq in E. now rewrite dict_get_set_other by exact E.
Qed.

Lemma examinable_at_after_update (env : Env) i s r (w : World) (name : string) :
  examinable_at w name -> examinable_at (after_update env i s r w) name.
Proof.
  intros Hx. unfold examinable_at, after_update, after_persist.
  cbn [completed_dir]. unfold after_update_first.
  destruct (first_with_id i (live w)); [|exact Hx].
  destruct s; try exact Hx.
  unfold after_archive. cbn [completed_dir tick_clock].
  destruct (disk env _); [|exact Hx|];
    apply examinable_at_set; try exact Hx; discriminate.
Qed.

Lemma wirable_after_update (env : Env) i s r (w : World) (payload : dict) :
  wirable env w payload -> wirable env (after_update env i s r w) payload.
Proof. intros H name Hn. apply examinable_at_after_update, H, Hn. Qed.

Lemma archive_entry_after_completion (env : Env) (w : World)
      (task_id : string) (t : Task) (r : option dict) :
  first_with_id task_id (live w) = Some t ->
  disk env (n_disk w) = WriteOk ->
  dict_get task_id (completed_dir (after_update env task_id COMPLETED r w))
  = Some (ArchiveTask (applied COMPLETED r (isoformat_now env (n_clock w)) t)).
Proof.
  intros Hfirst Hdisk.
  unfold after_update, after_update_first. rewrite Hfirst. simpl.
  rewrite Hdisk.
  destruct (first_with_id_some _ _ _ Hfirst) as [_ Hid].
  rewrite <- Hid at 1. apply dict_get_set_same.
Qed.

Lemma first_with_id_of_In (x : Task) (l : list Task) :
  In x l -> exists t, first_with_id (id x) l = Some t.
Proof.
  unfold first_with_id. induction l as [|t l IH]; simpl; [tauto|].
  intros [->|Hin].
  - rewrite String.eqb_refl. eauto.
  - destruct (String.eqb (id t) (id x)); eauto.
Qed.

Lemma first_with_id_update_present (f : Task -> Task) i (l : list Task) :
  (forall t, id (f t) = id t) ->
  forall t, first_with_id i l = Some t ->
            exists t', first_with_id i (update_first_with f i l) = Some t'.
Proof.
  intros Hf t Hfirst.
  rewrite first_with_id_update_same by exact Hf. rewrite Hfirst.
  simpl. eauto.
Qed.

Lemma process_task_effect (env : Env) (agent : Worker) (x : Task)
      (acc : Processing) (w : World) :
  healthy env ->
  exists acc' w' s2 r2 now1 now2,
    process_task env agent x acc w = (Ret acc', w') /\
    live w' = update_first_with (applied s2 r2 now2) (id x)
                (update_first_with (applied IN_PROGRESS None now1) (id x) (live w)) /\
    (always_fails agent ->
     s2 = FAILED /\ tasks_processed acc' = tasks_processed acc) /\
    (always_succeeds agent -> wirable env w (payload x) ->
     s2 = COMPLETED /\ tasks_processed acc' = S (tasks_processed acc)) /\
    (forall name, examinable_at w name -> examinable_at w' name) /\
    (s2 = COMPLETED -> In x (live w) -> examinable_at w' (id x)).
Proof.
  intros Hh. rewrite process_task_spec. cbv zeta.
  set (w1 := after_update env (id x) IN_PROGRESS None w).
  assert (Hx1 : forall name, examinable_at w name -> examinable_at w1 name)
    by (intros; now apply examinable_at_after_update).
  assert (Hlive1 : live w1
                   = update_first_with
                       (applied IN_PROGRESS None (isoformat_now env (n_clock w)))
                       (id x) (live w))
    by (unfold w1; now rewrite live_after_update).
  destruct (attempt_cases env agent x w1) as [(p & Ea) | (e & Ea)]; rewrite Ea.
  - destruct (agent (n_exec w1) p) as [result|e] eqn:E.
    + eexists _, _, COMPLETED, _, _, _. split; [reflexivity|].
      split; [|split; [|split; [|split]]].
      * rewrite live_after_update by exact Hh.
        rewrite live_tick_exec, Hlive1. reflexivity.
      * intros Hf. destruct (Hf (n_exec w1) p) as [e' He']. congruence.
      * intros _ _. split; reflexivity.
      * intros name Hx. now apply examinable_at_after_update, Hx1.
      * intros _ Hin. destruct (first_with_id_of_In x (live w) Hin) as (t & Ht).
        destruct (first_with_id_update_present
                    (applied IN_PROGRESS None (isoformat_now env (n_clock w)))
                    (id x) (live w) (fun t0 => id_applied _ _ _ t0) t Ht)
          as (t1 & Ht1).
        rewrite <- Hlive1 in Ht1. unfold examinable_at.
        rewrite (archive_entry_after_completion env (tick_exec w1) (id x) t1
                   (Some result) Ht1 (Hh _)).
        discriminate.
    + eexists _, _, FAILED, _, _, _. split; [reflexivity|].
      split; [|split; [|split; [|split]]].
      * rewrite live_after_update by exact Hh.
        rewrite live_tick_exec, Hlive1. reflexivity.
      * intros _. split; reflexivity.
      * intros Hs _. destruct (Hs (n_exec w1) p) as [r' Hr']. congruence.
      * intros name Hx. now apply examinable_at_after_update, Hx1.
      * discriminate.
  - eexists _, _, FAILED, _, _, _. split; [reflexivity|].
    split; [|split; [|split; [|split]]].
    + rewrite live_after_update by exact Hh. rewrite Hlive1. reflexivity.
    + intros _. split; reflexivity.
    + intros Hs Hx. exfalso.
      rewrite (attempt_wirable env agent x w1) in Ea
        by (unfold w1; now apply wirable_after_update).
      apply (f_equal snd) in Ea. apply (f_equal n_exec) in Ea.
      simpl in Ea. lia.
    + intros name Hx. now apply examinable_at_after_update, Hx1.
    + discriminate.
Qed.

(** Tasks stored under other ids leave the statuses under [rid] alone. *)
Lemma process_other_tasks (env : Env) (agent : Worker) (rid : string)
      (L : list Task) (acc : Processing) (w : World) :
  healthy env ->
  (forall x, In x L -> id x <> rid) ->
  exists acc' w',
    for_each L (process_task env agent) acc w = (Ret acc', w') /\
    statuses_with_id rid (live w') = statuses_with_id rid (live w).
Proof.
  intros Hh. revert acc w. induction L as [|x L IH]; intros acc w Hne; simpl.
  - exists acc, w. split; reflexivity.
  - destruct (process_task_effect env agent x acc w Hh)
      as (acc1 & w1 & s2 & r2 & now1 & now2 & E & Hlive & _ & _).
    destruct (IH acc1 w1) as (acc' & w' & E' & Hst).
    { intros y Hy. apply Hne. now right. }
    exists acc', w'. unfold bind. rewrite E. split; [exact E'|].
    rewrite Hst, Hlive.
    assert (id x <> rid) by (apply Hne; now left).
    rewrite !statuses_update_other; auto; intros; apply id_applied.
Qed.

(** A worker that always fails leaves the task under [rid] FAILED if it
    was among the tasks dispatched. *)
Lemma process_failing_tasks (env : Env) (agent : Worker) (rid : string)
      (L : list Task) (acc : Processing) (w : World) (s0 : TaskStatus) :
  healthy env -> always_fails agent ->
  statuses_with_id rid (live w) = [s0] ->
  exists acc' w',
    for_each L (process_task env agent) acc w = (Ret acc', w') /\
    tasks_processed acc' = tasks_processed acc /\
    statuses_with_id rid (live w')
    = [if existsb (fun x => String.eqb (id x) rid) L then FAILED else s0].
Proof.
  intros Hh Hf. revert acc w s0. induction L as [|x L IH]; intros acc w s0 Hst; simpl.
  - exists acc, w. auto.
  - destruct (process_task_effect env agent x acc w Hh)
      as (acc1 & w1 & s2 & r2 & now1 & now2 & E & Hlive & Hfail & _).
    destruct (Hfail Hf) as [-> Hacc].
    destruct (String.eqb (id x) rid) eqn:Ex.
    + apply String.eqb_eq in Ex.
      assert (Hst1 : statuses_with_id rid (live w1) = [FAILED]).
      { rewrite Hlive, Ex.
        eapply statuses_update_same;
          [intros; apply id_applied | intros; apply status_applied |].
        eapply statuses_update_same;
          [intros; apply id_applied | intros; apply status_applied | exact Hst]. }
      destruct (IH acc1 w1 FAILED Hst1) as (acc' & w' & E' & Hacc' & Hst').
      exists acc', w'. unfold bind. rewrite E. split; [exact E'|].
      split; [congruence|]. rewrite Hst'. simpl.
      now destruct (existsb _ L).
    + apply String.eqb_neq in Ex.
      assert (Hst1 : statuses_with_id rid (live w1) = [s0]).
      { rewrite Hlive, !statuses_update_other; auto; intros; apply id_applied. }
      destruct (IH acc1 w1 s0 Hst1) as (acc' & w' & E' & Hacc' & Hst').
      exists acc', w'. unfold bind. rewrite E. split; [exact E'|].
      split; [congruence|]. exact Hst'.
Qed.

Lemma settled_task_not_ready rid s (l : list Task) :
  statuses_with_id rid l = [s] -> s <> PENDING ->
  forall agent_id x, In x (ready agent_id l) -> id x <> rid.
Proof.
  intros Hst Hs a x Hin Hid.
  apply ready_In, agent_tasks_In in Hin. destruct Hin as (Hin & _ & Hp & _).
  apply Hs. rewrite <- Hp. symmetry.
  eapply statuses_with_id_In; eassumption.
Qed.

Lemma process_pending_tasks_steps (env : Env) (agents : list (string * Worker)) :
  process_pending_tasks env agents
  = for_each agents (agent_step env) (mkProcessing 0 []).
Proof. reflexivity. Qed.

(** Once the task under [rid] is no longer PENDING, no pass changes it. *)
Lemma agents_keep_settled_task (env : Env) (rid : string) (s : TaskStatus)
      (agents : list (string * Worker)) (acc : Processing) (w : World) :
  healthy env -> s <> PENDING ->
  statuses_with_id rid (live w) = [s] ->
  exists acc' w',
    for_each agents (agent_step env) acc w = (Ret acc', w') /\
    statuses_with_id rid (live w') = [s].
Proof.
  intros Hh Hs. revert acc w.
  induction agents as [|[agent_id agent] agents IH]; intros acc w Hst; simpl.
  - exists acc, w. auto.
  - unfold bind at 1.
    destruct (String.eqb agent_id "agent:coordinator:main").
    + unfold ret at 1. apply IH, Hst.
    + unfold bind at 1. rewrite get_pending_tasks_ready.
      destruct (process_other_tasks env agent rid (ready agent_id (live w)) acc w Hh)
        as (acc1 & w1 & E & Hst1).
      { now apply (settled_task_not_ready rid s (live w) Hst Hs). }
      rewrite E. apply IH. now rewrite Hst1.
Qed.

(* ===================================================================== *)
(** ** The pipeline builder and the driving loop *)
(* ===================================================================== *)

Lemma add_task_healthy (env : Env) title agent pl prio deps
      (f : file_state) d nu nc nd ne :
  healthy env ->
  add_task env title agent pl prio deps (mkWorld f d nu nc nd ne)
  = (Ret (substring 0 8 (uuid4 env nu)),
     mkWorld (FileTasks (live (mkWorld f d nu nc nd ne)
                         ++ [mkTask (substring 0 8 (uuid4 env nu)) title agent
                                    PENDING prio deps pl (isoformat_now env nc)
                                    (isoformat_now env nc) None None None]))
             d (S nu) (S nc) (S nd) ne).
Proof.
  intros Hh. rewrite add_task_spec. unfold after_add, after_persist, new_task.
  cbn [n_disk tick_clock tick_uuid n_uuid n_clock tasks_file completed_dir
       n_exec id].
  rewrite Hh. reflexivity.
Qed.

Lemma execute_content_pipeline_spec (env : Env) (topic : string) (w : World) :
  healthy env ->
  exists w',
    execute_content_pipeline env topic w = (Ret (built_pipeline env topic w), w')
    /\ live w' = (live w ++ built_tasks env topic w)%list.
Proof.
  intros Hh. destruct w as [f d nu nc nd ne].
  unfold execute_content_pipeline.
  unfold bind at 1. unfold uuid8 at 1.
  cbn [n_uuid tasks_file completed_dir n_clock n_disk n_exec].
  do 5 (unfold bind at 1; rewrite add_task_healthy by exact Hh;
        cbn [live tasks_file]).
  unfold ret. eexists. split.
  - reflexivity.
  - cbn [live tasks_file]. rewrite <- !app_assoc. reflexivity.
Qed.

Lemma run_loop_step (env : Env) (agents : list (string * Worker))
      (max_iterations : nat) (p : Pipeline) (iteration : nat)
      (all_results : list (string * dict)) :
  run_loop env agents max_iterations p iteration all_results
  = if (iteration <? max_iterations)%nat then
      _completed_tasks <- _load_all_tasks ;;
      processing_results <- process_pending_tasks env agents ;;
      stop <- (if Nat.eqb (tasks_processed processing_results) 0
               then pipeline_settled p else ret false) ;;
      if (stop : bool) then ret (iteration, all_results)
      else run_loop env agents max_iterations p (S iteration)
                    (dict_update all_results (results processing_results))
    else ret (iteration, all_results).
Proof.
  rewrite run_loop_equation_1.
  destruct (lt_dec iteration max_iterations) as [Hlt|Hge].
  - rewrite run_loop_clause_1_equation_1.
    destruct (Nat.ltb_spec iteration max_iterations); [reflexivity|lia].
  - rewrite run_loop_clause_1_equation_2.
    destruct (Nat.ltb_spec iteration max_iterations); [lia|reflexivity].
Qed.

Lemma pipeline_settled_quiet (p : Pipeline) : quiet (pipeline_settled p).
Proof.
  intros w. unfold pipeline_settled, bind. rewrite load_all_tasks_live.
  destruct (forallb _ _); [eexists; reflexivity|].
  destruct (forallb _ _); eexists; reflexivity.
Qed.

Lemma for_each_quiet {A S} (l : list A) (body : A -> S -> M S) (acc : S) :
  (forall x acc, quiet (body x acc)) -> quiet (for_each l body acc).
Proof.
  intros Hb. revert acc. induction l as [|x l IH]; intros acc w; simpl.
  - eexists. reflexivity.
  - destruct (Hb x acc w) as (acc1 & E). destruct (IH acc1 w) as (acc2 & E2).
    exists acc2. unfold bind. now rewrite E.
Qed.

Lemma collect_final_results_quiet (p : Pipeline) :
  quiet (collect_final_results p).
Proof.
  unfold collect_final_results. apply for_each_quiet.
  intros task_id fr w. unfold bind. rewrite get_task_first.
  destruct (first_with_id task_id (live w)) as [t|]; [|eexists; reflexivity].
  destruct (result t); [|eexists; reflexivity].
  destruct (result_truthy _); eexists; reflexivity.
Qed.

(** An invariant of the world that every pass over the agents keeps is kept
    by the loop, which returns an iteration count within the ceiling. *)
Lemma run_loop_invariant (env : Env) (agents : list (string * Worker))
      (I : World -> Prop) :
  (forall w, I w ->
     exists pr w', process_pending_tasks env agents w = (Ret pr, w') /\ I w') ->
  forall max_iterations p iteration all_results w,
    I w ->
    exists iteration' results' w',
      run_loop env agents max_iterations p iteration all_results w
      = (Ret (iteration', results'), w') /\
      I w' /\ iteration <= iteration' /\
      (iteration <= max_iterations -> iteration' <= max_iterations).
Proof.
  intros Hpass max_iterations p iteration.
  remember (max_iterations - iteration) as k eqn:Hk.
  revert iteration Hk.
  induction k as [|k IH]; intros iteration Hk all_results w Hw;
    rewrite run_loop_step.
  - destruct (Nat.ltb_spec iteration max_iterations); [lia|].
    exists iteration, all_results, w. repeat split; auto.
  - destruct (Nat.ltb_spec iteration max_iterations); [|lia].
    unfold bind at 1. rewrite load_all_tasks_live.
    destruct (Hpass w Hw) as (pr & w1 & E & Hw1).
    unfold bind at 1. rewrite E.
    assert (Hstop : exists stop,
               (if Nat.eqb (tasks_processed pr) 0
                then pipeline_settled p else ret false) w1 = (Ret stop, w1)).
    { destruct (Nat.eqb _ _); [apply pipeline_settled_quiet|].
      eexists; reflexivity. }
    destruct Hstop as (stop & Es). unfold bind at 1. rewrite Es.
    destruct stop.
    + exists iteration, all_results, w1. repeat split; auto.
    + destruct (IH (S iteration) ltac:(lia)
                   (dict_update all_results (results pr)) w1 Hw1)
        as (it' & res' & w' & E' & Hw' & Hle & Hmax).
      exists it', res', w'. repeat split; auto; lia.
Qed.

Lemma for_each_cons {A S} (x : A) (l : list A) (body : A -> S -> M S) (acc : S) :
  for_each (x :: l) body acc = (acc' <- body x acc ;; for_each l body acc').
Proof. reflexivity. Qed.

Lemma statuses_absent i (l : list Task) :
  ~ In i (map id l) -> statuses_with_id i l = [].
Proof.
  unfold statuses_with_id. induction l as [|t l IH]; simpl; [reflexivity|].
  intros Hnin. destruct (String.eqb (id t) i) eqn:E.
  - apply String.eqb_eq in E. exfalso. apply Hnin. now left.
  - apply IH. intros Hin. apply Hnin. now right.
Qed.

Lemma statuses_app i (l1 l2 : list Task) :
  statuses_with_id i (l1 ++ l2)
  = (statuses_with_id i l1 ++ statuses_with_id i l2)%list.
Proof. unfold statuses_with_id. now rewrite filter_app, map_app. Qed.

Lemma statuses_nil_last i (l : list Task) :
  statuses_with_id i l = [] -> last_with_id i l = None.
Proof.
  unfold statuses_with_id. induction l as [|t l IH]; simpl; [reflexivity|].
  destruct (String.eqb (id t) i); simpl; [discriminate|].
  intros H. now rewrite IH.
Qed.

Lemma sole_status_counted i s (l : list Task) :
  statuses_with_id i l = [s] ->
  exists t, counted l t /\ status t = s /\ id t = i
            /\ first_with_id i l = Some t.
Proof.
  unfold statuses_with_id, counted, first_with_id.
  induction l as [|t l IH]; simpl; [discriminate|].
  destruct (String.eqb (id t) i) eqn:E; simpl.
  - intros H. inversion H as [[Hs Hrest]]. exists t.
    apply String.eqb_eq in E.
    rewrite E, (statuses_nil_last i l Hrest), String.eqb_refl. auto.
  - intros H. destruct (IH H) as (u & Hc & Hs & Hid & Hf).
    exists u. rewrite Hc. auto.
Qed.

Lemma overall_failed_when_sole_failed (pipeline_id rid : string) (w : World) :
  statuses_with_id rid (live w) = [FAILED] ->
  exists st, get_pipeline_status pipeline_id w = (Ret st, w)
             /\ overall_status st = "failed".
Proof.
  intros Hst. rewrite get_pipeline_status_spec. eexists. split; [reflexivity|].
  simpl. destruct (sole_status_counted rid FAILED (live w) Hst)
    as (t & Hc & Hs & _ & _).
  apply (overall_of_cases _). split.
  - apply not_true_iff_false. rewrite table_all_completed.
    intros Hall. specialize (Hall t Hc). congruence.
  - apply (table_any_status (live w) FAILED). eauto.
Qed.

(** The first pass: the research task is dispatched to a worker that
    fails, and is FAILED when the pass ends. *)
Lemma first_pass_fails_research (env : Env) (rid : string) (w : World)
      (researcher analyst writer seo quality coordinator : Worker) :
  healthy env -> always_fails researcher ->
  statuses_with_id rid (live w) = [PENDING] ->
  (exists x, In x (ready "agent:researcher:main" (live w)) /\ id x = rid) ->
  exists pr w',
    process_pending_tasks env
      (engine_agents researcher analyst writer seo quality coordinator) w
    = (Ret pr, w') /\
    statuses_with_id rid (live w') = [FAILED].
Proof.
  intros Hh Hf Hst (x & Hx & Hid).
  rewrite process_pending_tasks_steps. unfold engine_agents.
  rewrite for_each_cons. unfold agent_step at 1.
  replace (String.eqb "agent:researcher:main" "agent:coordinator:main")
    with false by reflexivity.
  unfold bind at 1 2. rewrite get_pending_tasks_ready.
  destruct (process_failing_tasks env researcher rid
              (ready "agent:researcher:main" (live w))
              (mkProcessing 0 []) w PENDING Hh Hf Hst)
    as (acc1 & w1 & E & _ & Hst1).
  rewrite E.
  replace (existsb (fun x => String.eqb (id x) rid)
                   (ready "agent:researcher:main" (live w))) with true in Hst1.
  - apply agents_keep_settled_task; [exact Hh | discriminate | exact Hst1].
  - symmetry. apply existsb_exists. exists x. split; [exact Hx|].
    now apply String.eqb_eq.
Qed.

(* ===================================================================== *)
(** ** The chain of five tasks *)
(* ===================================================================== *)

Lemma map_agent_update_first_with (f : Task -> Task) i (l : list Task) :
  (forall t, assigned_agent (f t) = assigned_agent t) ->
  map assigned_agent (update_first_with f i l) = map assigned_agent l.
Proof.
  intros Hf. induction l as [|t l IH]; simpl; [reflexivity|].
  destruct (String.eqb (id t) i); simpl; [now rewrite Hf | now rewrite IH].
Qed.

Lemma map_dependencies_update_first_with (f : Task -> Task) i (l : list Task) :
  (forall t, dependencies (f t) = dependencies t) ->
  map dependencies (update_first_with f i l) = map dependencies l.
Proof.
  intros Hf. induction l as [|t l IH]; simpl; [reflexivity|].
  destruct (String.eqb (id t) i); simpl; [now rewrite Hf | now rewrite IH].
Qed.

Lemma agent_applied s r now t :
  assigned_agent (applied s r now t) = assigned_agent t.
Proof. now destruct s. Qed.

Lemma dependencies_applied s r now t :
  dependencies (applied s r now t) = dependencies t.
Proof. now destruct s. Qed.

Lemma built_tasks_shape (env : Env) (topic : string) (w : World) :
  chain_shape (built_ids env w) 0 (built_tasks env topic w).
Proof. repeat split. Qed.

Lemma distinct_five (a b c d e : string) :
  NoDup [a; b; c; d; e] ->
  String.eqb a b = false /\ String.eqb a c = false /\ String.eqb a d = false /\
  String.eqb a e = false /\ String.eqb b c = false /\ String.eqb b d = false /\
  String.eqb b e = false /\ String.eqb c d = false /\ String.eqb c e = false /\
  String.eqb d e = false.
Proof.
  intros H. rewrite !NoDup_cons_iff in H. simpl in H.
  rewrite !String.eqb_neq. intuition congruence.
Qed.

Ltac five_tasks l :=
  destruct l as [|[i1 ti1 a1 s1 p1 d1 pl1 c1 u1 as1 co1 r1]
                  [|[i2 ti2 a2 s2 p2 d2 pl2 c2 u2 as2 co2 r2]
                    [|[i3 ti3 a3 s3 p3 d3 pl3 c3 u3 as3 co3 r3]
                      [|[i4 ti4 a4 s4 p4 d4 pl4 c4 u4 as4 co4 r4]
                        [|[i5 ti5 a5 s5 p5 d5 pl5 c5 u5 as5 co5 r5] [|? ?]]]]]];
  try discriminate.

(** At stage [k] the worker of stage [k] has exactly the task of that
    stage in its ready set. *)
Lemma ready_at_stage (ids : list string) (k : nat) (l : list Task) :
  NoDup ids -> chain_shape ids k l -> k < 5 ->
  exists x, ready (nth k pipeline_agent_ids "") l = [x]
            /\ id x = nth k ids "".
Proof.
  intros Hnd (Hid & Hag & Hdep & Hst) Hk.
  five_tasks l. simpl in Hid, Hag, Hdep, Hst.
  subst ids. simpl in Hdep.
  injection Hag as -> -> -> -> ->. injection Hdep as -> -> -> -> ->.
  destruct (distinct_five _ _ _ _ _ Hnd)
    as (E12 & E13 & E14 & E15 & E23 & E24 & E25 & E34 & E35 & E45).
  destruct k as [|[|[|[|[|k]]]]]; try lia; simpl in Hst;
    injection Hst as -> -> -> -> ->;
    unfold ready, agent_tasks, _dependencies_satisfied, first_with_id; simpl;
    rewrite ?String.eqb_refl, ?E12, ?E13, ?E14, ?E15, ?E23, ?E24, ?E25, ?E34,
      ?E35, ?E45; simpl;
    eexists; split; reflexivity.
Qed.

(** Taking the task of stage [k] in progress and completing it leads to
    stage [k + 1]. *)
Lemma advance_stage (ids : list string) (k : nat) (l : list Task)
      (r : option dict) (now1 now2 : string) :
  NoDup ids -> chain_shape ids k l -> k < 5 ->
  chain_shape ids (S k)
    (update_first_with (applied COMPLETED r now2) (nth k ids "")
       (update_first_with (applied IN_PROGRESS None now1) (nth k ids "") l)).
Proof.
  intros Hnd (Hid & Hag & Hdep & Hst) Hk.
  unfold chain_shape.
  rewrite !map_id_update_first_with by (intros; apply id_applied).
  rewrite !map_agent_update_first_with by (intros; apply agent_applied).
  rewrite !map_dependencies_update_first_with
    by (intros; apply dependencies_applied).
  split; [exact Hid|]. split; [exact Hag|]. split; [exact Hdep|].
  five_tasks l. simpl in Hid, Hst. subst ids.
  destruct (distinct_five _ _ _ _ _ Hnd)
    as (E12 & E13 & E14 & E15 & E23 & E24 & E25 & E34 & E35 & E45).
  destruct k as [|[|[|[|[|k]]]]]; try lia; simpl in Hst;
    injection Hst as -> -> -> -> ->; simpl;
    rewrite ?String.eqb_refl, ?E12, ?E13, ?E14, ?E15, ?E23, ?E24, ?E25, ?E34,
      ?E35, ?E45; simpl;
    rewrite ?String.eqb_refl, ?E12, ?E13, ?E14, ?E15, ?E23, ?E24, ?E25, ?E34,
      ?E35, ?E45; reflexivity.
Qed.

(** The task of stage [k] depends on tasks of earlier stages only. *)
Lemma dependencies_at_stage (ids : list string) (k : nat) (l : list Task)
      (x : Task) :
  NoDup ids -> chain_shape ids k l -> k < 5 ->
  In x l -> id x = nth k ids "" ->
  forall name, In name (dependencies x) ->
               exists j, j < k /\ name = nth j ids "".
Proof.
  intros Hnd (Hid & Hag & Hdep & Hst) Hk Hin Hx.
  five_tasks l. simpl in Hid, Hdep. subst ids. simpl in Hdep.
  injection Hdep as -> -> -> -> ->.
  destruct (distinct_five _ _ _ _ _ Hnd)
    as (E12 & E13 & E14 & E15 & E23 & E24 & E25 & E34 & E35 & E45).
  assert (Hsym : forall a b, String.eqb a b = false -> a <> b /\ b <> a).
  { intros a b E. apply String.eqb_neq in E. split; congruence. }
  destruct (Hsym _ _ E12), (Hsym _ _ E13), (Hsym _ _ E14), (Hsym _ _ E15),
    (Hsym _ _ E23), (Hsym _ _ E24), (Hsym _ _ E25), (Hsym _ _ E34),
    (Hsym _ _ E35), (Hsym _ _ E45).
  destruct k as [|[|[|[|[|k]]]]]; try lia;
    destruct Hin as [<-|[<-|[<-|[<-|[<-|[]]]]]];
    cbn [id nth] in Hx; try contradiction;
    cbn [dependencies]; intros name [<-|[]].
  - exists 0. split; [lia | reflexivity].
  - exists 1. split; [lia | reflexivity].
  - exists 2. split; [lia | reflexivity].
  - exists 3. split; [lia | reflexivity].
Qed.

(** So the wiring of the task of stage [k] asks about names of earlier
    stages only. *)
Lemma stage_wirable (env : Env) (ids : list string) (k : nat) (w : World)
      (x : Task) :
  NoDup ids -> chain_shape ids k (live w) -> k < 5 ->
  (forall t, In t (live w) -> refers_to_dependencies env t) ->
  (forall j, j < k -> examinable_at w (nth j ids "")) ->
  ready (nth k pipeline_agent_ids "") (live w) = [x] ->
  id x = nth k ids "" ->
  In x (live w) /\ wirable env w (payload x).
Proof.
  intros Hnd Hshape Hk Hrefs Hex Hready Hx.
  assert (Hin : In x (live w)).
  { assert (H : In x (ready (nth k pipeline_agent_ids "") (live w)))
      by (rewrite Hready; now left).
    apply ready_In, agent_tasks_In in H. tauto. }
  split; [exact Hin|]. intros name Hname.
  destruct (dependencies_at_stage ids k (live w) x Hnd Hshape Hk Hin Hx name
              (Hrefs x Hin name Hname)) as (j & Hj & ->).
  now apply Hex.
Qed.

Lemma payload_applied s r now t : payload (applied s r now t) = payload t.
Proof. now destruct s. Qed.

(** Status writes change neither payloads nor dependencies. *)
Lemma refers_to_dependencies_update (env : Env) s r now i (l : list Task) :
  (forall t, In t l -> refers_to_dependencies env t) ->
  forall t, In t (update_first_with (applied s r now) i l) ->
            refers_to_dependencies env t.
Proof.
  intros H t Hin. apply In_update_first_with in Hin.
  destruct Hin as [Hin | (t0 & Hfirst & ->)]; [now apply H|].
  destruct (first_with_id_some _ _ _ Hfirst) as [Hin0 _].
  unfold refers_to_dependencies.
  rewrite payload_applied, dependencies_applied. now apply H.
Qed.

(** The tasks the pipeline builder creates refer to their dependencies. *)
Lemma built_tasks_refer_to_dependencies (env : Env) (topic : string)
      (w : World) :
  forall t, In t (built_tasks env topic w) -> refers_to_dependencies env t.
Proof.
  intros t Hin name (key & Hk & Ht & Hn). unfold built_tasks in Hin.
  unfold reference_keys in Hk.
  destruct Hin as [<-|[<-|[<-|[<-|[<-|[]]]]]];
    destruct Hk as [<-|[<-|[<-|[<-|[]]]]];
    cbn [payload dependencies] in *;
    try (vm_compute in Ht; discriminate);
    cbv [py_get dict_get_default dict_get find fst snd String.eqb Ascii.eqb
         Bool.eqb writing_payload option_map reference_name] in Hn;
    subst name; now left.
Qed.

(** A worker that succeeds completes the one task of its ready set. *)
Lemma agent_completes_ready_task (env : Env) (agent_id : string)
      (worker : Worker) (acc : Processing) (w : World) (x : Task) :
  healthy env -> always_succeeds worker ->
  In x (live w) -> wirable env w (payload x) ->
  String.eqb agent_id "agent:coordinator:main" = false ->
  ready agent_id (live w) = [x] ->
  exists acc' w' r now1 now2,
    agent_step env (agent_id, worker) acc w = (Ret acc', w') /\
    tasks_processed acc' = S (tasks_processed acc) /\
    live w' = update_first_with (applied COMPLETED r now2) (id x)
                (update_first_with (applied IN_PROGRESS None now1) (id x) (live w)) /\
    examinable_at w' (id x) /\
    (forall name, examinable_at w name -> examinable_at w' name).
Proof.
  intros Hh Hs Hin Hx Hne Hready. unfold agent_step. rewrite Hne.
  unfold bind at 1. rewrite get_pending_tasks_ready, Hready. simpl for_each.
  destruct (process_task_effect env worker x acc w Hh)
    as (acc1 & w1 & s2 & r2 & now1 & now2 & E & Hlive & _ & Hok & Hkeep & Hnew).
  destruct (Hok Hs Hx) as [-> Hacc].
  exists acc1, w1, r2, now1, now2. unfold bind. rewrite E.
  split; [reflexivity|]. split; [exact Hacc|]. split; [exact Hlive|].
  split; [now apply Hnew | exact Hkeep].
Qed.

(** What one stage of the first pass keeps: the shape of the chain, the
    references and the archive names of the stages done. *)
Lemma stage_completed (env : Env) (ids : list string) (k : nat)
      (worker : Worker) (acc : Processing) (w : World) :
  healthy env -> always_succeeds worker -> NoDup ids -> k < 5 ->
  String.eqb (nth k pipeline_agent_ids "") "agent:coordinator:main" = false ->
  chain_shape ids k (live w) ->
  (forall t, In t (live w) -> refers_to_dependencies env t) ->
  (forall j, j < k -> examinable_at w (nth j ids "")) ->
  exists acc' w',
    agent_step env (nth k pipeline_agent_ids "", worker) acc w = (Ret acc', w') /\
    tasks_processed acc' = S (tasks_processed acc) /\
    chain_shape ids (S k) (live w') /\
    (forall t, In t (live w') -> refers_to_dependencies env t) /\
    (forall j, j < S k -> examinable_at w' (nth j ids "")).
Proof.
  intros Hh Hs Hnd Hk Hne Hshape Hrefs Hex.
  destruct (ready_at_stage ids k (live w) Hnd Hshape Hk) as (x & Hr & Hx).
  destruct (stage_wirable env ids k w x Hnd Hshape Hk Hrefs Hex Hr Hx)
    as [Hin Hw].
  destruct (agent_completes_ready_task env _ worker acc w x Hh Hs Hin Hw Hne Hr)
    as (acc' & w' & r & n1 & n2 & E & P & L & Xnew & Xkeep).
  exists acc', w'. split; [exact E|]. split; [exact P|].
  split; [rewrite L, Hx; now apply advance_stage|].
  split.
  - rewrite L. intros t Ht.
    apply (refers_to_dependencies_update env COMPLETED r n2 (id x)
             (update_first_with (applied IN_PROGRESS None n1) (id x) (live w)));
      [|exact Ht].
    now apply refers_to_dependencies_update.
  - intros j Hj. destruct (Nat.eq_dec j k) as [->|Hjk].
    + rewrite <- Hx. exact Xnew.
    + apply Xkeep, Hex. lia.
Qed.

Lemma first_pass_completes_chain (env : Env) (ids : list string) (w : World)
      (researcher analyst writer seo quality coordinator : Worker) :
  healthy env ->
  always_succeeds researcher -> always_succeeds analyst ->
  always_succeeds writer -> always_succeeds seo -> always_succeeds quality ->
  NoDup ids -> chain_shape ids 0 (live w) ->
  (forall t, In t (live w) -> refers_to_dependencies env t) ->
  exists pr w',
    process_pending_tasks env
      (engine_agents researcher analyst writer seo quality coordinator) w
    = (Ret pr, w') /\
    tasks_processed pr = 5 /\ chain_shape ids 5 (live w').
Proof.
  intros Hh H1 H2 H3 H4 H5 Hnd S0 R0.
  rewrite process_pending_tasks_steps. unfold engine_agents.
  assert (X0 : forall j, j < 0 -> examinable_at w (nth j ids "")) by (intros; lia).
  destruct (stage_completed env ids 0 researcher (mkProcessing 0 []) w
              Hh H1 Hnd ltac:(lia) eq_refl S0 R0 X0)
    as (a1 & w1 & E1 & P1 & S1 & R1 & X1).
  cbn [nth pipeline_agent_ids] in E1.
  rewrite for_each_cons. unfold bind at 1. rewrite E1.
  destruct (stage_completed env ids 1 analyst a1 w1
              Hh H2 Hnd ltac:(lia) eq_refl S1 R1 X1)
    as (a2 & w2 & E2 & P2 & S2 & R2 & X2).
  cbn [nth pipeline_agent_ids] in E2.
  rewrite for_each_cons. unfold bind at 1. rewrite E2.
  destruct (stage_completed env ids 2 writer a2 w2
              Hh H3 Hnd ltac:(lia) eq_refl S2 R2 X2)
    as (a3 & w3 & E3 & P3 & S3 & R3 & X3).
  cbn [nth pipeline_agent_ids] in E3.
  rewrite for_each_cons. unfold bind at 1. rewrite E3.
  destruct (stage_completed env ids 3 seo a3 w3
              Hh H4 Hnd ltac:(lia) eq_refl S3 R3 X3)
    as (a4 & w4 & E4 & P4 & S4 & R4 & X4).
  cbn [nth pipeline_agent_ids] in E4.
  rewrite for_each_cons. unfold bind at 1. rewrite E4.
  destruct (stage_completed env ids 4 quality a4 w4
              Hh H5 Hnd ltac:(lia) eq_refl S4 R4 X4)
    as (a5 & w5 & E5 & P5 & S5 & R5 & X5).
  cbn [nth pipeline_agent_ids] in E5.
  rewrite for_each_cons. unfold bind at 1. rewrite E5.
  (* the coordinator is skipped *)
  exists a5, w5. split; [reflexivity|]. split; [|exact S5].
  rewrite P5, P4, P3, P2, P1. reflexivity.
Qed.

(** A pass over a store without PENDING tasks dispatches nothing. *)
Lemma no_pending_no_ready (agent_id : string) (l : list Task) :
  (forall t, In t l -> status t <> PENDING) -> ready agent_id l = [].
Proof.
  intros H. destruct (ready agent_id l) as [|x rest] eqn:E; [reflexivity|].
  assert (Hx : In x (ready agent_id l)) by (rewrite E; now left).
  apply ready_In, agent_tasks_In in Hx. destruct Hx as (Hin & _ & Hp & _).
  now destruct (H x Hin).
Qed.

Lemma idle_pass (env : Env) (agents : list (string * Worker))
      (acc : Processing) (w : World) :
  (forall t, In t (live w) -> status t <> PENDING) ->
  for_each agents (agent_step env) acc w = (Ret acc, w).
Proof.
  intros H. induction agents as [|[agent_id worker] agents IH];
    [reflexivity|].
  rewrite for_each_cons. unfold bind at 1, agent_step at 1.
  destruct (String.eqb agent_id "agent:coordinator:main").
  - exact IH.
  - unfold bind at 1. rewrite get_pending_tasks_ready.
    rewrite (no_pending_no_ready agent_id (live w) H). exact IH.
Qed.

Lemma chain_completed (ids : list string) (l : list Task) :
  chain_shape ids 5 l -> forall t, In t l -> status t = COMPLETED.
Proof.
  intros (_ & _ & _ & Hst) t Hin.
  apply (in_map status) in Hin. rewrite Hst in Hin. simpl in Hin.
  intuition congruence.
Qed.

Lemma first_with_id_present i (l : list Task) :
  In i (map id l) -> exists t, first_with_id i l = Some t.
Proof.
  unfold first_with_id. induction l as [|u l IH]; simpl; [tauto|].
  destruct (String.eqb (id u) i) eqn:E; [eauto|].
  intros [Heq|Hin]; [|auto].
  apply String.eqb_neq in E. contradiction.
Qed.

Lemma settled_when_completed (p : Pipeline) (w : World) :
  (forall t, In t (live w) -> status t = COMPLETED) ->
  pipeline_settled p w = (Ret true, w).
Proof.
  intros H. unfold pipeline_settled, bind. rewrite load_all_tasks_live.
  replace (forallb (fun t => status_eqb (status t) COMPLETED)
                   (filter (in_pipeline p) (live w))) with true; [reflexivity|].
  symmetry. apply forallb_forall. intros t Hin.
  apply filter_In in Hin. apply status_eqb_eq, H, Hin.
Qed.

Lemma overall_completed_when_all_completed (pipeline_id : string) (w : World) :
  (forall t, In t (live w) -> status t = COMPLETED) ->
  exists st, get_pipeline_status pipeline_id w = (Ret st, w)
             /\ overall_status st = "completed".
Proof.
  intros H. rewrite get_pipeline_status_spec. eexists. split; [reflexivity|].
  simpl. apply (overall_of_cases _). apply table_all_completed.
  intros t Hc. apply H. now destruct (last_with_id_some _ _ _ Hc).
Qed.

(* ===================================================================== *)
(** ** The run as a whole *)
(* ===================================================================== *)

Lemma for_each_returns {A S} (l : list A) (body : A -> S -> M S) :
  (forall x acc w, exists acc' w', body x acc w = (Ret acc', w')) ->
  forall acc w, exists acc' w', for_each l body acc w = (Ret acc', w').
Proof.
  intros Hb. induction l as [|x l IH]; intros acc w; simpl.
  - exists acc, w. reflexivity.
  - destruct (Hb x acc w) as (acc1 & w1 & E).
    destruct (IH acc1 w1) as (acc2 & w2 & E2).
    exists acc2, w2. unfold bind. now rewrite E.
Qed.

Lemma process_task_returns (env : Env) (agent : Worker) (x : Task)
      (acc : Processing) (w : World) :
  exists acc' w', process_task env agent x acc w = (Ret acc', w').
Proof.
  rewrite process_task_spec. cbv zeta.
  destruct (attempt env agent x _) as [[result|e] w2]; eexists _, _; reflexivity.
Qed.

(** A pass over the agents returns, whatever the workers and the disk do. *)
Lemma process_pending_tasks_returns (env : Env)
      (agents : list (string * Worker)) (w : World) :
  exists pr w', process_pending_tasks env agents w = (Ret pr, w').
Proof.
  rewrite process_pending_tasks_steps. apply for_each_returns.
  intros [agent_id agent] acc w1. unfold agent_step.
  destruct (String.eqb agent_id "agent:coordinator:main").
  - exists acc, w1. reflexivity.
  - unfold bind at 1. rewrite get_pending_tasks_ready.
    apply for_each_returns. intros x acc1 w2. apply process_task_returns.
Qed.

Lemma returns_ret {A} (a : A) : returns (ret a).
Proof. intros w. exists a, w. reflexivity. Qed.

Lemma returns_bind {A B} (m : M A) (k : A -> M B) :
  returns m -> (forall a, returns (k a)) -> returns (bind m k).
Proof.
  intros Hm Hk w. destruct (Hm w) as (a & w1 & E).
  destruct (Hk a w1) as (b & w2 & E2).
  exists b, w2. unfold bind. now rewrite E.
Qed.

Lemma add_task_returns (env : Env) title agent pl prio deps :
  returns (add_task env title agent pl prio deps).
Proof. intros w. rewrite add_task_spec. eexists _, _. reflexivity. Qed.

Lemma execute_content_pipeline_returns (env : Env) (topic : string) :
  returns (execute_content_pipeline env topic).
Proof.
  unfold execute_content_pipeline.
  apply returns_bind; [intros w; eexists _, _; reflexivity | intros pid].
  do 5 (apply returns_bind; [apply add_task_returns | intros ?]).
  apply returns_ret.
Qed.

(** The run returns with an iteration count within the ceiling, whatever
    the store, the workers and the disk. *)
Lemma run_content_pipeline_returns (env : Env) (agents : list (string * Worker))
      (max_iterations : nat) (topic : string) (w : World) :
  exists run w',
    run_content_pipeline_with env agents max_iterations topic w = (Ret run, w')
    /\ iterations run <= max_iterations.
Proof.
  destruct (execute_content_pipeline_returns env topic w) as (p & w0 & Ebuild).
  destruct (run_loop_invariant env agents (fun _ => True)) with
    (max_iterations := max_iterations) (p := p) (iteration := 0)
    (all_results := @nil (string * dict)) (w := w0)
    as (it & res & w1 & Eloop & _ & _ & Hle); [|exact I|].
  { intros w1 _. destruct (process_pending_tasks_returns env agents w1)
      as (pr & w2 & E). exists pr, w2. auto. }
  destruct (collect_final_results_quiet p w1) as (fr & Efr).
  exists (mkPipelineRun p it fr), w1. split.
  - unfold run_content_pipeline_with, bind. now rewrite Ebuild, Eloop, Efr.
  - simpl. apply Hle. lia.
Qed.

(** With a working disk, a fresh research id and a research worker that
    raises at every dispatch, the run ends with the research task FAILED
    and a "failed" pipeline status. *)
Lemma research_failure_is_reported
        (env : Env) (w : World) (topic : string) (max_iterations : nat)
        (researcher analyst writer seo quality coordinator : Worker) :
  healthy env ->
  always_fails researcher ->
  0 < max_iterations ->
  ~ In (drawn_id env w 1) (map id (live w)) ->
  (forall k, 2 <= k <= 5 -> drawn_id env w k <> drawn_id env w 1) ->
  exists run w',
    run_content_pipeline_with env
      (engine_agents researcher analyst writer seo quality coordinator)
      max_iterations topic w = (Ret run, w') /\
    iterations run <= max_iterations /\
    dict_get "research" (tasks (pipeline run)) = Some (drawn_id env w 1) /\
    (exists t, get_task (drawn_id env w 1) w' = (Ret (Some t), w') /\
               status t = FAILED) /\
    (exists st,
       get_pipeline_status (pipeline_id (pipeline run)) w' = (Ret st, w') /\
       overall_status st = "failed").
Proof.
  intros Hh Hf Hmax Hfresh Hdistinct.
  set (rid := drawn_id env w 1) in *.
  set (agents := engine_agents researcher analyst writer seo quality coordinator).
  destruct (execute_content_pipeline_spec env topic w Hh) as (w0 & Ebuild & Hlive0).
  (* the store after the build *)
  assert (Hst0 : statuses_with_id rid (live w0) = [PENDING]).
  { rewrite Hlive0, statuses_app, (statuses_absent rid (live w) Hfresh).
    unfold statuses_with_id, built_tasks. simpl filter.
    fold rid. rewrite String.eqb_refl.
    assert (Hk : forall k, 2 <= k <= 5 ->
                 String.eqb (drawn_id env w k) rid = false).
    { intros k Hk. apply String.eqb_neq. now apply Hdistinct. }
    rewrite !Hk by lia. reflexivity. }
  assert (Hready : exists x, In x (ready "agent:researcher:main" (live w0))
                             /\ id x = rid).
  { assert (Hin : exists x, In x (built_tasks env topic w) /\ id x = rid /\
                    assigned_agent x = "agent:researcher:main" /\
                    status x = PENDING /\ dependencies x = []).
    { unfold built_tasks. eexists. split; [left; reflexivity|].
      repeat split. }
    destruct Hin as (x & Hin & Hid & Hag & Hs & Hd).
    exists x. split; [|exact Hid].
    apply ready_In, agent_tasks_In. rewrite Hlive0.
    split; [apply in_or_app; now right|].
    split; [exact Hag|]. split; [exact Hs|].
    unfold _dependencies_satisfied. now rewrite Hd. }
  (* the loop *)
  pose (I := fun w1 : World => statuses_with_id rid (live w1) = [FAILED]).
  assert (Hpass : forall w1, I w1 ->
            exists pr w2, process_pending_tasks env agents w1 = (Ret pr, w2)
                          /\ I w2).
  { intros w1 Hw1. rewrite process_pending_tasks_steps.
    apply agents_keep_settled_task; [exact Hh | discriminate | exact Hw1]. }
  assert (Hloop : exists it res w1,
            run_loop env agents max_iterations (built_pipeline env topic w) 0 [] w0
            = (Ret (it, res), w1) /\ I w1 /\ it <= max_iterations).
  { rewrite run_loop_step.
    destruct (Nat.ltb_spec 0 max_iterations); [|lia].
    unfold bind at 1. rewrite load_all_tasks_live.
    destruct (first_pass_fails_research env rid w0 researcher analyst writer
                seo quality coordinator Hh Hf Hst0 Hready)
      as (pr & w1 & E & Hw1).
    fold agents in E. unfold bind at 1. rewrite E.
    assert (Hstop : exists stop,
               (if Nat.eqb (tasks_processed pr) 0
                then pipeline_settled (built_pipeline env topic w)
                else ret false) w1 = (Ret stop, w1)).
    { destruct (Nat.eqb _ _); [apply pipeline_settled_quiet|].
      eexists; reflexivity. }
    destruct Hstop as (stop & Es). unfold bind at 1. rewrite Es.
    destruct stop.
    - exists 0, [], w1. split; [reflexivity|]. split; [exact Hw1|]. lia.
    - destruct (run_loop_invariant env agents I Hpass max_iterations
                  (built_pipeline env topic w) 1
                  (dict_update [] (results pr)) w1 Hw1)
        as (it & res & w2 & E2 & Hw2 & _ & Hle).
      exists it, res, w2. split; [exact E2|]. split; [exact Hw2|].
      apply Hle. lia. }
  destruct Hloop as (it & res & w1 & Eloop & Hw1 & Hit).
  destruct (collect_final_results_quiet (built_pipeline env topic w) w1)
    as (fr & Efr).
  exists (mkPipelineRun (built_pipeline env topic w) it fr), w1.
  split.
  { unfold run_content_pipeline_with, bind. fold agents.
    rewrite Ebuild, Eloop, Efr. reflexivity. }
  split; [exact Hit|]. split; [reflexivity|]. split.
  - destruct (sole_status_counted rid FAILED (live w1) Hw1)
      as (t & _ & Hs & _ & Hfirst).
    exists t. rewrite get_task_first, Hfirst. auto.
  - now apply (overall_failed_when_sole_failed _ rid).
Qed.

Lemma preserves_ret {A} (I : World -> Prop) (a : A) : preserves I (ret a).
Proof. intros w Hw. exists a, w. auto. Qed.

Lemma preserves_bind {A B} (I : World -> Prop) (m : M A) (k : A -> M B) :
  preserves I m -> (forall a, preserves I (k a)) -> preserves I (bind m k).
Proof.
  intros Hm Hk w Hw. destruct (Hm w Hw) as (a & w1 & E & Hw1).
  destruct (Hk a w1 Hw1) as (b & w2 & E2 & Hw2).
  exists b, w2. unfold bind. rewrite E. auto.
Qed.

Lemma execute_content_pipeline_preserves (env : Env) (the_topic : string)
      (I : World -> Prop) :
  preserves I (uuid8 env) ->
  (forall title agent pl prio deps,
     preserves I (add_task env title agent pl prio deps)) ->
  preserves I (execute_content_pipeline env the_topic).
Proof.
  intros Hu Ha. unfold execute_content_pipeline.
  apply preserves_bind; [exact Hu | intros pid].
  do 5 (apply preserves_bind; [apply Ha | intros ?]).
  apply preserves_ret.
Qed.

Lemma execute_content_pipeline_keeps_exec (env : Env) (the_topic : string)
      (w : World) :
  exists p w',
    execute_content_pipeline env the_topic w = (Ret p, w')
    /\ n_exec w' = n_exec w.
Proof.
  apply (execute_content_pipeline_preserves env the_topic
           (fun w' => n_exec w' = n_exec w)); [| |reflexivity].
  - intros w1 H1. eexists _, _. split; [reflexivity | exact H1].
  - intros title agent pl prio deps w1 H1. rewrite add_task_spec.
    eexists _, _. split; [reflexivity | exact H1].
Qed.


(* ===================================================================== *)
(** ** Properties of the design document *)
(* ===================================================================== *)

(** C1. Dependency gating: whatever the worker and the store, every task
    that [get_pending_tasks] returns is a live task assigned to that worker,
    is PENDING, and each id in its dependencies is the id of a live task that
    is COMPLETED (the one a lookup by that id finds); conversely a live
    PENDING task of the worker whose dependencies are all met that way, in
    particular one with no dependencies, is returned. *)
Theorem get_pending_tasks_gated (agent_id : string) (w : World) :
  exists all ready_tasks,
    _load_all_tasks w = (Ret all, w) /\
    get_pending_tasks agent_id w = (Ret ready_tasks, w) /\
    (forall t, In t ready_tasks ->
       In t all /\ assigned_agent t = agent_id /\ status t = PENDING /\
       forall dep, In dep (dependencies t) ->
         exists d, get_task dep w = (Ret (Some d), w) /\
                   In d all /\ id d = dep /\ status d = COMPLETED) /\
    (forall t dep, In t ready_tasks -> In dep (dependencies t) ->
       ~ (get_task dep w = (Ret None, w) \/
          exists d, get_task dep w = (Ret (Some d), w) /\ status d <> COMPLETED)) /\
    (forall t, In t all -> assigned_agent t = agent_id -> status t = PENDING ->
       (forall dep, In dep (dependencies t) ->
          exists d, get_task dep w = (Ret (Some d), w) /\ status d = COMPLETED) ->
       In t ready_tasks) /\
    (forall t, In t all -> assigned_agent t = agent_id -> status t = PENDING ->
       dependencies t = [] -> In t ready_tasks).
Proof.
  exists (live w), (ready agent_id (live w)).
  split; [apply load_all_tasks_live|].
  split; [apply get_pending_tasks_ready|].
  assert (Hsound : forall t, In t (ready agent_id (live w)) ->
            In t (live w) /\ assigned_agent t = agent_id /\ status t = PENDING /\
            forall dep, In dep (dependencies t) ->
              exists d, get_task dep w = (Ret (Some d), w) /\
                        In d (live w) /\ id d = dep /\ status d = COMPLETED).
  { intros t Ht. apply ready_In, agent_tasks_In in Ht.
    destruct Ht as (Hin & Ha & Hs & Hd). repeat split; try assumption.
    intros dep Hdep.
    destruct (proj1 (dependencies_satisfied_iff t (live w)) Hd dep Hdep)
      as (d & Hf & Hc).
    exists d. rewrite get_task_first, Hf.
    destruct (first_with_id_some _ _ _ Hf). auto. }
  assert (Hcomplete : forall t, In t (live w) -> assigned_agent t = agent_id ->
            status t = PENDING ->
            (forall dep, In dep (dependencies t) ->
               exists d, get_task dep w = (Ret (Some d), w) /\ status d = COMPLETED) ->
            In t (ready agent_id (live w))).
  { intros t Hin Ha Hs Hd. apply ready_In, agent_tasks_In.
    repeat split; try assumption.
    apply dependencies_satisfied_iff. intros dep Hdep.
    destruct (Hd dep Hdep) as (d & Hg & Hc).
    rewrite get_task_first in Hg. exists d. split; [congruence|assumption]. }
  split; [exact Hsound|]. split; [|split; [exact Hcomplete|]].
  - intros t dep Ht Hdep [Hnone | (d & Hg & Hn)];
      destruct (Hsound t Ht) as (_ & _ & _ & Hd);
      destruct (Hd dep Hdep) as (d' & Hg' & _ & _ & Hc).
    + rewrite Hg' in Hnone. discriminate.
    + rewrite Hg' in Hg. congruence.
  - intros t Hin Ha Hs He. apply Hcomplete; try assumption.
    rewrite He. intros dep [].
Qed.

(** C5. Priority order: whatever the worker and the store, the list that
    [get_pending_tasks] returns is ascending in the priority value, and two
    returned tasks of equal priority stand in the order in which they stand
    in the stored collection; [add_task] stamps a new task with the clock
    and stores it behind all the tasks created before it, so that this order
    is the order of creation (first in, first out). *)
Theorem get_pending_tasks_order (env : Env) (agent_id : string) (w : World) :
  exists all ready_tasks,
    _load_all_tasks w = (Ret all, w) /\
    get_pending_tasks agent_id w = (Ret ready_tasks, w) /\
    StronglySorted
      (fun a b => (priority_value (priority a) <= priority_value (priority b))%Z)
      ready_tasks /\
    (forall p : Z,
       filter (fun t => (priority_value (priority t) =? p)%Z) ready_tasks
       = filter (fun t => (priority_value (priority t) =? p)%Z)
                (agent_tasks agent_id all)) /\
    (forall l1 t1 l2 t2 l3,
       ready_tasks = (l1 ++ t1 :: l2 ++ t2 :: l3)%list ->
       priority t1 = priority t2 ->
       exists m1 m2 m3, all = (m1 ++ t1 :: m2 ++ t2 :: m3)%list) /\
    (forall title agent payload prio deps,
       disk env (n_disk w) = WriteOk ->
       exists t w',
         add_task env title agent payload prio deps w = (Ret (id t), w') /\
         _load_all_tasks w' = (Ret (all ++ [t])%list, w') /\
         created_at t = isoformat_now env (n_clock w)).
Proof.
  exists (live w), (ready agent_id (live w)).
  split; [apply load_all_tasks_live|].
  split; [apply get_pending_tasks_ready|].
  split; [apply (sorted_sorted priority_key)|].
  split; [intros p; apply (sorted_stable priority_key)|].
  split.
  - intros l1 t1 l2 t2 l3 Hready Hp.
    pose proof (sorted_stable priority_key (priority_key t1)
                  (agent_tasks agent_id (live w))) as Hst.
    fold (ready agent_id (live w)) in Hst. rewrite Hready in Hst.
    rewrite filter_app in Hst. simpl in Hst. rewrite Z.eqb_refl in Hst.
    rewrite filter_app in Hst. simpl in Hst.
    replace (priority_key t2 =? priority_key t1)%Z with true in Hst
      by (unfold priority_key; rewrite Hp; symmetry; apply Z.eqb_refl).
    symmetry in Hst. apply filter_keeps_order in Hst.
    destruct Hst as (a1 & a2 & a3 & Hagent).
    unfold agent_tasks in Hagent. now apply filter_keeps_order in Hagent.
  - intros title agent payload prio deps Hdisk.
    exists (new_task env title agent payload prio deps w),
      (after_add env (new_task env title agent payload prio deps w) w).
    split; [apply add_task_spec|]. split; [|reflexivity].
    rewrite load_all_tasks_live. unfold after_add.
    rewrite live_after_persist_ok by exact Hdisk. reflexivity.
Qed.

(** C10, as the code has it. When [tasks.json] is missing, or is there and
    cannot be opened, read or parsed, [_load_all_tasks] returns the empty
    list and raises nothing, so that [get_task] finds no task,
    [get_pending_tasks] is empty and [get_task_result] is the archive's
    answer alone: the result of the copy when [completed/task_<id>.json] is
    a readable copy, [None] when there is no such file or it cannot be read,
    and the [OSError] of [exists()] when the name cannot be examined, that
    check being outside the [try]. The result an earlier
    [update_task_status(id, COMPLETED, result)] gave a live task is what
    [get_task_result] returns then, provided the archive write of that call
    succeeded and the archive entry of the id is still the one it wrote. *)
Theorem load_failure_reads_as_empty (env : Env) (w : World) :
  tasks_file w = FileMissing \/ tasks_file w = FileUnreadable ->
  _load_all_tasks w = (Ret [], w) /\
  (forall task_id, get_task task_id w = (Ret None, w)) /\
  (forall agent_id, get_pending_tasks agent_id w = (Ret [], w)) /\
  (forall task_id, get_task_result task_id w = archived_result task_id w) /\
  (forall task_id,
     get_task_result task_id w
     = match dict_get task_id (completed_dir w) with
       | Some (ArchiveTask t) => (Ret (result t), w)
       | Some ArchiveInaccessible => (Raise OSError, w)
       | Some ArchiveUnreadable | None => (Ret None, w)
       end) /\
  (forall (w0 : World) task_id t0 r,
     get_task task_id w0 = (Ret (Some t0), w0) ->
     disk env (n_disk w0) = WriteOk ->
     dict_get task_id (completed_dir w)
     = dict_get task_id
         (completed_dir (snd (update_task_status env task_id COMPLETED r w0))) ->
     get_task_result task_id w = (Ret r, w)).
Proof.
  intros Hfile.
  assert (Hlive : live w = []) by (unfold live; destruct Hfile as [-> | ->]; reflexivity).
  assert (Hres : forall i, get_task_result i w = archived_result i w)
    by (intros i; rewrite get_task_result_cases, Hlive; reflexivity).
  split; [rewrite load_all_tasks_live, Hlive; reflexivity|].
  split; [intros i; rewrite get_task_first, Hlive; reflexivity|].
  split; [intros a; rewrite get_pending_tasks_ready, Hlive; reflexivity|].
  split; [exact Hres|]. split.
  - intros i. rewrite Hres, archived_result_cases. unfold archived.
    destruct (dict_get i (completed_dir w)) as [[|t|]|]; reflexivity.
  - intros w0 i t0 r Hget Hdisk Harch.
    rewrite get_task_first in Hget. inversion Hget as [Hfirst].
    destruct (first_with_id_some _ _ _ Hfirst) as [_ Hid].
    assert (Hentry : dict_get i (completed_dir w)
                     = Some (ArchiveTask
                               (applied COMPLETED r
                                        (isoformat_now env (n_clock w0)) t0))).
    { rewrite Harch, update_task_status_spec. simpl.
      unfold after_update_first. rewrite Hfirst. simpl.
      rewrite Hdisk. rewrite <- Hid at 1. apply dict_get_set_same. }
    rewrite Hres, archived_result_cases. unfold archived.
    rewrite Hentry. reflexivity.
Qed.

(** C2, as the code has it. A status write is never rejected: for a task in
    any state, terminal or not, [update_task_status] returns without raising
    whatever the status written, and when the writes reach the disk the task
    then has exactly that status. Writing the same terminal status again
    therefore leaves the status as it was, and writing a different one
    replaces it. *)
Theorem update_task_status_overwrites (env : Env) (w : World)
        (task_id : string) (t : Task) (s : TaskStatus) (r : option dict) :
  get_task task_id w = (Ret (Some t), w) ->
  exists w',
    update_task_status env task_id s r w = (Ret tt, w') /\
    (healthy env ->
     exists t', get_task task_id w' = (Ret (Some t'), w') /\
                status t' = s /\ id t' = task_id).
Proof.
  intros Hget. rewrite get_task_first in Hget. inversion Hget as [Hfirst].
  exists (after_update env task_id s r w).
  split; [apply update_task_status_spec|].
  intros Hh.
  exists (applied s r (isoformat_now env (n_clock w)) t).
  rewrite get_task_first, live_after_update by exact Hh.
  rewrite first_with_id_update_same by (intros; apply id_applied).
  rewrite Hfirst. simpl.
  split; [reflexivity|]. split; [apply status_applied|].
  rewrite id_applied. now destruct (first_with_id_some _ _ _ Hfirst).
Qed.

(** C2, witness: the completed task of the example store is marked
    COMPLETED once more. *)
Lemma update_task_status_overwrites_witness :
  exists w',
    update_task_status example_env "c0ffee00" COMPLETED (Some example_result)
                       world_one_completed = (Ret tt, w') /\
    exists t', get_task "c0ffee00" w' = (Ret (Some t'), w') /\
               status t' = COMPLETED /\ id t' = "c0ffee00".
Proof.
  destruct (update_task_status_overwrites example_env world_one_completed
              "c0ffee00"
              (applied COMPLETED (Some example_result) (example_clock 1)
                 (new_task example_env "Test Task" "test_agent" [] MEDIUM []
                    empty_world))
              COMPLETED (Some example_result))
    as (w' & Hret & Hstatus).
  - vm_compute. reflexivity.
  - exists w'. split; [exact Hret|]. apply Hstatus. intros n. reflexivity.
Defined.

(** C2, counterexample: a task that is COMPLETED is written PENDING; the
    call returns normally and the task is PENDING afterwards, where the
    claim has the write rejected and the status kept. *)
Lemma terminal_status_is_overwritten :
  (exists t, get_task "c0ffee00" world_one_completed
             = (Ret (Some t), world_one_completed) /\ status t = COMPLETED) /\
  (exists w',
     update_task_status example_env "c0ffee00" PENDING None world_one_completed
     = (Ret tt, w') /\
     exists t', get_task "c0ffee00" w' = (Ret (Some t'), w') /\
                status t' = PENDING).
Proof.
  split.
  - eexists. split; [vm_compute; reflexivity | reflexivity].
  - eexists. split; [vm_compute; reflexivity|].
    eexists. split; [vm_compute; reflexivity | reflexivity].
Qed.

(** C7, as the code has it. When the write of the task collection cannot
    complete, [add_task] raises nothing: [_persist_tasks] catches the
    exception and [add_task] returns the identifier it drew, the very value
    it returns when the write succeeds, although no task has been added to
    the store; and when the write was refused before the file was opened the
    files are as they were before the call. *)
Theorem add_task_swallows_write_failure (env : Env) (w : World)
        (title assigned_agent : string) (payload : dict)
        (priority : TaskPriority) (dependencies : list string) :
  disk env (n_disk w) <> WriteOk ->
  exists w',
    add_task env title assigned_agent payload priority dependencies w
    = (Ret (substring 0 8 (uuid4 env (n_uuid w))), w') /\
    (forall all all',
       _load_all_tasks w = (Ret all, w) ->
       _load_all_tasks w' = (Ret all', w') ->
       forall t, In t all' -> In t all) /\
    (disk env (n_disk w) = WriteRefused ->
     tasks_file w' = tasks_file w /\ completed_dir w' = completed_dir w).
Proof.
  intros Hdisk.
  exists (after_add env (new_task env title assigned_agent payload priority
                                  dependencies w) w).
  split; [apply add_task_spec|]. split.
  - intros all all' Hall Hall' t.
    rewrite load_all_tasks_live in Hall, Hall'.
    inversion Hall; inversion Hall'; subst.
    unfold after_add, after_persist, live at 1. simpl.
    destruct (disk env (n_disk w)); [contradiction | auto | intros []].
  - intros Hrefused. unfold after_add, after_persist. simpl.
    now rewrite Hrefused.
Qed.

(** C7, witness: a task is added to the store of one task while the disk
    refuses every write. *)
Lemma add_task_swallows_write_failure_witness :
  exists w',
    add_task refusing_env "Second Task" "test_agent" [] MEDIUM []
             world_one_pending
    = (Ret "1b9d6bcd", w') /\
    tasks_file w' = tasks_file world_one_pending.
Proof.
  destruct (add_task_swallows_write_failure refusing_env world_one_pending
              "Second Task" "test_agent" [] MEDIUM [])
    as (w' & Hret & _ & Hkept).
  - discriminate.
  - exists w'. split; [exact Hret|]. now apply Hkept.
Defined.

(** C7, counterexample: the disk refuses the write, and [add_task] returns
    the new identifier as on success instead of failing; no task with that
    identifier exists afterwards. *)
Lemma add_task_returns_id_of_unstored_task :
  disk refusing_env (n_disk world_one_pending) = WriteRefused /\
  exists w',
    add_task refusing_env "Second Task" "test_agent" [] MEDIUM []
             world_one_pending
    = (Ret "1b9d6bcd", w') /\
    get_task "1b9d6bcd" w' = (Ret None, w').
Proof.
  split; [reflexivity|].
  eexists. split; vm_compute; reflexivity.
Qed.

(** A write that fails after [open] has truncated [tasks.json] leaves the
    file unreadable, and the tasks stored before are no longer loaded. *)
Lemma torn_write_loses_the_store :
  exists w',
    add_task tearing_env "Second Task" "test_agent" [] MEDIUM []
             world_one_pending
    = (Ret "1b9d6bcd", w') /\
    tasks_file w' = FileUnreadable /\
    _load_all_tasks w' = (Ret [], w').
Proof.
  eexists. split; [vm_compute; reflexivity|]. split; reflexivity.
Qed.

(** C6, as the code has it. [update_task_status] writes the result field
    only when the status written is COMPLETED, and then with the argument it
    is given: every task of the store after the call is a task of the store
    before it or the task with the id written, whose result is then the
    argument when the status is COMPLETED and its old result otherwise; and
    on a working disk the task found under the id afterwards has exactly
    that result. Hence, from a store in which every task has a result
    exactly when it is COMPLETED (the empty store is one), after every
    sequence of Create and UpdateStatus operations in which each write of
    COMPLETED carries a result and no other status is written to a COMPLETED
    task, the operations all return and every task of the store again has a
    non-null result if and only if its status is COMPLETED. *)
Theorem result_iff_completed_when_disciplined (env : Env)
        (ops : list QueueOp) (w : World) :
  (forall t, In t (live w) -> result t <> None <-> status t = COMPLETED) ->
  disciplined env ops w = true ->
  (exists w',
     run_ops env ops w = (Ret tt, w') /\
     forall all, _load_all_tasks w' = (Ret all, w') ->
       forall t, In t all -> result t <> None <-> status t = COMPLETED) /\
  (forall (w0 : World) task_id s r t',
     In t' (live (world_after (update_task_status env task_id s r) w0)) ->
     In t' (live w0) \/
     exists t, In t (live w0) /\ id t = task_id /\ id t' = task_id /\
               result t' = match s with COMPLETED => r | _ => result t end) /\
  (forall (w0 : World) task_id s r t,
     healthy env ->
     get_task task_id w0 = (Ret (Some t), w0) ->
     exists t',
       get_task task_id (world_after (update_task_status env task_id s r) w0)
       = (Ret (Some t'),
          world_after (update_task_status env task_id s r) w0) /\
       result t' = match s with COMPLETED => r | _ => result t end).
Proof.
  intros Hinv0 Hok0. split; [|split].
  - revert w Hinv0 Hok0. induction ops as [|o ops IH]; intros w Hinv Hok.
    + exists w. split; [reflexivity|].
      intros all Hall. rewrite load_all_tasks_live in Hall.
      inversion Hall; subst. exact Hinv.
    + simpl in Hok. apply andb_true_iff in Hok. destruct Hok as [Ho Hops].
      destruct (IH (world_after (run_op env o) w)) as (w' & Hrun & Hfinal).
      * apply (run_op_keeps_invariant env o w Hinv Ho).
      * exact Hops.
      * exists w'. split; [|exact Hfinal].
        simpl. unfold bind. rewrite run_op_spec. exact Hrun.
  - intros w0 i s r t' Hin. unfold world_after in Hin.
    rewrite update_task_status_spec in Hin. cbn [snd] in Hin.
    unfold after_update in Hin.
    destruct (live_after_persist_cases env
                (update_first_with
                   (applied s r (isoformat_now env (n_clock w0))) i (live w0))
                (after_update_first env i s r (live w0) w0)) as [E|[E|E]];
      rewrite E in Hin.
    + apply In_update_first_with in Hin.
      destruct Hin as [Hin | (t & Hfirst & ->)]; [now left | right].
      destruct (first_with_id_some _ _ _ Hfirst) as [Ht Hid].
      exists t. rewrite id_applied, result_applied. auto.
    + rewrite live_after_update_first in Hin. now left.
    + destruct Hin.
  - intros w0 i s r t Hh Hget. rewrite get_task_first in Hget.
    inversion Hget as [Hfirst].
    exists (applied s r (isoformat_now env (n_clock w0)) t).
    unfold world_after. rewrite update_task_status_spec. cbn [snd].
    rewrite get_task_first, live_after_update by exact Hh.
    rewrite first_with_id_update_same by (intros; apply id_applied).
    rewrite Hfirst. split; [reflexivity | apply result_applied].
Qed.

(** C6, witness: a task is created, taken in progress and completed with a
    result, a second one is created and failed. *)
Lemma result_iff_completed_when_disciplined_witness :
  exists w',
    run_ops example_env
            [OpCreate "Test Task" "test_agent" [] MEDIUM [];
             OpUpdateStatus "c0ffee00" IN_PROGRESS None;
             OpUpdateStatus "c0ffee00" COMPLETED (Some example_result);
             OpCreate "Other Task" "test_agent" [] LOW [];
             OpUpdateStatus "1b9d6bcd" FAILED None]
            empty_world = (Ret tt, w') /\
    forall all, _load_all_tasks w' = (Ret all, w') ->
      forall t, In t all -> result t <> None <-> status t = COMPLETED.
Proof.
  apply (result_iff_completed_when_disciplined example_env
           [OpCreate "Test Task" "test_agent" [] MEDIUM [];
            OpUpdateStatus "c0ffee00" IN_PROGRESS None;
            OpUpdateStatus "c0ffee00" COMPLETED (Some example_result);
            OpCreate "Other Task" "test_agent" [] LOW [];
            OpUpdateStatus "1b9d6bcd" FAILED None]
           empty_world).
  - intros t [].
  - vm_compute. reflexivity.
Defined.

(** C6, counterexample: as in the queue's own dependency test, a task is
    marked COMPLETED without a result and is then COMPLETED with a null
    result; and a task completed with a result and then marked FAILED is
    FAILED and still has that result. *)
Lemma completed_without_result_and_failed_with_result :
  (exists w',
     run_ops example_env
             [OpCreate "Parent Task" "agent1" [] MEDIUM [];
              OpUpdateStatus "c0ffee00" COMPLETED None]
             empty_world = (Ret tt, w') /\
     exists t, get_task "c0ffee00" w' = (Ret (Some t), w') /\
               status t = COMPLETED /\ result t = None) /\
  (exists w',
     run_ops example_env
             [OpCreate "Test Task" "test_agent" [] MEDIUM [];
              OpUpdateStatus "c0ffee00" COMPLETED (Some example_result);
              OpUpdateStatus "c0ffee00" FAILED None]
             empty_world = (Ret tt, w') /\
     exists t, get_task "c0ffee00" w' = (Ret (Some t), w') /\
               status t = FAILED /\ result t = Some example_result).
Proof.
  split; (eexists; split; [vm_compute; reflexivity|]);
    (eexists; split; [vm_compute; reflexivity|]); split; reflexivity.
Qed.

(** C4, as the code has it. [get_pipeline_status] joins nothing: it takes a
    pipeline id, which it only echoes, and tabulates every task of the live
    store by id (the last task stored under an id is the one counted), so
    that the answer is the same for every pipeline id. Over the tasks so
    counted the overall status is "completed" iff all are COMPLETED, else
    "failed" if one is FAILED, else "in_progress" if one is IN_PROGRESS,
    else "pending"; when the ids of the store are distinct every live task
    is counted. *)
Theorem get_pipeline_status_counts_every_live_task
        (pipeline_id : string) (w : World) :
  exists all st,
    _load_all_tasks w = (Ret all, w) /\
    get_pipeline_status pipeline_id w = (Ret st, w) /\
    status_pipeline_id st = pipeline_id /\
    (forall other, exists st',
        get_pipeline_status other w = (Ret st', w) /\
        status_tasks st' = status_tasks st /\
        overall_status st' = overall_status st) /\
    (forall k, dict_get k (status_tasks st)
               = option_map task_info (last_with_id k all)) /\
    (overall_status st = "completed" <->
       (forall t, counted all t -> status t = COMPLETED)) /\
    (overall_status st = "failed" <->
       ~ (forall t, counted all t -> status t = COMPLETED) /\
       (exists t, counted all t /\ status t = FAILED)) /\
    (overall_status st = "in_progress" <->
       ~ (forall t, counted all t -> status t = COMPLETED) /\
       ~ (exists t, counted all t /\ status t = FAILED) /\
       (exists t, counted all t /\ status t = IN_PROGRESS)) /\
    (overall_status st = "pending" <->
       ~ (forall t, counted all t -> status t = COMPLETED) /\
       ~ (exists t, counted all t /\ status t = FAILED) /\
       ~ (exists t, counted all t /\ status t = IN_PROGRESS)) /\
    (NoDup (map id all) -> forall t, In t all -> counted all t).
Proof.
  eexists (live w), _.
  split; [apply load_all_tasks_live|].
  split; [apply get_pipeline_status_spec|]. simpl.
  split; [reflexivity|].
  split; [intros other; eexists; split;
          [apply get_pipeline_status_spec | split; reflexivity]|].
  split; [apply status_table_get|].
  pose proof (overall_of_cases
                (map info_status (dict_values (status_table (live w)))))
    as (Hc & Hf & Hi & Hp).
  pose proof (table_all_completed (live w)) as Hall.
  pose proof (table_any_status (live w) FAILED) as Hfail.
  pose proof (table_any_status (live w) IN_PROGRESS) as Hprog.
  simpl in Hfail, Hprog.
  rewrite <- Hall, <- Hfail, <- Hprog, !not_true_iff_false.
  repeat split; try tauto.
  intros Hnd t Hin. now apply counted_when_unique.
Qed.

(** C4, counterexample: the five tasks of the pipeline are all COMPLETED
    and the store also holds a FAILED task of another request; the join of
    the pipeline's ids gives Completed, [get_pipeline_status] answers
    "failed", whereas it answers "completed" for the same pipeline before
    the foreign task was stored. *)
Lemma foreign_task_changes_pipeline_status :
  map id (joined_tasks example_pipeline (live world_with_foreign_failure))
  = dict_values (tasks example_pipeline) /\
  joined_tasks example_pipeline (live world_with_foreign_failure)
  = joined_tasks example_pipeline (live world_pipeline_completed) /\
  PipelineStatus_spec example_pipeline (live world_with_foreign_failure)
  = COMPLETED /\
  option_map overall_status
    (returned (get_pipeline_status (pipeline_id example_pipeline))
              world_with_foreign_failure) = Some "failed" /\
  option_map overall_status
    (returned (get_pipeline_status (pipeline_id example_pipeline))
              world_pipeline_completed) = Some "completed".
Proof.
  repeat match goal with |- _ /\ _ => split end; vm_compute; reflexivity.
Qed.

(** Wiring of a writing task as the pipeline builder makes it: when the
    analysis result can be fetched and is not empty, its [outline] is
    copied into the payload, and [research_data] stays the empty dictionary
    it was created with, whatever the store holds for the research task:
    [research_task_id] is looked up in the payload of the writing task
    itself, which has no such key. *)
Lemma wiring_of_writing_task (env : Env) (w : World) (t : Task)
      (analysis_task_id : string) (analysis_result : dict) :
  payload t = writing_payload analysis_task_id ->
  analysis_task_id <> "" ->
  analysis_result <> [] ->
  get_task_result analysis_task_id w = (Ret (Some analysis_result), w) ->
  exists t',
    _load_dependent_task_data env
      (set_payload (dict_set "id" (VStr (id t)) (payload t)) t) w = (Ret t', w) /\
    payload t'
    = [("analysis_task_id", VStr analysis_task_id);
       ("outline", dict_get_default "outline" (VDict []) analysis_result);
       ("style_guide", VStr "professional");
       ("research_data", VDict []); ("id", VStr (id t))].
Proof.
  intros Hp Hid Hne Hres.
  unfold _load_dependent_task_data. rewrite Hp. simpl.
  apply String.eqb_neq in Hid. unfold bind at 1 2. unfold ret at 1.
  simpl. rewrite Hid. simpl. unfold bind at 1 2. rewrite Hres.
  destruct analysis_result as [|kv rest]; [contradiction|]. simpl.
  unfold bind, ret. simpl. eexists. split; reflexivity.
Qed.

(** C3. The pipeline is run from the empty queue with a writer that answers
    with the payload it was dispatched with. The research task is then
    COMPLETED with a non-empty result that [get_task_result] returns, and
    the payload of the analysis task refers to it under [research_task_id];
    the payload the writer received has the analysis outline, and its
    [research_data] is the empty dictionary, not the research result. *)
Theorem writer_is_dispatched_without_research_data :
  returned (get_task_result "1b9d6bcd")
           (world_after (run_content_pipeline example_env echo_writer_agents "AI")
                        empty_world)
  = Some (Some [("status", VStr "completed");
                ("outline", VDict [("title", VStr "Outline")]);
                ("content", VStr "Text")]) /\
  option_map (fun t => dict_get "research_task_id" (payload t))
    (first_with_id "7c9e6679"
       (live (world_after
                (run_content_pipeline example_env echo_writer_agents "AI")
                empty_world)))
  = Some (Some (VStr "1b9d6bcd")) /\
  option_map (fun run => dict_get "3f2504e0" (final_results run))
    (returned (run_content_pipeline example_env echo_writer_agents "AI")
              empty_world)
  = Some (Some [("analysis_task_id", VStr "7c9e6679");
                ("outline", VDict [("title", VStr "Outline")]);
                ("style_guide", VStr "professional");
                ("research_data", VDict []);
                ("id", VStr "3f2504e0")]).
Proof.
  repeat match goal with |- _ /\ _ => split end; vm_compute; reflexivity.
Qed.

(** C8. Bounded termination: whatever the store, the workers and the disk,
    [run_content_pipeline] returns, for every iteration ceiling (20 by
    default), with an iteration count that does not exceed the ceiling.
    When moreover the disk works, the ceiling is positive, the id drawn for
    the research task is fresh and the research worker raises at every
    dispatch (the other workers and the tasks already stored being
    arbitrary), the research task is FAILED afterwards and
    [get_pipeline_status] reports "failed". *)
Theorem run_content_pipeline_bounded_when_research_fails
        (env : Env) (w : World) (topic : string) (max_iterations : nat)
        (researcher analyst writer seo quality coordinator : Worker) :
  exists run w',
    run_content_pipeline_with env
      (engine_agents researcher analyst writer seo quality coordinator)
      max_iterations topic w = (Ret run, w') /\
    iterations run <= max_iterations /\
    (healthy env ->
     always_fails researcher ->
     0 < max_iterations ->
     ~ In (drawn_id env w 1) (map id (live w)) ->
     (forall k, 2 <= k <= 5 -> drawn_id env w k <> drawn_id env w 1) ->
     dict_get "research" (tasks (pipeline run)) = Some (drawn_id env w 1) /\
     (exists t, get_task (drawn_id env w 1) w' = (Ret (Some t), w') /\
                status t = FAILED) /\
     (exists st,
        get_pipeline_status (pipeline_id (pipeline run)) w' = (Ret st, w') /\
        overall_status st = "failed")).
Proof.
  destruct (run_content_pipeline_returns env
              (engine_agents researcher analyst writer seo quality coordinator)
              max_iterations topic w) as (run & w' & Erun & Hbound).
  exists run, w'. split; [exact Erun|]. split; [exact Hbound|].
  intros Hh Hf Hmax Hfresh Hdistinct.
  destruct (research_failure_is_reported env w topic max_iterations researcher
              analyst writer seo quality coordinator Hh Hf Hmax Hfresh Hdistinct)
    as (run2 & w2 & Erun2 & _ & Hresearch & Hfailed & Hstatus).
  rewrite Erun in Erun2. inversion Erun2; subst run2 w2.
  auto.
Qed.

(** C8, witness: the default ceiling, the empty queue and a research worker
    that raises at every dispatch. *)
Lemma run_content_pipeline_bounded_when_research_fails_witness :
  exists run w',
    run_content_pipeline example_env
      (engine_agents failing_worker succeeding_worker succeeding_worker
                     succeeding_worker succeeding_worker succeeding_worker)
      "AI" empty_world = (Ret run, w') /\
    iterations run <= MAX_ITERATIONS /\
    (exists st,
       get_pipeline_status (pipeline_id (pipeline run)) w' = (Ret st, w') /\
       overall_status st = "failed").
Proof.
  destruct (run_content_pipeline_bounded_when_research_fails
              example_env empty_world "AI" MAX_ITERATIONS
              failing_worker succeeding_worker succeeding_worker
              succeeding_worker succeeding_worker succeeding_worker)
    as (run & w' & Erun & Hit & Hfail).
  exists run, w'. split; [exact Erun|]. split; [exact Hit|].
  apply Hfail.
  - intros n. reflexivity.
  - intros n payload. eexists. reflexivity.
  - unfold MAX_ITERATIONS. lia.
  - simpl. tauto.
  - intros k Hk.
    destruct k as [|[|[|[|[|[|k]]]]]]; try lia; vm_compute; discriminate.
Defined.

(** C9, as the code has it. Convergence needs an empty queue: the pipeline
    is built and run on a queue that holds no task, with a working disk,
    five distinct task ids and workers that return at every dispatch. Then
    [run_content_pipeline] returns, for every positive iteration ceiling (20
    by default), with an iteration count of at most 5 (the engine visits the
    workers in the order of the stages, so one pass completes all five);
    every task of the pipeline is COMPLETED afterwards and
    [get_pipeline_status] reports "completed". Whatever the archive held
    before, the wiring of a stage asks only about the task of the stage
    before it, whose copy the completion has just written. *)
Theorem run_content_pipeline_converges_when_workers_succeed
        (env : Env) (w : World) (topic : string) (max_iterations : nat)
        (researcher analyst writer seo quality coordinator : Worker) :
  healthy env ->
  always_succeeds researcher -> always_succeeds analyst ->
  always_succeeds writer -> always_succeeds seo -> always_succeeds quality ->
  0 < max_iterations ->
  _load_all_tasks w = (Ret [], w) ->
  NoDup (built_ids env w) ->
  exists run w',
    run_content_pipeline_with env
      (engine_agents researcher analyst writer seo quality coordinator)
      max_iterations topic w = (Ret run, w') /\
    iterations run <= 5 /\
    dict_values (tasks (pipeline run)) = built_ids env w /\
    (forall task_id, In task_id (dict_values (tasks (pipeline run))) ->
       exists t, get_task task_id w' = (Ret (Some t), w') /\
                 status t = COMPLETED) /\
    (exists st,
       get_pipeline_status (pipeline_id (pipeline run)) w' = (Ret st, w') /\
       overall_status st = "completed").
Proof.
  intros Hh H1 H2 H3 H4 H5 Hmax Hempty Hnd.
  set (agents := engine_agents researcher analyst writer seo quality coordinator).
  set (p := built_pipeline env topic w).
  rewrite load_all_tasks_live in Hempty.
  assert (Hlive : live w = []) by congruence.
  destruct (execute_content_pipeline_spec env topic w Hh) as (w0 & Ebuild & Hlive0).
  rewrite Hlive in Hlive0. simpl in Hlive0.
  assert (Hrefs0 : forall t, In t (live w0) -> refers_to_dependencies env t)
    by (rewrite Hlive0; apply built_tasks_refer_to_dependencies).
  assert (Hshape0 : chain_shape (built_ids env w) 0 (live w0))
    by (rewrite Hlive0; apply built_tasks_shape).
  destruct (first_pass_completes_chain env (built_ids env w) w0 researcher
              analyst writer seo quality coordinator Hh H1 H2 H3 H4 H5 Hnd
              Hshape0 Hrefs0) as (pr & w1 & Epass & Hcount & Hshape5).
  fold agents in Epass.
  pose proof (chain_completed _ _ Hshape5) as Hdone.
  assert (Hloop : exists res,
            run_loop env agents max_iterations p 0 [] w0 = (Ret (1, res), w1)).
  { rewrite run_loop_step.
    destruct (Nat.ltb_spec 0 max_iterations); [|lia].
    unfold bind at 1. rewrite load_all_tasks_live.
    unfold bind at 1. rewrite Epass, Hcount. simpl Nat.eqb. cbv iota.
    unfold bind at 1, ret at 1.
    rewrite run_loop_step.
    destruct (Nat.ltb_spec 1 max_iterations); [|eexists; reflexivity].
    unfold bind at 1. rewrite load_all_tasks_live.
    unfold bind at 1. rewrite process_pending_tasks_steps, idle_pass.
    - simpl Nat.eqb. cbv iota. unfold bind at 1.
      rewrite settled_when_completed by exact Hdone.
      eexists. reflexivity.
    - intros t Hin. rewrite (Hdone t Hin). discriminate. }
  destruct Hloop as (res & Eloop).
  destruct (collect_final_results_quiet p w1) as (fr & Efr).
  exists (mkPipelineRun p 1 fr), w1.
  split.
  { unfold run_content_pipeline_with, bind. fold agents.
    rewrite Ebuild. fold p. rewrite Eloop, Efr. reflexivity. }
  split; [simpl; lia|]. split; [reflexivity|]. split.
  - intros task_id Hin. simpl in Hin.
    destruct Hshape5 as (Hids & _).
    destruct (first_with_id_present task_id (live w1)) as (t & Hfirst).
    { rewrite Hids. exact Hin. }
    exists t. rewrite get_task_first, Hfirst. split; [reflexivity|].
    apply Hdone. now destruct (first_with_id_some _ _ _ Hfirst).
  - now apply overall_completed_when_all_completed.
Qed.

(** C9, witness: the default ceiling, the empty queue and workers that all
    succeed. *)
Lemma run_content_pipeline_converges_when_workers_succeed_witness :
  exists run w',
    run_content_pipeline example_env succeeding_agents "AI" empty_world
    = (Ret run, w') /\
    iterations run <= 5 /\
    (exists st,
       get_pipeline_status (pipeline_id (pipeline run)) w' = (Ret st, w') /\
       overall_status st = "completed").
Proof.
  destruct (run_content_pipeline_converges_when_workers_succeed
              example_env empty_world "AI" MAX_ITERATIONS
              succeeding_worker succeeding_worker succeeding_worker
              succeeding_worker succeeding_worker succeeding_worker)
    as (run & w' & Erun & Hit & _ & _ & Hst);
    try (intros n payload; eexists; reflexivity).
  - intros n. reflexivity.
  - unfold MAX_ITERATIONS. lia.
  - reflexivity.
  - vm_compute. repeat constructor; simpl; intuition discriminate.
  - exists run, w'. auto.
Defined.

(** C9, counterexample: the claim without the empty queue. The disk works,
    the ids never repeat and every worker returns at every dispatch. On a
    store that holds a backlog of six chained tasks of the research worker,
    the run completes the five tasks of the pipeline and returns an
    iteration count of 6; on a store that holds one FAILED task of an
    earlier request, the five tasks of the pipeline are all COMPLETED after
    one iteration and [get_pipeline_status] reports "failed". *)
Lemma run_content_pipeline_on_a_used_queue :
  (exists run w',
     run_content_pipeline counting_env succeeding_agents "AI" world_backlog
     = (Ret run, w') /\
     map status (filter (in_pipeline (pipeline run)) (live w'))
     = [COMPLETED; COMPLETED; COMPLETED; COMPLETED; COMPLETED] /\
     iterations run = 6) /\
  (exists run w' st,
     run_content_pipeline counting_env succeeding_agents "AI" world_one_failed
     = (Ret run, w') /\
     map status (filter (in_pipeline (pipeline run)) (live w'))
     = [COMPLETED; COMPLETED; COMPLETED; COMPLETED; COMPLETED] /\
     iterations run = 1 /\
     get_pipeline_status (pipeline_id (pipeline run)) w' = (Ret st, w') /\
     overall_status st = "failed").
Proof.
  split.
  - eexists _, _. split; [vm_compute; reflexivity|].
    split; vm_compute; reflexivity.
  - eexists _, _, _. split; [vm_compute; reflexivity|].
    split; [vm_compute; reflexivity|]. split; [vm_compute; reflexivity|].
    split; vm_compute; reflexivity.
Qed.

(** C10, witness: the store of the completed task, with [tasks.json] left
    unreadable. *)
Lemma load_failure_reads_as_empty_witness :
  _load_all_tasks world_damaged = (Ret [], world_damaged) /\
  get_task_result "c0ffee00" world_damaged
  = (Ret (Some example_result), world_damaged).
Proof.
  destruct (load_failure_reads_as_empty example_env world_damaged
              (or_intror eq_refl)) as (Hload & _ & _ & _ & _ & Harchive).
  split; [exact Hload|].
  apply (Harchive world_one_pending "c0ffee00"
           (new_task example_env "Test Task" "test_agent" [] MEDIUM []
                     empty_world)).
  - vm_compute. reflexivity.
  - reflexivity.
  - vm_compute. reflexivity.
Defined.

(** C10, counterexample: a task is completed with a result while the write
    of its archive copy is refused, which [_archive_task] only logs; the
    task list is written and holds the result. The next write of the task
    list is torn. [_load_all_tasks] then returns the empty list and
    [get_task_result] answers [None] for the completed task: its result is
    not retrievable through the archive. *)
Lemma completed_result_is_lost_with_the_task_file :
  exists w1 w2 new_id,
    update_task_status archive_lost_then_torn_env "c0ffee00" COMPLETED
                       (Some example_result) world_one_pending_fresh_disk
    = (Ret tt, w1) /\
    option_map (fun t => (status t, result t))
               (first_with_id "c0ffee00" (live w1))
    = Some (COMPLETED, Some example_result) /\
    get_task_result "c0ffee00" w1 = (Ret (Some example_result), w1) /\
    add_task archive_lost_then_torn_env "Other Task" "test_agent" [] LOW [] w1
    = (Ret new_id, w2) /\
    tasks_file w2 = FileUnreadable /\
    _load_all_tasks w2 = (Ret [], w2) /\
    get_task_result "c0ffee00" w2 = (Ret None, w2).
Proof.
  eexists _, _, _.
  split; [vm_compute; reflexivity|].
  repeat match goal with |- _ /\ _ => split end; vm_compute; reflexivity.
Qed.

(* ===================================================================== *)
(** ** Further properties of the queue *)
(* ===================================================================== *)

Lemma first_with_id_app_last (j : string) (l : list Task) (t : Task) :
  first_with_id j (l ++ [t])
  = match first_with_id j l with
    | Some u => Some u
    | None => if String.eqb (id t) j then Some t else None
    end.
Proof.
  unfold first_with_id. induction l as [|u l IH]; simpl.
  - now destruct (String.eqb (id t) j).
  - destruct (String.eqb (id u) j); [reflexivity | exact IH].
Qed.

(** X1. Create, then look up: when the write succeeds [add_task] returns the
    id it drew and the store has one task more; every task that [get_task]
    found before is still what it finds, also under the new id when an older
    task already has it, and when the id is new [get_task] finds the task
    just created, PENDING, without result, with the arguments as given and
    both timestamps at the clock reading of the call. *)
Theorem add_task_then_get_task (env : Env) (w : World)
        (title assigned_agent : string) (payload : dict)
        (priority : TaskPriority) (dependencies : list string) :
  disk env (n_disk w) = WriteOk ->
  exists task_id w',
    add_task env title assigned_agent payload priority dependencies w
    = (Ret task_id, w') /\
    task_id = substring 0 8 (uuid4 env (n_uuid w)) /\
    (forall all, _load_all_tasks w = (Ret all, w) ->
       exists t, _load_all_tasks w' = (Ret (all ++ [t])%list, w')) /\
    (forall j t, get_task j w = (Ret (Some t), w) ->
                 get_task j w' = (Ret (Some t), w')) /\
    (get_task task_id w = (Ret None, w) ->
     get_task task_id w'
     = (Ret (Some (mkTask task_id title assigned_agent PENDING priority
                          dependencies payload
                          (isoformat_now env (n_clock w))
                          (isoformat_now env (n_clock w)) None None None)),
        w')).
Proof.
  intros Hdisk.
  set (t := new_task env title assigned_agent payload priority dependencies w).
  exists (id t), (after_add env t w).
  assert (Hlive : live (after_add env t w) = (live w ++ [t])%list)
    by (unfold after_add; now rewrite live_after_persist_ok).
  split; [apply add_task_spec|]. split; [reflexivity|]. split; [|split].
  - intros all Hall. rewrite load_all_tasks_live in Hall.
    inversion Hall; subst all. exists t. now rewrite load_all_tasks_live, Hlive.
  - intros j u Hget. rewrite get_task_first in Hget. inversion Hget as [Hj].
    rewrite get_task_first, Hlive, first_with_id_app_last, Hj. reflexivity.
  - intros Hget. rewrite get_task_first in Hget. inversion Hget as [Hj].
    change (substring 0 8 (uuid4 env (n_uuid w))) with (id t) in Hj.
    change (first_with_id (id t) (live w) = None) in Hj.
    rewrite get_task_first, Hlive, first_with_id_app_last, Hj.
    now rewrite String.eqb_refl.
Qed.

(** X1, witness: a second task is added to the store of one task. *)
Lemma add_task_then_get_task_witness :
  exists w',
    add_task example_env "Second Task" "test_agent" [] LOW [] world_one_pending
    = (Ret "1b9d6bcd", w') /\
    get_task "1b9d6bcd" w'
    = (Ret (Some (mkTask "1b9d6bcd" "Second Task" "test_agent" PENDING LOW []
                         [] (example_clock 1) (example_clock 1)
                         None None None)), w').
Proof.
  destruct (add_task_then_get_task example_env world_one_pending
              "Second Task" "test_agent" [] LOW [] eq_refl)
    as (task_id & w' & Hadd & Hid & _ & _ & Hnew).
  vm_compute in Hid. subst task_id.
  exists w'. split; [exact Hadd|]. apply Hnew. reflexivity.
Defined.

Lemma update_first_with_absent (f : Task -> Task) (i : string) (l : list Task) :
  first_with_id i l = None -> update_first_with f i l = l.
Proof.
  unfold first_with_id. induction l as [|t l IH]; simpl; [reflexivity|].
  destruct (String.eqb (id t) i); [discriminate|].
  intros H. rewrite (IH H). reflexivity.
Qed.

(** X2. A status write for an id that no task has: [update_task_status]
    returns normally, reads no clock and archives nothing, and still writes
    the task list back once; when that write succeeds the store holds the
    tasks it held, and when it is torn the store is lost. *)
Theorem update_task_status_unknown_id (env : Env) (w : World)
        (task_id : string) (s : TaskStatus) (r : option dict) :
  get_task task_id w = (Ret None, w) ->
  exists w',
    update_task_status env task_id s r w = (Ret tt, w') /\
    completed_dir w' = completed_dir w /\
    n_clock w' = n_clock w /\
    n_disk w' = S (n_disk w) /\
    (forall all, disk env (n_disk w) = WriteOk ->
       _load_all_tasks w = (Ret all, w) -> _load_all_tasks w' = (Ret all, w')) /\
    (disk env (n_disk w) = WriteTorn -> _load_all_tasks w' = (Ret [], w')).
Proof.
  intros Hget. rewrite get_task_first in Hget. inversion Hget as [Hnone].
  exists (after_update env task_id s r w).
  split; [apply update_task_status_spec|].
  unfold after_update, after_update_first. rewrite Hnone.
  rewrite (update_first_with_absent _ task_id (live w) Hnone).
  repeat match goal with |- _ /\ _ => split end; try reflexivity.
  - intros all Hdisk Hall. rewrite load_all_tasks_live in Hall.
    inversion Hall; subst all.
    rewrite load_all_tasks_live, live_after_persist_ok by exact Hdisk.
    reflexivity.
  - intros Hdisk. rewrite load_all_tasks_live.
    unfold live, after_persist. simpl. now rewrite Hdisk.
Qed.

(** X2, witness: a status is written for an id the store of one task does
    not have. *)
Lemma update_task_status_unknown_id_witness :
  exists w',
    update_task_status example_env "deadbeef" COMPLETED None world_one_pending
    = (Ret tt, w') /\
    completed_dir w' = completed_dir world_one_pending /\
    _load_all_tasks w' = (Ret (live world_one_pending), w').
Proof.
  destruct (update_task_status_unknown_id example_env world_one_pending
              "deadbeef" COMPLETED None eq_refl)
    as (w' & Hret & Hdir & _ & _ & Hsame & _).
  exists w'. split; [exact Hret|]. split; [exact Hdir|].
  apply Hsame; [reflexivity | apply load_all_tasks_live].
Defined.

Lemma length_update_first_with (f : Task -> Task) i (l : list Task) :
  List.length (update_first_with f i l) = List.length l.
Proof.
  induction l as [|t l IH]; simpl; [reflexivity|].
  destruct (String.eqb (id t) i); simpl; [reflexivity | now rewrite IH].
Qed.

Lemma nth_error_update_first_with (f : Task -> Task) i (l : list Task)
      (n : nat) (t : Task) :
  nth_error l n = Some t ->
  exists t',
    nth_error (update_first_with f i l) n = Some t' /\
    (t' = t \/
     (t' = f t /\ id t = i /\
      forall m u, m < n -> nth_error l m = Some u -> id u <> i)).
Proof.
  revert n. induction l as [|x l IH]; intros n Hn.
  - destruct n; discriminate.
  - simpl. destruct (String.eqb (id x) i) eqn:E.
    + destruct n as [|n]; simpl in *.
      * inversion Hn; subst x. exists (f t). split; [reflexivity|]. right.
        apply String.eqb_eq in E. repeat split; auto. intros m u Hm. lia.
      * exists t. auto.
    + destruct n as [|n]; simpl in *.
      * exists x. inversion Hn; subst. auto.
      * destruct (IH n Hn) as (t' & Ht' & [Hsame | (Hf & Hid & Hfirst)]).
        -- exists t'. auto.
        -- exists t'. split; [exact Ht'|]. right. repeat split; auto.
           intros m u Hm Hu. destruct m as [|m]; simpl in Hu.
           ++ inversion Hu; subst u. now apply String.eqb_neq.
           ++ apply (Hfirst m u); [lia | exact Hu].
Qed.

Lemma static_fields_applied s r now t :
  title (applied s r now t) = title t /\
  priority (applied s r now t) = priority t /\
  payload (applied s r now t) = payload t /\
  created_at (applied s r now t) = created_at t.
Proof. destruct s; repeat split. Qed.

(** X3. What a status write leaves alone: with a working disk the store
    holds as many tasks as before, in the same places; no task changes its
    id, title, worker, priority, dependencies, payload or creation time; and
    every task that has another id, or that stands behind a task with the
    id written, is exactly as it was. *)
Theorem update_task_status_frame (env : Env) (w : World)
        (task_id : string) (s : TaskStatus) (r : option dict) :
  healthy env ->
  exists w' all all',
    update_task_status env task_id s r w = (Ret tt, w') /\
    _load_all_tasks w = (Ret all, w) /\
    _load_all_tasks w' = (Ret all', w') /\
    List.length all' = List.length all /\
    forall n t, nth_error all n = Some t ->
      exists t',
        nth_error all' n = Some t' /\
        id t' = id t /\ title t' = title t /\
        assigned_agent t' = assigned_agent t /\ priority t' = priority t /\
        dependencies t' = dependencies t /\ payload t' = payload t /\
        created_at t' = created_at t /\
        (id t <> task_id -> t' = t) /\
        ((exists m u, m < n /\ nth_error all m = Some u /\ id u = task_id) ->
         t' = t).
Proof.
  intros Hh.
  exists (after_update env task_id s r w), (live w),
    (live (after_update env task_id s r w)).
  split; [apply update_task_status_spec|].
  split; [apply load_all_tasks_live|]. split; [apply load_all_tasks_live|].
  rewrite live_after_update by exact Hh.
  split; [apply length_update_first_with|].
  intros n t Hn.
  destruct (nth_error_update_first_with
              (applied s r (isoformat_now env (n_clock w))) task_id (live w) n t Hn)
    as (t' & Ht' & [-> | (-> & Hid & Hfirst)]).
  - exists t. repeat split; auto.
  - eexists. split; [exact Ht'|].
    destruct (static_fields_applied s r (isoformat_now env (n_clock w)) t)
      as (H1 & H2 & H3 & H4).
    rewrite id_applied, agent_applied, dependencies_applied, H1, H2, H3, H4.
    repeat split; try reflexivity.
    + intros Hne. contradiction.
    + intros (m & u & Hm & Hu & Hidu). destruct (Hfirst m u Hm Hu Hidu).
Qed.

(** X3, witness: the parent of the example store is completed and the child,
    at the second place, is as it was. *)
Lemma update_task_status_frame_witness :
  exists w',
    update_task_status example_env "c0ffee00" COMPLETED (Some example_result)
                       world_parent_child = (Ret tt, w') /\
    nth_error (live w') 1 = nth_error (live world_parent_child) 1.
Proof.
  destruct (update_task_status_frame example_env world_parent_child "c0ffee00"
              COMPLETED (Some example_result))
    as (w' & all & all' & Hret & Hall & Hall' & _ & Hframe).
  - intros n. reflexivity.
  - exists w'. split; [exact Hret|].
    rewrite load_all_tasks_live in Hall, Hall'.
    inversion Hall; inversion Hall'; subst all all'.
    destruct (nth_error (live world_parent_child) 1) as [t|] eqn:E;
      [|vm_compute in E; discriminate].
    destruct (Hframe 1 t E) as (t' & Ht' & _ & _ & _ & _ & _ & _ & _ & Hother & _).
    rewrite Ht', Hother; [reflexivity|].
    vm_compute in E. inversion E. subst t. discriminate.
Defined.

Lemma n_clock_after_update_found env i s r (w : World) (t : Task) :
  first_with_id i (live w) = Some t ->
  n_clock (after_update env i s r w) = S (n_clock w).
Proof.
  intros H. unfold after_update, after_update_first. rewrite H.
  destruct s; reflexivity.
Qed.

(** X4. The life of a dispatched task: with a working disk, a task that is
    taken IN_PROGRESS and then COMPLETED with a result is found COMPLETED
    with that result; [assigned_at] is the clock reading of the first write,
    [completed_at] and [updated_at] are the reading of the second, and the
    time of creation is the one it had. *)
Theorem in_progress_then_completed (env : Env) (w : World)
        (task_id : string) (t : Task) (r : option dict) :
  healthy env ->
  get_task task_id w = (Ret (Some t), w) ->
  exists w1 w2 t2,
    update_task_status env task_id IN_PROGRESS None w = (Ret tt, w1) /\
    update_task_status env task_id COMPLETED r w1 = (Ret tt, w2) /\
    get_task task_id w2 = (Ret (Some t2), w2) /\
    status t2 = COMPLETED /\ result t2 = r /\
    assigned_at t2 = Some (isoformat_now env (n_clock w)) /\
    completed_at t2 = Some (isoformat_now env (S (n_clock w))) /\
    updated_at t2 = isoformat_now env (S (n_clock w)) /\
    created_at t2 = created_at t.
Proof.
  intros Hh Hget. rewrite get_task_first in Hget. inversion Hget as [Hfirst].
  set (w1 := after_update env task_id IN_PROGRESS None w).
  set (t1 := applied IN_PROGRESS None (isoformat_now env (n_clock w)) t).
  assert (Hfirst1 : first_with_id task_id (live w1) = Some t1).
  { unfold w1. rewrite live_after_update by exact Hh.
    rewrite first_with_id_update_same by (intros; apply id_applied).
    now rewrite Hfirst. }
  assert (Hclock : n_clock w1 = S (n_clock w))
    by (apply (n_clock_after_update_found env task_id IN_PROGRESS None w t Hfirst)).
  exists w1, (after_update env task_id COMPLETED r w1),
    (applied COMPLETED r (isoformat_now env (n_clock w1)) t1).
  split; [apply update_task_status_spec|].
  split; [apply update_task_status_spec|].
  split.
  { rewrite get_task_first, live_after_update by exact Hh.
    rewrite first_with_id_update_same by (intros; apply id_applied).
    now rewrite Hfirst1. }
  rewrite Hclock. repeat split.
Qed.

(** X4, witness: the task of the example store. *)
Lemma in_progress_then_completed_witness :
  exists w1 w2 t2,
    update_task_status example_env "c0ffee00" IN_PROGRESS None world_one_pending
    = (Ret tt, w1) /\
    update_task_status example_env "c0ffee00" COMPLETED (Some example_result) w1
    = (Ret tt, w2) /\
    get_task "c0ffee00" w2 = (Ret (Some t2), w2) /\
    status t2 = COMPLETED /\ result t2 = Some example_result /\
    assigned_at t2 = Some (example_clock 1) /\
    completed_at t2 = Some (example_clock 2).
Proof.
  destruct (in_progress_then_completed example_env world_one_pending "c0ffee00"
              (new_task example_env "Test Task" "test_agent" [] MEDIUM []
                        empty_world)
              (Some example_result))
    as (w1 & w2 & t2 & H1 & H2 & H3 & H4 & H5 & H6 & H7 & _).
  - intros n. reflexivity.
  - reflexivity.
  - exists w1, w2, t2. auto 10.
Defined.

(** X5. Result durability: with a working disk, right after a task that is
    in the store has been marked COMPLETED with a result, [get_task_result]
    returns that very result, be it a dictionary with entries (read from
    the task list), the empty dictionary or none (read from the archive
    copy the call wrote). *)
Theorem completed_result_is_returned (env : Env) (w : World)
        (task_id : string) (t : Task) (r : option dict) :
  healthy env ->
  get_task task_id w = (Ret (Some t), w) ->
  exists w',
    update_task_status env task_id COMPLETED r w = (Ret tt, w') /\
    get_task_result task_id w' = (Ret r, w').
Proof.
  intros Hh Hget. rewrite get_task_first in Hget. inversion Hget as [Hfirst].
  exists (after_update env task_id COMPLETED r w).
  split; [apply update_task_status_spec|].
  rewrite get_task_result_cases.
  rewrite live_after_update by exact Hh.
  rewrite first_with_id_update_same by (intros; apply id_applied).
  rewrite Hfirst. simpl option_map. cbv iota.
  change (result (set_completed (isoformat_now env (n_clock w)) r
                    (set_status COMPLETED (isoformat_now env (n_clock w)) t)))
    with r.
  destruct (result_truthy r); [reflexivity|].
  rewrite archived_result_cases. unfold archived.
  rewrite (archive_entry_after_completion env w task_id t r Hfirst (Hh _)).
  reflexivity.
Qed.

(** X5, witness: the task of the example store is completed with the empty
    dictionary. *)
Lemma completed_result_is_returned_witness :
  exists w',
    update_task_status example_env "c0ffee00" COMPLETED (Some []) world_one_pending
    = (Ret tt, w') /\
    get_task_result "c0ffee00" w' = (Ret (Some []), w').
Proof.
  apply (completed_result_is_returned example_env world_one_pending "c0ffee00"
           (new_task example_env "Test Task" "test_agent" [] MEDIUM []
                     empty_world)).
  - intros n. reflexivity.
  - reflexivity.
Defined.

(** X6. A lost archive copy does not undo a completion: when the write of
    the archive file fails and the write of the task list succeeds,
    [update_task_status] returns normally, the task is COMPLETED in the
    store with the result given, the archive holds no readable copy written
    by the call, and [get_task_result] returns the result when it is not
    empty. *)
Theorem completion_survives_archive_failure (env : Env) (w : World)
        (task_id : string) (t : Task) (r : dict) :
  get_task task_id w = (Ret (Some t), w) ->
  disk env (n_disk w) <> WriteOk ->
  disk env (S (n_disk w)) = WriteOk ->
  exists w' t',
    update_task_status env task_id COMPLETED (Some r) w = (Ret tt, w') /\
    get_task task_id w' = (Ret (Some t'), w') /\
    status t' = COMPLETED /\ result t' = Some r /\
    (dict_get task_id (completed_dir w') = dict_get task_id (completed_dir w)
     \/ dict_get task_id (completed_dir w') = Some ArchiveUnreadable) /\
    (r <> [] -> get_task_result task_id w' = (Ret (Some r), w')).
Proof.
  intros Hget Harch Hpersist.
  rewrite get_task_first in Hget. inversion Hget as [Hfirst].
  destruct (first_with_id_some _ _ _ Hfirst) as [_ Hid].
  set (t' := applied COMPLETED (Some r) (isoformat_now env (n_clock w)) t).
  exists (after_update env task_id COMPLETED (Some r) w), t'.
  assert (Hlive : live (after_update env task_id COMPLETED (Some r) w)
                  = update_first_with
                      (applied COMPLETED (Some r) (isoformat_now env (n_clock w)))
                      task_id (live w)).
  { unfold after_update. apply live_after_persist_ok.
    unfold after_update_first. rewrite Hfirst. exact Hpersist. }
  assert (Hfound : first_with_id task_id
                     (live (after_update env task_id COMPLETED (Some r) w))
                   = Some t').
  { rewrite Hlive, first_with_id_update_same by (intros; apply id_applied).
    now rewrite Hfirst. }
  split; [apply update_task_status_spec|].
  split; [rewrite get_task_first, Hfound; reflexivity|].
  split; [reflexivity|]. split; [reflexivity|]. split.
  - unfold after_update, after_update_first. rewrite Hfirst. simpl.
    destruct (disk env (n_disk w)); [contradiction | now left | right].
    rewrite <- Hid at 1. apply dict_get_set_same.
  - intros Hne. rewrite (get_task_result_live _ _ t' Hfound).
    + reflexivity.
    + unfold t'. rewrite result_applied. now destruct r.
Qed.

(** X6, witness: the first write of the environment, the archive copy, is
    refused. *)
Lemma completion_survives_archive_failure_witness :
  exists w',
    update_task_status archive_failing_env "c0ffee00" COMPLETED
                       (Some example_result) world_one_pending_fresh_disk
    = (Ret tt, w') /\
    dict_get "c0ffee00" (completed_dir w') = None /\
    get_task_result "c0ffee00" w' = (Ret (Some example_result), w').
Proof.
  destruct (completion_survives_archive_failure archive_failing_env
              world_one_pending_fresh_disk "c0ffee00"
              (new_task example_env "Test Task" "test_agent" [] MEDIUM []
                        empty_world)
              example_result)
    as (w' & t' & Hret & _ & _ & _ & _ & Hres).
  - reflexivity.
  - discriminate.
  - reflexivity.
  - exists w'. split; [exact Hret|]. split.
    + rewrite update_task_status_spec in Hret. inversion Hret. reflexivity.
    + apply Hres. discriminate.
Defined.

(** X7. Nothing to return, or an error: when the task found under an id,
    if any, has no result or an empty one, [get_task_result] turns to the
    archive. It returns [None] and raises nothing when [exists()] answers
    that there is no file for the id, or when there is one that cannot be
    read; so it does for a task that was never completed. When [exists()]
    itself raises on the name (an id too long for a file name, for one),
    the [OSError] leaves [get_task_result], the check being outside the
    [try]. *)
Theorem get_task_result_without_result (w : World) (task_id : string) :
  (forall t, get_task task_id w = (Ret (Some t), w) ->
             result t = None \/ result t = Some []) ->
  (dict_get task_id (completed_dir w) = None \/
   dict_get task_id (completed_dir w) = Some ArchiveUnreadable ->
   get_task_result task_id w = (Ret None, w)) /\
  (dict_get task_id (completed_dir w) = Some ArchiveInaccessible ->
   get_task_result task_id w = (Raise OSError, w)).
Proof.
  intros Hlive.
  assert (Hfalsy : forall t, first_with_id task_id (live w) = Some t ->
                             result_truthy (result t) = false).
  { intros t E. destruct (Hlive t) as [Hr | Hr];
      [rewrite get_task_first, E; reflexivity | | ]; now rewrite Hr. }
  split.
  - intros Harch. rewrite get_task_result_cases, archived_result_cases.
    unfold archived.
    destruct (first_with_id task_id (live w)) as [t|] eqn:E;
      [rewrite (Hfalsy t eq_refl)|];
      destruct Harch as [-> | ->]; reflexivity.
  - intros Harch. now apply get_task_result_inaccessible.
Qed.

(** X7, witness: the PENDING task of the example store. *)
Lemma get_task_result_without_result_witness :
  get_task_result "c0ffee00" world_one_pending = (Ret None, world_one_pending).
Proof.
  destruct (get_task_result_without_result world_one_pending "c0ffee00")
    as (Hnone & _).
  - intros t Hget. vm_compute in Hget. inversion Hget. now left.
  - apply Hnone. now left.
Defined.

(** X8. The ready list is the worker's ready tasks, each as often as the
    store holds it: sorting neither drops a task nor repeats one, and the
    call leaves the files as they were. *)
Theorem get_pending_tasks_permutation (agent_id : string) (w : World) :
  exists all ready_tasks,
    _load_all_tasks w = (Ret all, w) /\
    get_pending_tasks agent_id w = (Ret ready_tasks, w) /\
    Permutation ready_tasks (agent_tasks agent_id all) /\
    List.length ready_tasks <= List.length all.
Proof.
  exists (live w), (ready agent_id (live w)).
  split; [apply load_all_tasks_live|].
  split; [apply get_pending_tasks_ready|].
  assert (Hp : Permutation (ready agent_id (live w))
                           (agent_tasks agent_id (live w)))
    by apply sorted_perm.
  split; [exact Hp|].
  rewrite (Permutation_length Hp). unfold agent_tasks. apply filter_length_le.
Qed.

Lemma In_update_first_with_other (f : Task -> Task) i (l : list Task) (t : Task) :
  In t l -> id t <> i -> In t (update_first_with f i l).
Proof.
  intros Hin Hne. induction l as [|x l IH]; simpl in *; [contradiction|].
  destruct (String.eqb (id x) i) eqn:E.
  - destruct Hin as [-> | Hin]; [|now right].
    apply String.eqb_eq in E. contradiction.
  - destruct Hin as [-> | Hin]; [now left | right; auto].
Qed.

(** X9. Completing the last open dependency unblocks a task: a PENDING
    task whose dependencies other than [d] are all COMPLETED is not in its
    worker's ready list while the task under [d] is not COMPLETED, and is
    in it right after [update_task_status(d, COMPLETED)] on a working
    disk. *)
Theorem completing_dependency_unblocks (env : Env) (w : World) (t : Task)
        (d : string) (u : Task) (r : option dict) :
  healthy env ->
  In t (live w) -> status t = PENDING -> id t <> d ->
  In d (dependencies t) ->
  get_task d w = (Ret (Some u), w) -> status u <> COMPLETED ->
  (forall dep, In dep (dependencies t) -> dep <> d ->
     exists v, get_task dep w = (Ret (Some v), w) /\ status v = COMPLETED) ->
  (forall ready_before,
     get_pending_tasks (assigned_agent t) w = (Ret ready_before, w) ->
     ~ In t ready_before) /\
  exists w' ready_after,
    update_task_status env d COMPLETED r w = (Ret tt, w') /\
    get_pending_tasks (assigned_agent t) w' = (Ret ready_after, w') /\
    In t ready_after.
Proof.
  intros Hh Hin Hs Hne Hd Hget Hu Hothers.
  rewrite get_task_first in Hget. inversion Hget as [Hfirst].
  split.
  - intros ready_before Hready Ht.
    rewrite get_pending_tasks_ready in Hready. inversion Hready; subst.
    apply ready_In, agent_tasks_In in Ht. destruct Ht as (_ & _ & _ & Hsat).
    destruct (proj1 (dependencies_satisfied_iff t (live w)) Hsat d Hd)
      as (v & Hv & Hc).
    congruence.
  - exists (after_update env d COMPLETED r w). eexists.
    split; [apply update_task_status_spec|].
    split; [apply get_pending_tasks_ready|].
    rewrite live_after_update by exact Hh.
    apply ready_In, agent_tasks_In.
    split; [now apply In_update_first_with_other|].
    split; [reflexivity|]. split; [exact Hs|].
    apply dependencies_satisfied_iff. intros dep Hdep.
    destruct (String.eqb_spec dep d) as [-> | Hdd].
    + eexists. rewrite first_with_id_update_same by (intros; apply id_applied).
      rewrite Hfirst. split; [reflexivity | apply status_applied].
    + destruct (Hothers dep Hdep Hdd) as (v & Hv & Hc).
      rewrite get_task_first in Hv. inversion Hv as [Hv'].
      exists v. split; [|exact Hc].
      rewrite first_with_id_update_other;
        [exact Hv' | intros; apply id_applied | congruence].
Qed.

(** X9, witness: the parent and the child of the example store, as in the
    queue's dependency test. *)
Lemma completing_dependency_unblocks_witness :
  exists w' ready_after child,
    update_task_status example_env "c0ffee00" COMPLETED None world_parent_child
    = (Ret tt, w') /\
    get_pending_tasks "agent2" w' = (Ret ready_after, w') /\
    In child ready_after /\ id child = "1b9d6bcd".
Proof.
  pose (child := mkTask "1b9d6bcd" "Child Task" "agent2" PENDING MEDIUM
                        ["c0ffee00"] [] (example_clock 1) (example_clock 1)
                        None None None).
  destruct (completing_dependency_unblocks example_env world_parent_child child
              "c0ffee00"
              (new_task example_env "Parent Task" "agent1" [] MEDIUM []
                        empty_world) None)
    as (_ & w' & ready_after & Hret & Hready & Hin).
  - intros n. reflexivity.
  - vm_compute. right. left. reflexivity.
  - reflexivity.
  - discriminate.
  - now left.
  - reflexivity.
  - discriminate.
  - intros dep [<- | []] Hne. now destruct Hne.
  - exists w', ready_after, child. auto.
Defined.

(* ===================================================================== *)
(** ** Further properties of the pipeline builder and of the driver *)
(* ===================================================================== *)

(** X10. Pipeline shape: with a working disk [execute_content_pipeline]
    returns the five stage names research, analysis, writing, seo, quality
    with five ids and appends to the store exactly the five tasks of these
    ids, in that order: all PENDING and without result, assigned to the
    worker of their stage, with priorities HIGH, HIGH, MEDIUM, MEDIUM, HIGH,
    the first without dependencies and each other one depending on the one
    before it, whose id (and no other task's) its payload carries. *)
Theorem execute_content_pipeline_shape (env : Env) (the_topic : string)
        (w : World) :
  healthy env ->
  exists p w' created r a wr s q,
    execute_content_pipeline env the_topic w = (Ret p, w') /\
    topic p = the_topic /\
    tasks p = [("research", r); ("analysis", a); ("writing", wr); ("seo", s);
               ("quality", q)] /\
    (forall all, _load_all_tasks w = (Ret all, w) ->
                 _load_all_tasks w' = (Ret (all ++ created)%list, w')) /\
    map id created = [r; a; wr; s; q] /\
    map assigned_agent created = pipeline_agent_ids /\
    map priority created = [HIGH; HIGH; MEDIUM; MEDIUM; HIGH] /\
    map dependencies created = [[]; [r]; [a]; [wr]; [s]] /\
    Forall (fun t => status t = PENDING /\ result t = None) created /\
    map (fun t => (dict_get "research_task_id" (payload t),
                   dict_get "analysis_task_id" (payload t),
                   dict_get "writing_task_id" (payload t),
                   dict_get "seo_task_id" (payload t))) created
    = [(None, None, None, None);
       (Some (VStr r), None, None, None);
       (None, Some (VStr a), None, None);
       (None, None, Some (VStr wr), None);
       (None, None, None, Some (VStr s))].
Proof.
  intros Hh.
  destruct (execute_content_pipeline_spec env the_topic w Hh)
    as (w' & Ebuild & Hlive).
  exists (built_pipeline env the_topic w), w', (built_tasks env the_topic w),
    (drawn_id env w 1), (drawn_id env w 2), (drawn_id env w 3),
    (drawn_id env w 4), (drawn_id env w 5).
  split; [exact Ebuild|]. split; [reflexivity|]. split; [reflexivity|].
  split.
  { intros all Hall. rewrite load_all_tasks_live in Hall.
    inversion Hall; subst all. now rewrite load_all_tasks_live, Hlive. }
  split; [reflexivity|]. split; [reflexivity|]. split; [reflexivity|].
  split; [reflexivity|]. split; [|reflexivity].
  unfold built_tasks. repeat constructor.
Qed.

(** X10, witness: the pipeline built on the empty queue. *)
Lemma execute_content_pipeline_shape_witness :
  exists p w' created,
    execute_content_pipeline example_env "AI" empty_world = (Ret p, w') /\
    _load_all_tasks w' = (Ret created, w') /\
    map id created = dict_values (tasks p) /\
    map dependencies created
    = [[]; ["1b9d6bcd"]; ["7c9e6679"]; ["3f2504e0"]; ["9a7b330a"]].
Proof.
  destruct (execute_content_pipeline_shape example_env "AI" empty_world)
    as (p & w' & created & r & a & wr & s & q & Hbuild & _ & Htasks & Hload
        & Hids & _ & _ & Hdeps & _).
  - intros n. reflexivity.
  - exists p, w', created. split; [exact Hbuild|].
    split; [apply (Hload []); reflexivity|].
    rewrite Htasks, Hids. split; [reflexivity|].
    assert (Hp : p = built_pipeline example_env "AI" empty_world).
    { pose proof (execute_content_pipeline_spec example_env "AI" empty_world
                    (fun n => eq_refl)) as (w2 & E2 & _).
      rewrite Hbuild in E2. now inversion E2. }
    rewrite Hp in Htasks. vm_compute in Htasks.
    inversion Htasks; subst. exact Hdeps.
Defined.

Lemma no_task_for_agent_no_ready (agent_id : string) (l : list Task) :
  (forall t, In t l -> status t = PENDING -> assigned_agent t <> agent_id) ->
  ready agent_id l = [].
Proof.
  intros H. destruct (ready agent_id l) as [|x rest] eqn:E; [reflexivity|].
  assert (Hx : In x (ready agent_id l)) by (rewrite E; now left).
  apply ready_In, agent_tasks_In in Hx. destruct Hx as (Hin & Ha & Hp & _).
  now destruct (H x Hin Hp).
Qed.

Lemma idle_pass_no_ready (env : Env) (agents : list (string * Worker))
      (acc : Processing) (w : World) :
  (forall agent_id worker, In (agent_id, worker) agents ->
     String.eqb agent_id "agent:coordinator:main" = false ->
     ready agent_id (live w) = []) ->
  for_each agents (agent_step env) acc w = (Ret acc, w).
Proof.
  induction agents as [|[agent_id worker] agents IH]; intros H;
    [reflexivity|].
  rewrite for_each_cons. unfold bind at 1, agent_step at 1.
  destruct (String.eqb agent_id "agent:coordinator:main") eqn:E.
  - apply IH. intros a wk Hin. apply (H a wk). now right.
  - unfold bind at 1. rewrite get_pending_tasks_ready.
    rewrite (H agent_id worker (or_introl eq_refl) E).
    apply IH. intros a wk Hin. apply (H a wk). now right.
Qed.

(** X11. Tasks nobody serves: when every PENDING task of the store is
    assigned to the coordinator or to a worker id the engine does not have,
    a pass over the agents dispatches nothing, reports no task processed and
    leaves the files as they were; such tasks stay PENDING. *)
Theorem unserved_tasks_are_never_dispatched (env : Env)
        (agents : list (string * Worker)) (w : World) :
  (forall t all, _load_all_tasks w = (Ret all, w) -> In t all ->
     status t = PENDING ->
     assigned_agent t = "agent:coordinator:main" \/
     ~ In (assigned_agent t) (map fst agents)) ->
  process_pending_tasks env agents w = (Ret (mkProcessing 0 []), w).
Proof.
  intros H. rewrite process_pending_tasks_steps. apply idle_pass_no_ready.
  intros agent_id worker Hin Hne. apply no_task_for_agent_no_ready.
  intros t Ht Hp Ha.
  destruct (H t (live w) (load_all_tasks_live w) Ht Hp) as [Hc | Hn].
  - rewrite Ha in Hc. rewrite Hc in Hne. discriminate.
  - apply Hn. rewrite Ha. apply (in_map fst) in Hin. exact Hin.
Qed.

(** X11, witness: a task assigned to the coordinator. *)
Lemma unserved_tasks_are_never_dispatched_witness :
  process_pending_tasks example_env succeeding_agents world_coordinator_task
  = (Ret (mkProcessing 0 []), world_coordinator_task).
Proof.
  apply unserved_tasks_are_never_dispatched.
  intros t all Hall Hin _.
  vm_compute in Hall. inversion Hall; subst all.
  destruct Hin as [<- | []]. now left.
Defined.

Lemma collect_into (l : list string) (acc : list (string * dict)) (w : World) :
  exists fr,
    for_each l
      (fun task_id final_results =>
         task <- get_task task_id ;;
         match task with
         | Some t =>
             match result t with
             | Some r =>
                 if result_truthy (result t)
                 then ret (dict_set task_id r final_results)
                 else ret final_results
             | None => ret final_results
             end
         | None => ret final_results
         end) acc w = (Ret fr, w) /\
    forall k,
      dict_get k fr
      = match (if existsb (String.eqb k) l then kept_result k w else None) with
        | Some r => Some r
        | None => dict_get k acc
        end.
Proof.
  revert acc. induction l as [|x l IH]; intros acc.
  - exists acc. split; [reflexivity|]. intros k. reflexivity.
  - rewrite for_each_cons. unfold bind at 1 2. rewrite get_task_first.
    assert (Hstep : exists acc1,
              match first_with_id x (live w) with
              | Some t =>
                  match result t with
                  | Some r =>
                      if result_truthy (result t)
                      then ret (dict_set x r acc) else ret acc
                  | None => ret acc
                  end
              | None => ret acc
              end w = (Ret acc1, w) /\
              forall k, dict_get k acc1
                        = if String.eqb k x
                          then match kept_result x w with
                               | Some r => Some r
                               | None => dict_get k acc
                               end
                          else dict_get k acc).
    { unfold kept_result.
      destruct (first_with_id x (live w)) as [t|].
      - destruct (result t) as [r|] eqn:Er.
        + destruct (result_truthy (Some r)) eqn:Et.
          * exists (dict_set x r acc). split; [reflexivity|]. intros k.
            destruct (String.eqb_spec k x) as [-> | Hne].
            -- apply dict_get_set_same.
            -- apply dict_get_set_other. congruence.
          * exists acc. split; [reflexivity|]. intros k.
            now destruct (String.eqb k x).
        + exists acc. split; [reflexivity|]. intros k.
          now destruct (String.eqb k x).
      - exists acc. split; [reflexivity|]. intros k.
        now destruct (String.eqb k x). }
    destruct Hstep as (acc1 & E1 & Hacc1). rewrite E1.
    destruct (IH acc1) as (fr & Efr & Hfr).
    exists fr. split; [exact Efr|]. intros k. rewrite Hfr, Hacc1. simpl.
    destruct (String.eqb_spec k x) as [-> | Hne]; simpl.
    + destruct (existsb (String.eqb x) l); [|reflexivity].
      now destruct (kept_result x w).
    + reflexivity.
Qed.

Lemma collect_final_results_spec (p : Pipeline) (w : World) :
  exists fr,
    collect_final_results p w = (Ret fr, w) /\
    forall k,
      dict_get k fr
      = if existsb (String.eqb k) (dict_values (tasks p))
        then kept_result k w else None.
Proof.
  destruct (collect_into (dict_values (tasks p)) [] w) as (fr & E & H).
  exists fr. split; [exact E|]. intros k. rewrite H.
  destruct (existsb _ _); [|reflexivity]. now destruct (kept_result k w).
Qed.

Lemma run_content_pipeline_parts (env : Env) (agents : list (string * Worker))
      (max_iterations : nat) (the_topic : string) (w : World) :
  exists p it fr w',
    run_content_pipeline_with env agents max_iterations the_topic w
    = (Ret (mkPipelineRun p it fr), w') /\
    collect_final_results p w' = (Ret fr, w').
Proof.
  destruct (execute_content_pipeline_returns env the_topic w)
    as (p & w0 & Ebuild).
  destruct (run_loop_invariant env agents (fun _ => True)) with
    (max_iterations := max_iterations) (p := p) (iteration := 0)
    (all_results := @nil (string * dict)) (w := w0)
    as (it & res & w1 & Eloop & _ & _ & _); [|exact I|].
  { intros w1 _. destruct (process_pending_tasks_returns env agents w1)
      as (pr & w2 & E). exists pr, w2. auto. }
  destruct (collect_final_results_quiet p w1) as (fr & Efr).
  exists p, it, fr, w1. split; [|exact Efr].
  unfold run_content_pipeline_with, bind. now rewrite Ebuild, Eloop, Efr.
Qed.

(** X12. The results a run returns: whatever the store, the workers and the
    disk, the result map of [run_content_pipeline] has an entry for a task
    id exactly when the id is one of the pipeline's and the task then found
    under it has a result that is not empty, and the entry is that result;
    a failed task, and a task completed with an empty result, has none. *)
Theorem final_results_are_the_live_results (env : Env)
        (agents : list (string * Worker)) (max_iterations : nat)
        (the_topic : string) (w : World) :
  exists run w',
    run_content_pipeline_with env agents max_iterations the_topic w
    = (Ret run, w') /\
    forall task_id r,
      dict_get task_id (final_results run) = Some r <->
      (In task_id (dict_values (tasks (pipeline run))) /\
       exists t, get_task task_id w' = (Ret (Some t), w') /\
                 result t = Some r /\ r <> []).
Proof.
  destruct (run_content_pipeline_parts env agents max_iterations the_topic w)
    as (p & it & fr & w' & Erun & Ecollect).
  exists (mkPipelineRun p it fr), w'. split; [exact Erun|].
  destruct (collect_final_results_spec p w') as (fr2 & E2 & Hfr).
  rewrite Ecollect in E2. inversion E2; subst fr2. clear E2.
  intros task_id r. simpl. rewrite Hfr. unfold kept_result.
  split.
  - destruct (existsb (String.eqb task_id) (dict_values (tasks p))) eqn:Ein;
      [|discriminate].
    apply existsb_exists in Ein. destruct Ein as (x & Hx & Heq).
    apply String.eqb_eq in Heq. subst x.
    destruct (first_with_id task_id (live w')) as [t|] eqn:Ef; [|discriminate].
    destruct (result_truthy (result t)) eqn:Et; [|discriminate].
    intros Hr. split; [exact Hx|]. exists t.
    rewrite get_task_first, Ef. split; [reflexivity|]. split; [exact Hr|].
    rewrite Hr in Et. intros ->. discriminate.
  - intros (Hin & t & Hget & Hr & Hne).
    rewrite get_task_first in Hget. inversion Hget as [Hf].
    replace (existsb (String.eqb task_id) (dict_values (tasks p))) with true.
    + rewrite Hf, Hr. destruct r; [contradiction | reflexivity].
    + symmetry. apply existsb_exists. exists task_id.
      split; [exact Hin | apply String.eqb_refl].
Qed.

Lemma n_exec_after_update env i s r (w : World) :
  n_exec (after_update env i s r w) = n_exec w.
Proof.
  unfold after_update, after_persist, after_update_first. simpl.
  destruct (first_with_id i (live w)); [|reflexivity].
  destruct s; reflexivity.
Qed.

Lemma process_task_exec (env : Env) (agent : Worker) (x : Task)
      (acc : Processing) (w : World) :
  unreferenced (payload x) ->
  n_exec (snd (process_task env agent x acc w)) = S (n_exec w).
Proof.
  intros Hu. rewrite process_task_spec. cbv zeta.
  rewrite attempt_unreferenced by exact Hu.
  destruct (agent _ _); cbn [snd]; rewrite n_exec_after_update;
    unfold tick_exec; cbn [n_exec]; now rewrite n_exec_after_update.
Qed.

(** A worker that fails leaves the one task of its ready set FAILED. *)
Lemma agent_fails_ready_task (env : Env) (agent_id : string)
      (worker : Worker) (acc : Processing) (w : World) (x : Task) :
  healthy env -> always_fails worker ->
  String.eqb agent_id "agent:coordinator:main" = false ->
  ready agent_id (live w) = [x] ->
  unreferenced (payload x) ->
  exists acc' w' r now1 now2,
    agent_step env (agent_id, worker) acc w = (Ret acc', w') /\
    tasks_processed acc' = tasks_processed acc /\
    n_exec w' = S (n_exec w) /\
    live w' = update_first_with (applied FAILED r now2) (id x)
                (update_first_with (applied IN_PROGRESS None now1) (id x) (live w)).
Proof.
  intros Hh Hf Hne Hready Hu. unfold agent_step. rewrite Hne.
  unfold bind at 1. rewrite get_pending_tasks_ready, Hready. simpl for_each.
  destruct (process_task_effect env worker x acc w Hh)
    as (acc1 & w1 & s2 & r2 & now1 & now2 & E & Hlive & Hfail & _).
  destruct (Hfail Hf) as [-> Hacc].
  pose proof (process_task_exec env worker x acc w Hu) as Hexec.
  rewrite E in Hexec. simpl in Hexec.
  exists acc1, w1, r2, now1, now2. unfold bind. rewrite E. auto.
Qed.

Lemma fail_first_stage (ids : list string) (l : list Task)
      (r : option dict) (now1 now2 : string) :
  NoDup ids -> chain_shape ids 0 l -> Forall (fun t => result t = None) l ->
  stuck_shape ids
    (update_first_with (applied FAILED r now2) (nth 0 ids "")
       (update_first_with (applied IN_PROGRESS None now1) (nth 0 ids "") l)).
Proof.
  intros Hnd (Hid & Hag & Hdep & Hst) Hres.
  unfold stuck_shape.
  rewrite !map_id_update_first_with by (intros; apply id_applied).
  rewrite !map_agent_update_first_with by (intros; apply agent_applied).
  rewrite !map_dependencies_update_first_with
    by (intros; apply dependencies_applied).
  split; [exact Hid|]. split; [exact Hag|]. split; [exact Hdep|].
  five_tasks l. simpl in Hid, Hst. subst ids.
  injection Hst as -> -> -> -> ->. simpl.
  rewrite !String.eqb_refl. simpl. rewrite !String.eqb_refl.
  split; [reflexivity|].
  repeat match goal with
         | H : Forall _ (_ :: _) |- _ => inversion H; clear H; subst
         end.
  simpl in *. repeat constructor; assumption.
Qed.

(** No worker has a ready task while the first stage is FAILED. *)
Lemma stuck_no_ready (ids : list string) (l : list Task) (agent_id : string) :
  NoDup ids -> stuck_shape ids l -> ready agent_id l = [].
Proof.
  intros Hnd (Hid & Hag & Hdep & Hst & _).
  destruct (ready agent_id l) as [|x rest] eqn:E; [reflexivity|].
  assert (Hx : In x (ready agent_id l)) by (rewrite E; now left).
  apply ready_In, agent_tasks_In in Hx.
  destruct Hx as (Hin & _ & Hp & Hsat). exfalso. clear E.
  five_tasks l. simpl in Hid, Hag, Hdep, Hst.
  subst ids. simpl in Hdep.
  injection Hdep as -> -> -> -> ->. injection Hst as -> -> -> -> ->.
  destruct (distinct_five _ _ _ _ _ Hnd)
    as (E12 & E13 & E14 & E15 & E23 & E24 & E25 & E34 & E35 & E45).
  simpl in Hin.
  destruct Hin as [<- | [<- | [<- | [<- | [<- | []]]]]];
    simpl in Hp; try discriminate;
    unfold _dependencies_satisfied, first_with_id in Hsat; simpl in Hsat;
    rewrite ?String.eqb_refl, ?E12, ?E13, ?E14, ?E15, ?E23, ?E24, ?E25, ?E34,
      ?E35, ?E45 in Hsat; simpl in Hsat; discriminate.
Qed.

Lemma forallb_filter_false {A} (P Q : A -> bool) (l : list A) (x : A) :
  In x l -> Q x = true -> P x = false -> forallb P (filter Q l) = false.
Proof.
  intros Hin HQ HP. apply not_true_iff_false. intros H.
  rewrite forallb_forall in H.
  rewrite (H x) in HP; [discriminate|]. apply filter_In. auto.
Qed.

Lemma stuck_not_settled (p : Pipeline) (w : World) :
  NoDup (dict_values (tasks p)) ->
  stuck_shape (dict_values (tasks p)) (live w) ->
  pipeline_settled p w = (Ret false, w).
Proof.
  intros Hnd (Hid & _ & _ & Hst & _).
  unfold pipeline_settled, bind. rewrite load_all_tasks_live.
  assert (Hin : forall t, In t (live w) -> in_pipeline p t = true).
  { intros t Ht. unfold in_pipeline. apply existsb_exists. exists (id t).
    split; [rewrite <- Hid; now apply in_map | apply String.eqb_refl]. }
  destruct (live w) as [|t1 [|t2 rest]]; try discriminate.
  simpl in Hst. injection Hst as Hs1 Hs2 _.
  rewrite (forallb_filter_false _ (in_pipeline p) (t1 :: t2 :: rest) t1);
    [| now left | apply Hin; now left | now rewrite Hs1].
  rewrite (forallb_filter_false _ (in_pipeline p) (t1 :: t2 :: rest) t2);
    [reflexivity | right; now left | apply Hin; right; now left
     | now rewrite Hs2].
Qed.

(** Once stuck, the loop runs to the ceiling without touching the world. *)
Lemma stuck_loop_exhausts (env : Env) (agents : list (string * Worker))
      (p : Pipeline) (max_iterations : nat) (w : World) :
  NoDup (dict_values (tasks p)) ->
  stuck_shape (dict_values (tasks p)) (live w) ->
  forall iteration all_results,
    iteration <= max_iterations ->
    exists res,
      run_loop env agents max_iterations p iteration all_results w
      = (Ret (max_iterations, res), w).
Proof.
  intros Hnd Hstuck iteration.
  remember (max_iterations - iteration) as k eqn:Hk.
  revert iteration Hk.
  induction k as [|k IH]; intros iteration Hk all_results Hle;
    rewrite run_loop_step.
  - destruct (Nat.ltb_spec iteration max_iterations); [lia|].
    replace iteration with max_iterations by lia. eexists. reflexivity.
  - destruct (Nat.ltb_spec iteration max_iterations); [|lia].
    unfold bind at 1. rewrite load_all_tasks_live.
    unfold bind at 1. rewrite process_pending_tasks_steps.
    rewrite idle_pass_no_ready
      by (intros; now apply (stuck_no_ready (dict_values (tasks p)))).
    simpl Nat.eqb. cbv iota. unfold bind at 1.
    rewrite stuck_not_settled by assumption.
    apply IH; lia.
Qed.

Lemma dict_all_none {V} (d : list (string * V)) :
  (forall k, dict_get k d = None) -> d = [].
Proof.
  destruct d as [|[k v] d]; [reflexivity|].
  intros H. specialize (H k). simpl in H. now rewrite String.eqb_refl in H.
Qed.

Lemma collect_nothing (p : Pipeline) (w : World) :
  (forall t, In t (live w) -> result t = None) ->
  collect_final_results p w = (Ret [], w).
Proof.
  intros H. destruct (collect_final_results_spec p w) as (fr & E & Hfr).
  rewrite E. replace fr with (@nil (string * dict)); [reflexivity|].
  symmetry. apply dict_all_none. intros k. rewrite Hfr.
  destruct (existsb _ _); [|reflexivity]. unfold kept_result.
  destruct (first_with_id k (live w)) as [t|] eqn:Ef; [|reflexivity].
  rewrite (H t (proj1 (first_with_id_some _ _ _ Ef))). reflexivity.
Qed.

Lemma failed_research_run
      (env : Env) (w : World) (the_topic : string) (max_iterations : nat)
      (researcher analyst writer seo quality coordinator : Worker) :
  healthy env ->
  always_fails researcher ->
  0 < max_iterations ->
  _load_all_tasks w = (Ret [], w) ->
  NoDup (built_ids env w) ->
  exists w',
    run_content_pipeline_with env
      (engine_agents researcher analyst writer seo quality coordinator)
      max_iterations the_topic w
    = (Ret (mkPipelineRun (built_pipeline env the_topic w) max_iterations []), w') /\
    n_exec w' = S (n_exec w) /\
    stuck_shape (built_ids env w) (live w').
Proof.
  intros Hh Hf Hmax Hempty Hnd.
  set (agents := engine_agents researcher analyst writer seo quality coordinator).
  set (p := built_pipeline env the_topic w).
  rewrite load_all_tasks_live in Hempty.
  assert (Hlive : live w = []) by congruence.
  destruct (execute_content_pipeline_spec env the_topic w Hh)
    as (w0 & Ebuild & Hlive0).
  rewrite Hlive in Hlive0. simpl in Hlive0.
  assert (Hexec0 : n_exec w0 = n_exec w).
  { destruct (execute_content_pipeline_keeps_exec env the_topic w)
      as (p2 & w2 & E2 & H2).
    rewrite Ebuild in E2. inversion E2; subst. exact H2. }
  assert (Hshape0 : chain_shape (built_ids env w) 0 (live w0))
    by (rewrite Hlive0; apply built_tasks_shape).
  assert (Hres0 : Forall (fun t => result t = None) (live w0))
    by (rewrite Hlive0; unfold built_tasks; repeat constructor).
  (* the first pass *)
  destruct (ready_at_stage (built_ids env w) 0 (live w0) Hnd Hshape0 ltac:(lia))
    as (x1 & Hr1 & Hx1). simpl nth in Hr1.
  assert (Hu1 : unreferenced (payload x1)).
  { pose proof Hr1 as Hr. rewrite Hlive0 in Hr.
    unfold ready, agent_tasks, built_tasks in Hr. simpl in Hr.
    injection Hr as <-. repeat split. }
  destruct (agent_fails_ready_task env "agent:researcher:main" researcher
              (mkProcessing 0 []) w0 x1 Hh Hf eq_refl Hr1 Hu1)
    as (a1 & w1 & r1 & n1 & m1 & E1 & P1 & X1 & L1).
  assert (Hstuck : stuck_shape (dict_values (tasks p)) (live w1)).
  { rewrite L1, Hx1. now apply fail_first_stage. }
  assert (Hnd' : NoDup (dict_values (tasks p))) by exact Hnd.
  assert (Epass : process_pending_tasks env agents w0 = (Ret a1, w1)).
  { rewrite process_pending_tasks_steps. unfold agents, engine_agents.
    rewrite for_each_cons. unfold bind at 1. rewrite E1.
    apply idle_pass_no_ready.
    intros; now apply (stuck_no_ready (dict_values (tasks p))). }
  assert (Eloop : exists res,
             run_loop env agents max_iterations p 0 [] w0
             = (Ret (max_iterations, res), w1)).
  { rewrite run_loop_step.
    destruct (Nat.ltb_spec 0 max_iterations); [|lia].
    unfold bind at 1. rewrite load_all_tasks_live.
    unfold bind at 1. rewrite Epass, P1. simpl Nat.eqb. cbv iota.
    unfold bind at 1. rewrite stuck_not_settled by assumption.
    apply stuck_loop_exhausts; [assumption | assumption | lia]. }
  destruct Eloop as (res & Eloop).
  exists w1.
  split.
  { unfold run_content_pipeline_with, bind. fold agents.
    rewrite Ebuild. fold p. rewrite Eloop.
    rewrite collect_nothing; [reflexivity|].
    destruct Hstuck as (_ & _ & _ & _ & Hres).
    intros t Ht. rewrite Forall_forall in Hres. now apply Hres. }
  split; [rewrite X1, Hexec0; reflexivity | exact Hstuck].
Qed.

(** X13. A failed first stage pins the rest: on an empty queue with a
    working disk and five distinct ids, when the research worker raises at
    every dispatch, whatever the other workers do, the run uses up the whole
    iteration ceiling; exactly one dispatch takes place, the research task
    is FAILED and the four tasks behind it are still PENDING when the run
    returns, and the result map is empty. *)
Theorem failed_research_pins_downstream
        (env : Env) (w : World) (the_topic : string) (max_iterations : nat)
        (researcher analyst writer seo quality coordinator : Worker) :
  healthy env ->
  always_fails researcher ->
  0 < max_iterations ->
  _load_all_tasks w = (Ret [], w) ->
  NoDup (built_ids env w) ->
  exists run w' all,
    run_content_pipeline_with env
      (engine_agents researcher analyst writer seo quality coordinator)
      max_iterations the_topic w = (Ret run, w') /\
    iterations run = max_iterations /\
    final_results run = [] /\
    n_exec w' = S (n_exec w) /\
    _load_all_tasks w' = (Ret all, w') /\
    map id all = dict_values (tasks (pipeline run)) /\
    map status all = [FAILED; PENDING; PENDING; PENDING; PENDING].
Proof.
  intros Hh Hf Hmax Hempty Hnd.
  destruct (failed_research_run env w the_topic max_iterations researcher analyst
              writer seo quality coordinator Hh Hf Hmax Hempty Hnd)
    as (w' & Erun & Hexec & Hids & _ & _ & Hst & _).
  exists (mkPipelineRun (built_pipeline env the_topic w) max_iterations []),
         w', (live w').
  split; [exact Erun|]. split; [reflexivity|]. split; [reflexivity|].
  split; [exact Hexec|]. split; [apply load_all_tasks_live|].
  split; [exact Hids | exact Hst].
Qed.

(** X13, witness: the default ceiling and the empty queue. *)
Lemma failed_research_pins_downstream_witness :
  exists run w',
    run_content_pipeline example_env failing_research_agents "AI" empty_world
    = (Ret run, w') /\
    iterations run = MAX_ITERATIONS /\
    n_exec w' = 1.
Proof.
  destruct (failed_research_pins_downstream example_env empty_world "AI"
              MAX_ITERATIONS failing_worker succeeding_worker succeeding_worker
              succeeding_worker succeeding_worker succeeding_worker)
    as (run & w' & all & Erun & Hit & _ & Hexec & _).
  - intros n. reflexivity.
  - intros n payload. eexists. reflexivity.
  - unfold MAX_ITERATIONS. lia.
  - reflexivity.
  - vm_compute. repeat constructor; simpl; intuition discriminate.
  - exists run, w'. auto.
Defined.

Lemma bind_add_task (env : Env) title agent pl prio deps {B}
      (k : string -> M B) (f : file_state) d nu nc nd ne :
  bind (add_task env title agent pl prio deps) k (mkWorld f d nu nc nd ne)
  = k (substring 0 8 (uuid4 env nu))
      (mkWorld (written_file env nd f
                  (mkTask (substring 0 8 (uuid4 env nu)) title agent PENDING
                          prio deps pl (isoformat_now env nc)
                          (isoformat_now env nc) None None None))
               d (S nu) (S nc) (S nd) ne).
Proof.
  unfold bind. rewrite add_task_spec.
  unfold after_add, after_persist, new_task, written_file, live, file_tasks.
  cbn [n_disk tick_clock tick_uuid n_uuid n_clock tasks_file completed_dir
       n_exec id].
  reflexivity.
Qed.

Lemma written_file_failing (env : Env) (n : nat) (f : file_state) (t : Task) :
  failing_disk env -> file_tasks f = [] ->
  file_tasks (written_file env n f t) = [].
Proof.
  intros Hfail Hf. unfold written_file.
  destruct (disk env n) eqn:E; [now destruct (Hfail n) | exact Hf | reflexivity].
Qed.

Lemma execute_content_pipeline_failing_disk (env : Env) (the_topic : string)
      (w : World) :
  failing_disk env -> live w = [] ->
  exists w',
    execute_content_pipeline env the_topic w
    = (Ret (built_pipeline env the_topic w), w')
    /\ live w' = [] /\ n_exec w' = n_exec w.
Proof.
  intros Hfail Hlive. destruct w as [f d nu nc nd ne].
  change (file_tasks f = []) in Hlive.
  unfold execute_content_pipeline.
  unfold bind at 1. unfold uuid8 at 1.
  cbn [n_uuid tasks_file completed_dir n_clock n_disk n_exec].
  rewrite !bind_add_task. unfold ret.
  eexists. split; [reflexivity|]. split; [|reflexivity].
  unfold live. cbn [tasks_file].
  fold (file_tasks). repeat apply written_file_failing; assumption.
Qed.

(** X14. A run on a disk that takes no write: on an empty queue, when no
    write succeeds, [run_content_pipeline] still returns a pipeline with
    five task ids, none of which exists in the store; no worker is ever
    dispatched, the loop stops at iteration 0 because the empty set of
    pipeline tasks counts as all completed, the result map is empty, and
    [get_pipeline_status] reports "completed". *)
Theorem run_on_failing_disk (env : Env) (agents : list (string * Worker))
        (w : World) (the_topic : string) (max_iterations : nat) :
  failing_disk env ->
  0 < max_iterations ->
  _load_all_tasks w = (Ret [], w) ->
  exists run w',
    run_content_pipeline_with env agents max_iterations the_topic w
    = (Ret run, w') /\
    List.length (tasks (pipeline run)) = 5 /\
    (forall task_id, get_task task_id w' = (Ret None, w')) /\
    n_exec w' = n_exec w /\
    iterations run = 0 /\
    final_results run = [] /\
    (exists st,
       get_pipeline_status (pipeline_id (pipeline run)) w' = (Ret st, w') /\
       overall_status st = "completed").
Proof.
  intros Hfail Hmax Hempty.
  rewrite load_all_tasks_live in Hempty.
  assert (Hlive : live w = []) by congruence.
  destruct (execute_content_pipeline_failing_disk env the_topic w Hfail Hlive)
    as (w0 & Ebuild & Hlive0 & Hexec0).
  set (p := built_pipeline env the_topic w) in *.
  assert (Hnone : forall t, In t (live w0) -> status t <> PENDING)
    by (rewrite Hlive0; intros t []).
  assert (Eloop : run_loop env agents max_iterations p 0 [] w0
                  = (Ret (0, []), w0)).
  { rewrite run_loop_step.
    destruct (Nat.ltb_spec 0 max_iterations); [|lia].
    unfold bind at 1. rewrite load_all_tasks_live.
    unfold bind at 1. rewrite process_pending_tasks_steps, idle_pass by exact Hnone.
    simpl Nat.eqb. cbv iota. unfold bind at 1.
    rewrite settled_when_completed; [reflexivity|].
    rewrite Hlive0. intros t []. }
  exists (mkPipelineRun p 0 []), w0.
  split.
  { unfold run_content_pipeline_with, bind. rewrite Ebuild. fold p.
    rewrite Eloop. rewrite collect_nothing; [reflexivity|].
    rewrite Hlive0. intros t []. }
  split; [reflexivity|]. split.
  { intros task_id. rewrite get_task_first, Hlive0. reflexivity. }
  split; [exact Hexec0|]. split; [reflexivity|]. split; [reflexivity|].
  apply overall_completed_when_all_completed. rewrite Hlive0. intros t [].
Qed.

(** X14, witness: the disk that refuses every write. *)
Lemma run_on_failing_disk_witness :
  exists run w',
    run_content_pipeline refusing_env succeeding_agents "AI" empty_world
    = (Ret run, w') /\
    iterations run = 0 /\ n_exec w' = 0 /\
    get_task "1b9d6bcd" w' = (Ret None, w').
Proof.
  destruct (run_on_failing_disk refusing_env succeeding_agents empty_world "AI"
              MAX_ITERATIONS)
    as (run & w' & Erun & _ & Hnone & Hexec & Hit & _).
  - intros n. discriminate.
  - unfold MAX_ITERATIONS. lia.
  - reflexivity.
  - exists run, w'. auto.
Defined.

(* ===================================================================== *)
(** ** The HTTP API *)
(* ===================================================================== *)

Lemma execute_content_pipeline_value (env : Env) (the_topic : string) (w : World) :
  exists w',
    execute_content_pipeline env the_topic w
    = (Ret (built_pipeline env the_topic w), w').
Proof.
  destruct w as [f d nu nc nd ne].
  unfold execute_content_pipeline.
  unfold bind at 1. unfold uuid8 at 1.
  cbn [n_uuid tasks_file completed_dir n_clock n_disk n_exec].
  rewrite !bind_add_task. unfold ret.
  eexists. reflexivity.
Qed.

Lemma run_content_pipeline_built (env : Env) (agents : list (string * Worker))
      (max_iterations : nat) (the_topic : string) (w : World) :
  exists it fr w',
    run_content_pipeline_with env agents max_iterations the_topic w
    = (Ret (mkPipelineRun (built_pipeline env the_topic w) it fr), w').
Proof.
  destruct (execute_content_pipeline_value env the_topic w) as (w0 & Ebuild).
  set (p := built_pipeline env the_topic w) in *.
  destruct (run_loop_invariant env agents (fun _ => True)) with
    (max_iterations := max_iterations) (p := p) (iteration := 0)
    (all_results := @nil (string * dict)) (w := w0)
    as (it & res & w1 & Eloop & _ & _ & _); [|exact I|].
  { intros w1 _. destruct (process_pending_tasks_returns env agents w1)
      as (pr & w2 & E). exists pr, w2. auto. }
  destruct (collect_final_results_quiet p w1) as (fr & Efr).
  exists it, fr, w1.
  unfold run_content_pipeline_with, bind. now rewrite Ebuild, Eloop, Efr.
Qed.

(** The task an entry of [task_statuses] is read from. *)
Lemma task_statuses_into (l : list (string * string))
      (acc : list (string * TaskEntry)) (w : World) :
  NoDup (map fst l) ->
  (forall name, In name (map fst l) -> dict_get name acc = None) ->
  exists ts,
    for_each l
      (fun item task_statuses =>
         let task_name := fst item in
         let task_id := snd item in
         task <- get_task task_id ;;
         match task with
         | Some t =>
             ret (dict_set task_name
                    (mkTaskEntry task_id (status_value (status t)) (title t))
                    task_statuses)
         | None => ret task_statuses
         end) acc w = (Ret ts, w) /\
    forall name,
      dict_get name ts
      = match dict_get name l with
        | Some task_id =>
            option_map (fun t => mkTaskEntry task_id (status_value (status t))
                                             (title t))
                       (first_with_id task_id (live w))
        | None => dict_get name acc
        end.
Proof.
  revert acc. induction l as [|[n0 i0] l IH]; intros acc Hnd Hacc.
  - exists acc. split; reflexivity.
  - inversion Hnd as [|? ? Hnin Hnd']; subst.
    rewrite for_each_cons. unfold bind at 1. cbn [fst snd].
    unfold bind at 1. rewrite get_task_first.
    assert (Hl : dict_get n0 l = None).
    { apply dict_has_false. destruct (dict_has n0 l) eqn:E; [|reflexivity].
      exfalso. apply Hnin. clear -E. induction l as [|[k v] l IH]; simpl in *.
      - discriminate.
      - destruct (String.eqb k n0) eqn:Ek.
        + left. now apply String.eqb_eq.
        + right. now apply IH. }
    destruct (first_with_id i0 (live w)) as [t|] eqn:Ef; unfold ret.
    + destruct (IH (dict_set n0 (mkTaskEntry i0 (status_value (status t)) (title t))
                             acc) Hnd') as (ts & E & Hts).
      { intros name Hin. rewrite dict_get_set_other.
        - apply Hacc. now right.
        - intros ->. now apply Hnin. }
      exists ts. split; [exact E|]. intros name. rewrite Hts. simpl.
      destruct (String.eqb n0 name) eqn:En.
      * apply String.eqb_eq in En. subst name. rewrite Hl, Ef.
        now rewrite dict_get_set_same.
      * destruct (dict_get name l); [reflexivity|].
        apply dict_get_set_other. intros ->. now rewrite String.eqb_refl in En.
    + destruct (IH acc Hnd') as (ts & E & Hts).
      { intros name Hin. apply Hacc. now right. }
      exists ts. split; [exact E|]. intros name. rewrite Hts. simpl.
      destruct (String.eqb n0 name) eqn:En.
      * apply String.eqb_eq in En. subst name. rewrite Hl, Ef.
        simpl. apply Hacc. now left.
      * reflexivity.
Qed.

Lemma task_statuses_of_built (env : Env) (the_topic : string) (w0 w : World) :
  exists ts,
    Api.task_statuses_of (built_pipeline env the_topic w0) w = (Ret ts, w) /\
    forall name,
      dict_get name ts
      = match dict_get name (tasks (built_pipeline env the_topic w0)) with
        | Some task_id =>
            option_map (fun t => mkTaskEntry task_id (status_value (status t))
                                             (title t))
                       (first_with_id task_id (live w))
        | None => None
        end.
Proof.
  unfold Api.task_statuses_of.
  destruct (task_statuses_into (tasks (built_pipeline env the_topic w0)) [] w)
    as (ts & E & Hts).
  - simpl. repeat constructor; simpl; intuition discriminate.
  - reflexivity.
  - exists ts. split; [exact E|]. intros name. rewrite Hts.
    now destruct (dict_get name (tasks (built_pipeline env the_topic w0))).
Qed.

Lemma run_pipeline_with_engine (env : Env) (engine : Engine)
      (request_topic : string) (w : World) :
  exists ts w',
    Api.run_pipeline env (Some engine) request_topic w
    = (Answer (mkPipelineResponse (drawn_id env w 0) request_topic "completed" ts),
       w') /\
    Api.task_statuses_of (built_pipeline env request_topic w) w' = (Ret ts, w').
Proof.
  destruct (run_content_pipeline_built env engine MAX_ITERATIONS request_topic w)
    as (it & fr & w1 & Erun).
  destruct (task_statuses_of_built env request_topic w w1) as (ts & Ets & _).
  exists ts, w1. split; [|exact Ets].
  unfold Api.run_pipeline, run_content_pipeline, bind.
  rewrite Erun. cbn [pipeline]. rewrite Ets. reflexivity.
Qed.

(** X15. POST /api/pipeline/run does not report a failure of the run: with
    an engine, as long as [tasks.json] can be examined (it is missing,
    unreadable or a task list: the states of the store here; an [OSError] of
    [self.tasks_file.exists()], which [_load_all_tasks] calls outside its
    [try], is none of them and would reach the [except] branch as a 500),
    for every topic, every outcome of the writes, every state of the archive
    and every worker that returns or raises an exception, the answer is a
    [PipelineResponse] (not the 500 of the [except] branch) whose status is
    the literal "completed", whose topic is the request's and whose id is
    the pipeline's; each task entry it lists carries the status and title of
    the first stored task with the entry's id, and that id is the one the
    pipeline gives the task name. *)
Theorem run_pipeline_always_answers_completed
        (env : Env) (engine : Engine) (request_topic : string) (w : World) :
  exists response w',
    Api.run_pipeline env (Some engine) request_topic w = (Answer response, w') /\
    response_status response = "completed" /\
    response_topic response = request_topic /\
    response_pipeline_id response = drawn_id env w 0 /\
    forall name entry,
      dict_get name (response_tasks response) = Some entry ->
      dict_get name (tasks (built_pipeline env request_topic w))
      = Some (entry_id entry) /\
      exists t,
        get_task (entry_id entry) w' = (Ret (Some t), w') /\
        entry_status entry = status_value (status t) /\
        entry_title entry = title t.
Proof.
  destruct (run_pipeline_with_engine env engine request_topic w)
    as (ts & w1 & Erun & Ets).
  destruct (task_statuses_of_built env request_topic w w1) as (ts' & Ets' & Hts).
  rewrite Ets in Ets'. inversion Ets'; subst ts'.
  exists (mkPipelineResponse (drawn_id env w 0) request_topic "completed" ts), w1.
  split; [exact Erun|].
  split; [reflexivity|]. split; [reflexivity|]. split; [reflexivity|].
  intros name entry Hget. cbn [response_tasks] in Hget. rewrite Hts in Hget.
  destruct (dict_get name (tasks (built_pipeline env request_topic w)))
    as [task_id|]; [|discriminate].
  destruct (first_with_id task_id (live w1)) as [t|] eqn:Ef; [|discriminate].
  simpl in Hget. inversion Hget; subst entry. cbn [entry_id entry_status entry_title].
  split; [reflexivity|]. exists t. rewrite get_task_first, Ef. auto.
Qed.

(** X16. The response says "completed" over a failed run: on an empty queue
    with a working disk and five distinct ids, when the research worker
    raises at every dispatch, POST /api/pipeline/run still answers with
    status "completed", while the task entries of the same response list
    research as "failed" and analysis as "pending", and the status endpoint
    then answers "failed" for that pipeline. *)
Theorem run_pipeline_completed_over_failed_research
        (env : Env) (w : World) (request_topic : string)
        (researcher analyst writer seo quality coordinator : Worker) :
  healthy env ->
  always_fails researcher ->
  _load_all_tasks w = (Ret [], w) ->
  NoDup (built_ids env w) ->
  exists response w',
    Api.run_pipeline env
      (Some (engine_agents researcher analyst writer seo quality coordinator))
      request_topic w = (Answer response, w') /\
    response_status response = "completed" /\
    option_map entry_status (dict_get "research" (response_tasks response))
    = Some "failed" /\
    option_map entry_status (dict_get "analysis" (response_tasks response))
    = Some "pending" /\
    exists st,
      Api.get_pipeline_status
        (Some (engine_agents researcher analyst writer seo quality coordinator))
        (response_pipeline_id response) w'
      = (Answer st, w') /\
      overall_status st = "failed".
Proof.
  intros Hh Hf Hempty Hnd.
  set (engine := engine_agents researcher analyst writer seo quality coordinator).
  destruct (failed_research_run env w request_topic MAX_ITERATIONS researcher
              analyst writer seo quality coordinator Hh Hf
              ltac:(unfold MAX_ITERATIONS; lia) Hempty Hnd)
    as (w1 & Erun & _ & Hids & _ & _ & Hst & _).
  destruct (task_statuses_of_built env request_topic w w1) as (ts & Ets & Hts).
  exists (mkPipelineResponse (drawn_id env w 0) request_topic "completed" ts), w1.
  destruct (live w1) as [|t1 [|t2 [|t3 [|t4 [|t5 [|t6 l]]]]]] eqn:El;
    try discriminate Hst.
  simpl in Hids, Hst. unfold built_ids in Hids, Hnd.
  inversion Hids as [[I1 I2 I3 I4 I5]]. inversion Hst as [[S1 S2 S3 S4 S5]].
  assert (N12 : id t1 <> id t2).
  { rewrite I1, I2. inversion Hnd as [|? ? Hnin _]; subst.
    intros E. apply Hnin. left. now symmetry. }
  split.
  { unfold Api.run_pipeline, run_content_pipeline, bind. fold engine.
    unfold engine. rewrite Erun. cbn [pipeline]. rewrite Ets. reflexivity. }
  split; [reflexivity|].
  cbn [response_tasks response_pipeline_id]. rewrite !Hts.
  split.
  { simpl. rewrite <- I1. simpl. rewrite String.eqb_refl. simpl.
    now rewrite S1. }
  split.
  { simpl. rewrite <- I2. simpl.
    apply String.eqb_neq in N12. rewrite N12, String.eqb_refl. simpl.
    now rewrite S2. }
  unfold Api.get_pipeline_status.
  destruct (overall_failed_when_sole_failed (drawn_id env w 0) (id t1) w1)
    as (st & Est & Hov).
  { rewrite El. unfold statuses_with_id. simpl. rewrite String.eqb_refl.
    assert (Hothers : forall u, In u [t2; t3; t4; t5] ->
                                String.eqb (id u) (id t1) = false).
    { intros u Hu. apply String.eqb_neq. intros E.
      inversion Hnd as [|? ? Hnin _]; subst. apply Hnin.
      rewrite <- I1, <- E. simpl in Hu.
      destruct Hu as [<-|[<-|[<-|[<-|[]]]]]; simpl; auto. }
    rewrite (Hothers t2), (Hothers t3), (Hothers t4), (Hothers t5)
      by (simpl; auto).
    simpl. now rewrite S1. }
  exists st. now rewrite Est.
Qed.

(** X16, witness: the example environment and the empty queue. *)
Lemma run_pipeline_completed_over_failed_research_witness :
  exists response w',
    Api.run_pipeline example_env (Some failing_research_agents) "AI" empty_world
    = (Answer response, w') /\
    response_status response = "completed" /\
    option_map entry_status (dict_get "research" (response_tasks response))
    = Some "failed".
Proof.
  destruct (run_pipeline_completed_over_failed_research example_env empty_world
              "AI" failing_worker succeeding_worker succeeding_worker
              succeeding_worker succeeding_worker succeeding_worker)
    as (response & w' & Erun & Hst & Hres & _).
  - intros n. reflexivity.
  - intros n payload. eexists. reflexivity.
  - reflexivity.
  - vm_compute. repeat constructor; simpl; intuition discriminate.
  - exists response, w'. auto.
Defined.

Lemma fold_dict_set_get {V} (f : Task -> V) (l : list Task)
      (tb : list (string * V)) k :
  dict_get k (fold_left (fun table task => dict_set (id task) (f task) table) l tb)
  = match last_with_id k l with
    | Some t => Some (f t)
    | None => dict_get k tb
    end.
Proof.
  revert tb. induction l as [|t l IH]; intros tb; simpl; [reflexivity|].
  rewrite IH. destruct (last_with_id k l); [reflexivity|].
  destruct (String.eqb (id t) k) eqn:E.
  - apply String.eqb_eq in E. subst k. apply dict_get_set_same.
  - apply String.eqb_neq in E. now apply dict_get_set_other.
Qed.

Lemma listed_results_filter (l : list Task) (tb : list (string * ResultEntry)) :
  fold_left
    (fun results task =>
       match result task with
       | Some r =>
           if result_truthy (result task)
           then dict_set (id task)
                         (mkResultEntry (title task) (status_value (status task)) r)
                         results
           else results
       | None => results
       end) l tb
  = fold_left (fun table task => dict_set (id task) (result_entry task) table)
              (filter (fun t => result_truthy (result t)) l) tb.
Proof.
  revert tb. induction l as [|t l IH]; intros tb; simpl; [reflexivity|].
  destruct (result t) as [[|kv r]|] eqn:Er; simpl.
  - apply IH.
  - rewrite IH.
    assert (Hentry : result_entry t
                     = mkResultEntry (title t) (status_value (status t)) (kv :: r))
      by (unfold result_entry; now rewrite Er).
    now rewrite Hentry.
  - apply IH.
Qed.

Lemma listed_results_get (all : list Task) k :
  dict_get k (Api.listed_results all)
  = option_map result_entry
      (last_with_id k (filter (fun t => result_truthy (result t)) all)).
Proof.
  unfold Api.listed_results. rewrite listed_results_filter, fold_dict_set_get.
  now destruct (last_with_id k _).
Qed.

Lemma last_with_id_found (i : string) (l : list Task) :
  In i (map id l) -> last_with_id i l <> None.
Proof.
  intros Hin E. now apply last_with_id_none in E.
Qed.

(** X17. GET /api/pipeline/{id}/results ignores the pipeline: with an
    engine, for every pipeline id and every store, the answer echoes the id
    and lists results over the whole store. Every entry comes from a stored
    task with the entry's key as id, whose result is the entry's and is not
    empty and whose title and status are the entry's; and every stored task
    with a non-empty result has its id listed, whichever pipeline created
    it. The store is left as it was. *)
Theorem get_pipeline_results_lists_whole_store
        (engine : Engine) (the_pipeline_id : string) (w : World) :
  exists table,
    Api.get_pipeline_results (Some engine) the_pipeline_id w
    = (Answer (mkPipelineResults the_pipeline_id table), w) /\
    (forall k entry,
       dict_get k table = Some entry ->
       exists t,
         In t (live w) /\ id t = k /\
         result t = Some (listed_result entry) /\ listed_result entry <> [] /\
         listed_title entry = title t /\
         listed_status entry = status_value (status t)) /\
    (forall t,
       In t (live w) -> result_truthy (result t) = true ->
       dict_has (id t) table = true).
Proof.
  exists (Api.listed_results (live w)). split.
  { unfold Api.get_pipeline_results. now rewrite load_all_tasks_live. }
  split.
  - intros k entry Hget. rewrite listed_results_get in Hget.
    destruct (last_with_id k (filter (fun t => result_truthy (result t)) (live w)))
      as [t|] eqn:E; [|discriminate].
    simpl in Hget. inversion Hget; subst entry.
    apply last_with_id_some in E. destruct E as [Hin Hid].
    apply filter_In in Hin. destruct Hin as [Hin Htr].
    exists t. unfold result_entry. cbn [listed_result listed_title listed_status].
    destruct (result t) as [[|kv r]|]; try discriminate Htr.
    repeat match goal with |- _ /\ _ => split end; auto. discriminate.
  - intros t Hin Htr. apply dict_has_get. rewrite listed_results_get.
    destruct (last_with_id (id t)
                (filter (fun t0 => result_truthy (result t0)) (live w))) eqn:E.
    + discriminate.
    + exfalso. revert E. apply last_with_id_found. apply in_map.
      apply filter_In. auto.
Qed.

(** X18. The API key decides what the pipeline endpoints do: when
    [startup_event] returns, /health reports [engine_ready] exactly when
    GROQ_API_KEY is not empty; with an empty key the three pipeline
    endpoints raise 503 and leave the store untouched, and with a key
    POST /api/pipeline/run answers with a response as long as [tasks.json]
    can be examined (it is missing, unreadable or a task list; an [OSError]
    of [self.tasks_file.exists()] is not among the states of the store
    here), whatever the writes, the archive and the workers (returning or
    raising an exception) do. *)
Theorem api_key_decides_availability
        (env : Env) (api_key : string) (WorkflowEngine : string -> res Engine)
        (workflow_engine : option Engine) (the_id : string) (w : World) :
  startup_event api_key WorkflowEngine = Ret workflow_engine ->
  Api.health workflow_engine w
  = (Answer (mkHealth "healthy" (negb (String.eqb api_key ""))), w) /\
  (api_key = "" ->
   Api.run_pipeline env workflow_engine the_id w
   = (HTTPException 503 "Workflow engine not initialized", w) /\
   Api.get_pipeline_status workflow_engine the_id w
   = (HTTPException 503 "Workflow engine not initialized", w) /\
   Api.get_pipeline_results workflow_engine the_id w
   = (HTTPException 503 "Workflow engine not initialized", w)) /\
  (api_key <> "" ->
   exists response w',
     Api.run_pipeline env workflow_engine the_id w = (Answer response, w')).
Proof.
  unfold startup_event. intros Hstart.
  destruct (String.eqb api_key "") eqn:Ekey.
  - inversion Hstart; subst workflow_engine.
    apply String.eqb_eq in Ekey.
    split; [reflexivity|]. split; [intros _; repeat split | contradiction].
  - destruct (WorkflowEngine api_key) as [engine|e]; [|discriminate].
    inversion Hstart; subst workflow_engine.
    apply String.eqb_neq in Ekey.
    split; [reflexivity|]. split; [contradiction|]. intros _.
    destruct (run_pipeline_with_engine env engine the_id w)
      as (ts & w1 & Erun & _).
    eexists _, _. exact Erun.
Qed.

(** X18, witness: no key in the environment. *)
Lemma api_key_decides_availability_witness :
  Api.get_pipeline_status None "deadbeef" empty_world
  = (HTTPException 503 "Workflow engine not initialized", empty_world).
Proof.
  destruct (api_key_decides_availability example_env "" example_constructor None
              "deadbeef" empty_world eq_refl) as (_ & H503 & _).
  destruct (H503 eq_refl) as (_ & Hstatus & _). exact Hstatus.
Defined.

(* ===================================================================== *)
(** ** Agent sessions *)
(* ===================================================================== *)

Lemma update_session_saved (env : Env) (task_id the_status : string)
      (a : BaseAgent.Agent) (k : Z) :
  disk env (BaseAgent.n_disk (BaseAgent.memory a)) = WriteOk ->
  session_saved a k ->
  exists a',
    BaseAgent.update_session env task_id the_status a = (BaseAgent.Done tt, a') /\
    session_saved a'
      (if String.eqb the_status "completed" then k + 1 else k)%Z /\
    dict_get "last_task_id" (BaseAgent.session a') = Some (VStr task_id) /\
    dict_get "last_task_status" (BaseAgent.session a') = Some (VStr the_status) /\
    BaseAgent.n_disk (BaseAgent.memory a')
    = S (BaseAgent.n_disk (BaseAgent.memory a)).
Proof.
  intros Hdisk [Hfile Hcount].
  unfold BaseAgent.update_session, BaseAgent.save_session.
  cbn [BaseAgent.n_disk BaseAgent.n_clock BaseAgent.session_file].
  rewrite Hdisk.
  assert (Hc3 : forall v1 v2 v3,
             dict_get "tasks_completed"
               (dict_set "last_updated" v3
                  (dict_set "last_task_status" v2
                     (dict_set "last_task_id" v1 (BaseAgent.session a))))
             = Some (VInt k)).
  { intros. rewrite !dict_get_set_other by discriminate. exact Hcount. }
  destruct (String.eqb the_status "completed") eqn:Est.
  - unfold dict_get_default. rewrite Hc3. cbn [BaseAgent.plus_one].
    eexists. split; [reflexivity|].
    unfold session_saved.
    cbn [BaseAgent.session BaseAgent.memory BaseAgent.session_file
         BaseAgent.n_disk].
    repeat match goal with |- _ /\ _ => split end; try reflexivity.
    + apply dict_get_set_same.
    + rewrite !dict_get_set_other by discriminate. apply dict_get_set_same.
    + rewrite !dict_get_set_other by discriminate. apply dict_get_set_same.
  - eexists. split; [reflexivity|].
    unfold session_saved.
    cbn [BaseAgent.session BaseAgent.memory BaseAgent.session_file
         BaseAgent.n_disk].
    repeat match goal with |- _ /\ _ => split end; try reflexivity.
    + apply Hc3.
    + rewrite !dict_get_set_other by discriminate. apply dict_get_set_same.
    + rewrite !dict_get_set_other by discriminate. apply dict_get_set_same.
Qed.

Lemma run_updates_saved (env : Env) (calls : list (string * string)) :
  (forall n, disk env n = WriteOk) ->
  forall (a : BaseAgent.Agent) (k : Z),
    session_saved a k ->
    exists a',
      run_updates env calls a = (BaseAgent.Done tt, a') /\
      session_saved a' (k + Z.of_nat (completions calls))%Z.
Proof.
  intros Hdisk. induction calls as [|[task_id st] calls IH]; intros a k Hs.
  - exists a. split; [reflexivity|]. unfold completions. simpl.
    now rewrite Z.add_0_r.
  - destruct (update_session_saved env task_id st a k (Hdisk _) Hs)
      as (a1 & E1 & Hs1 & _).
    destruct (IH a1 _ Hs1) as (a2 & E2 & Hs2).
    exists a2. split.
    + simpl. now rewrite E1.
    + unfold completions in *. simpl.
      destruct (String.eqb st "completed"); simpl List.length.
      * replace (k + Z.of_nat (S (List.length
                   (filter (fun c => String.eqb (snd c) "completed") calls))))%Z
          with (k + 1 + Z.of_nat (List.length
                   (filter (fun c => String.eqb (snd c) "completed") calls)))%Z
          by lia.
        exact Hs2.
      * exact Hs2.
Qed.

Lemma init_adopts_saved_session (env : Env) (the_agent_id the_role : string)
      (a : BaseAgent.Agent) (k : Z) :
  session_saved a k ->
  BaseAgent.init env the_agent_id the_role (BaseAgent.memory a)
  = (BaseAgent.Done (BaseAgent.mkAgent the_agent_id the_role (BaseAgent.session a)
                                       (BaseAgent.memory a)),
     BaseAgent.memory a).
Proof.
  intros [Hfile Hcount]. unfold BaseAgent.init, BaseAgent.load_session.
  rewrite Hfile. destruct (BaseAgent.session a); [discriminate|reflexivity].
Qed.

(** X19. The session survives a restart: an agent constructed on an empty
    memory directory whose writes all succeed starts with a count of 0;
    after any series of [update_session] calls the stored count is the
    number of calls that reported "completed", and constructing an agent
    again on that directory, under any identity, adopts the session object
    as it was left, the identity recorded in it included, and writes
    nothing. *)
Theorem session_survives_restart
        (env : Env) (the_agent_id the_role : string)
        (calls : list (string * string)) (m : BaseAgent.AgentMemory) :
  (forall n, disk env n = WriteOk) ->
  BaseAgent.session_file m = BaseAgent.SessionMissing ->
  exists a a',
    BaseAgent.init env the_agent_id the_role m = (BaseAgent.Done a, BaseAgent.memory a) /\
    dict_get "tasks_completed" (BaseAgent.session a) = Some (VInt 0) /\
    run_updates env calls a = (BaseAgent.Done tt, a') /\
    dict_get "tasks_completed" (BaseAgent.session a')
    = Some (VInt (Z.of_nat (completions calls))) /\
    dict_get "agent_id" (BaseAgent.session a') = Some (VStr the_agent_id) /\
    forall other_id other_role,
      BaseAgent.init env other_id other_role (BaseAgent.memory a')
      = (BaseAgent.Done (BaseAgent.mkAgent other_id other_role (BaseAgent.session a')
                                           (BaseAgent.memory a')),
         BaseAgent.memory a').
Proof.
  intros Hdisk Hmissing.
  set (fresh := [("agent_id", VStr the_agent_id); ("role", VStr the_role);
                 ("created_at", VStr (isoformat_now env (BaseAgent.n_clock m)));
                 ("tasks_completed", VInt 0)]).
  set (m2 := BaseAgent.mkAgentMemory (BaseAgent.SessionObject fresh)
               (S (BaseAgent.n_clock m)) (S (BaseAgent.n_disk m))).
  set (a := BaseAgent.mkAgent the_agent_id the_role fresh m2).
  assert (Einit : BaseAgent.init env the_agent_id the_role m
                  = (BaseAgent.Done a, BaseAgent.memory a)).
  { unfold BaseAgent.init, BaseAgent.load_session, BaseAgent.save_session.
    rewrite Hmissing. cbn [truthy BaseAgent.n_disk BaseAgent.n_clock
                           BaseAgent.session_file].
    rewrite Hdisk. reflexivity. }
  assert (Hs : session_saved a 0) by (split; reflexivity).
  assert (Hid : forall (calls0 : list (string * string)) b b',
             dict_get "agent_id" (BaseAgent.session b) = Some (VStr the_agent_id) ->
             run_updates env calls0 b = (BaseAgent.Done tt, b') ->
             dict_get "agent_id" (BaseAgent.session b') = Some (VStr the_agent_id)).
  { induction calls0 as [|[task_id st] calls0 IH]; intros b b' Hb Hrun.
    - simpl in Hrun. now inversion Hrun; subst.
    - simpl in Hrun.
      destruct (BaseAgent.update_session env task_id st b) as [[[]|e] b1] eqn:E1;
        [|discriminate].
      apply (IH b1 b'); [|exact Hrun].
      unfold BaseAgent.update_session, BaseAgent.save_session in E1.
      destruct (String.eqb st "completed");
        [destruct (BaseAgent.plus_one _); [|discriminate]|];
        destruct (disk env _); inversion E1; subst b1;
        cbn [BaseAgent.session];
        rewrite !dict_get_set_other by discriminate; exact Hb. }
  destruct (run_updates_saved env calls Hdisk a 0 Hs) as (a' & Erun & Hs').
  exists a, a'. split; [exact Einit|]. split; [reflexivity|].
  split; [exact Erun|]. split; [exact (proj2 Hs')|].
  split; [apply (Hid calls a a'); [reflexivity | exact Erun]|].
  intros other_id other_role.
  now apply init_adopts_saved_session with (k := (0 + Z.of_nat (completions calls))%Z).
Qed.

(** X19, witness: two completions and a failure on the example
    environment. *)
Lemma session_survives_restart_witness :
  exists a a',
    BaseAgent.init example_env "agent:writer:main" "Writer" empty_memory
    = (BaseAgent.Done a, BaseAgent.memory a) /\
    run_updates example_env
      [("t1", "completed"); ("t2", "failed"); ("t3", "completed")] a
    = (BaseAgent.Done tt, a') /\
    dict_get "tasks_completed" (BaseAgent.session a') = Some (VInt 2).
Proof.
  destruct (session_survives_restart example_env "agent:writer:main" "Writer"
              [("t1", "completed"); ("t2", "failed"); ("t3", "completed")]
              empty_memory)
    as (a & a' & Einit & _ & Erun & Hcount & _).
  - intros n. reflexivity.
  - reflexivity.
  - exists a, a'. auto.
Defined.

(** X20. A failed session write is not rolled back: when the write of
    [update_session] fails and the counter was a number, the call raises
    [OSError] although the session object of the agent already carries the
    new task id and status; a write refused at [open] leaves the file as it
    was, and after a torn write every later construction of an agent on
    that directory raises, since [load_session] catches nothing. *)
Theorem failed_session_write_is_not_rolled_back
        (env : Env) (task_id the_status : string) (a : BaseAgent.Agent) (k : Z) :
  disk env (BaseAgent.n_disk (BaseAgent.memory a)) <> WriteOk ->
  dict_get "tasks_completed" (BaseAgent.session a) = Some (VInt k) ->
  exists a',
    BaseAgent.update_session env task_id the_status a
    = (BaseAgent.Raised BaseAgent.OSError, a') /\
    dict_get "last_task_id" (BaseAgent.session a') = Some (VStr task_id) /\
    dict_get "last_task_status" (BaseAgent.session a') = Some (VStr the_status) /\
    dict_get "tasks_completed" (BaseAgent.session a')
    = Some (VInt (if String.eqb the_status "completed" then k + 1 else k)) /\
    (disk env (BaseAgent.n_disk (BaseAgent.memory a)) = WriteRefused ->
     BaseAgent.session_file (BaseAgent.memory a')
     = BaseAgent.session_file (BaseAgent.memory a)) /\
    (disk env (BaseAgent.n_disk (BaseAgent.memory a)) = WriteTorn ->
     forall other_id other_role,
       BaseAgent.init env other_id other_role (BaseAgent.memory a')
       = (BaseAgent.Raised BaseAgent.JSONDecodeError, BaseAgent.memory a')).
Proof.
  intros Hdisk Hcount.
  unfold BaseAgent.update_session, BaseAgent.save_session.
  cbn [BaseAgent.n_disk BaseAgent.n_clock BaseAgent.session_file].
  assert (Hc3 : forall v1 v2 v3,
             dict_get "tasks_completed"
               (dict_set "last_updated" v3
                  (dict_set "last_task_status" v2
                     (dict_set "last_task_id" v1 (BaseAgent.session a))))
             = Some (VInt k)).
  { intros. rewrite !dict_get_set_other by discriminate. exact Hcount. }
  destruct (String.eqb the_status "completed") eqn:Est.
  - unfold dict_get_default. rewrite Hc3. cbn [BaseAgent.plus_one].
    destruct (disk env (BaseAgent.n_disk (BaseAgent.memory a))) eqn:Ed;
      [contradiction| |];
      (eexists; split; [reflexivity|];
       cbn [BaseAgent.session BaseAgent.memory BaseAgent.session_file];
       repeat match goal with |- _ /\ _ => split end;
       try (rewrite !dict_get_set_other by discriminate; apply dict_get_set_same);
       try apply dict_get_set_same; try reflexivity; try discriminate).
  - destruct (disk env (BaseAgent.n_disk (BaseAgent.memory a))) eqn:Ed;
      [contradiction| |];
      (eexists; split; [reflexivity|];
       cbn [BaseAgent.session BaseAgent.memory BaseAgent.session_file];
       repeat match goal with |- _ /\ _ => split end;
       try (rewrite !dict_get_set_other by discriminate; apply dict_get_set_same);
       try apply Hc3; try reflexivity; try discriminate).
Qed.

(** X20, witness: a fresh agent whose next write is torn. *)
Lemma failed_session_write_is_not_rolled_back_witness :
  exists a',
    BaseAgent.update_session tearing_env "t1" "completed"
      (fresh_agent example_env "agent:writer:main" "Writer")
    = (BaseAgent.Raised BaseAgent.OSError, a') /\
    dict_get "tasks_completed" (BaseAgent.session a') = Some (VInt 1).
Proof.
  destruct (failed_session_write_is_not_rolled_back tearing_env "t1" "completed"
              (fresh_agent example_env "agent:writer:main" "Writer") 0)
    as (a' & E & _ & _ & Hcount & _).
  - vm_compute. discriminate.
  - reflexivity.
  - exists a'. split; [exact E | exact Hcount].
Defined.

(** X21. A counter that is not a number: when the session read from
    [session.json] holds text, a list, an object or null under
    "tasks_completed", [update_session] with status "completed" raises
    [TypeError] before anything is written: the file and the write count
    are as before, while the session object already records the task as
    completed. With any other status the same session is saved without
    an error. *)
Theorem update_session_type_error
        (env : Env) (task_id : string) (a : BaseAgent.Agent) (v : value) :
  dict_get "tasks_completed" (BaseAgent.session a) = Some v ->
  BaseAgent.plus_one v = BaseAgent.Raised BaseAgent.TypeError ->
  (exists a',
     BaseAgent.update_session env task_id "completed" a
     = (BaseAgent.Raised BaseAgent.TypeError, a') /\
     BaseAgent.session_file (BaseAgent.memory a')
     = BaseAgent.session_file (BaseAgent.memory a) /\
     BaseAgent.n_disk (BaseAgent.memory a') = BaseAgent.n_disk (BaseAgent.memory a) /\
     dict_get "last_task_status" (BaseAgent.session a') = Some (VStr "completed") /\
     dict_get "tasks_completed" (BaseAgent.session a') = Some v) /\
  (forall other_status,
     other_status <> "completed" ->
     disk env (BaseAgent.n_disk (BaseAgent.memory a)) = WriteOk ->
     exists a',
       BaseAgent.update_session env task_id other_status a
       = (BaseAgent.Done tt, a') /\
       BaseAgent.session_file (BaseAgent.memory a')
       = BaseAgent.SessionObject (BaseAgent.session a') /\
       dict_get "tasks_completed" (BaseAgent.session a') = Some v).
Proof.
  intros Hcount Hplus.
  assert (Hc3 : forall v1 v2 v3,
             dict_get "tasks_completed"
               (dict_set "last_updated" v3
                  (dict_set "last_task_status" v2
                     (dict_set "last_task_id" v1 (BaseAgent.session a))))
             = Some v).
  { intros. rewrite !dict_get_set_other by discriminate. exact Hcount. }
  split.
  - unfold BaseAgent.update_session. rewrite String.eqb_refl.
    unfold dict_get_default. rewrite Hc3, Hplus.
    eexists. split; [reflexivity|].
    cbn [BaseAgent.session BaseAgent.memory BaseAgent.session_file
         BaseAgent.n_disk].
    repeat match goal with |- _ /\ _ => split end; try reflexivity.
    + rewrite !dict_get_set_other by discriminate. apply dict_get_set_same.
    + apply Hc3.
  - intros other_status Hne Hdisk.
    unfold BaseAgent.update_session, BaseAgent.save_session.
    apply String.eqb_neq in Hne. rewrite Hne.
    cbn [BaseAgent.n_disk BaseAgent.n_clock BaseAgent.session_file].
    rewrite Hdisk. eexists. split; [reflexivity|].
    cbn [BaseAgent.session BaseAgent.memory BaseAgent.session_file].
    split; [reflexivity | apply Hc3].
Qed.

(** X21, witness: a counter stored as the text "3". *)
Lemma update_session_type_error_witness :
  exists a',
    BaseAgent.update_session example_env "t1" "completed" agent_with_text_counter
    = (BaseAgent.Raised BaseAgent.TypeError, a') /\
    BaseAgent.n_disk (BaseAgent.memory a') = 0.
Proof.
  destruct (update_session_type_error example_env "t1" agent_with_text_counter
              (VStr "3") eq_refl eq_refl)
    as ((a' & E & _ & Hd & _) & _).
  exists a'. split; [exact E | exact Hd].
Defined.

(* ===================================================================== *)
(** ** A store that no longer takes writes *)
(* ===================================================================== *)

Lemma stalled_refl (n0 : nat) (w : World) : n0 <= n_disk w -> stalled n0 w w.
Proof. intros H. repeat split. exact H. Qed.

Lemma stalled_trans (n0 : nat) (w1 w2 w3 : World) :
  stalled n0 w1 w2 -> stalled n0 w2 w3 -> stalled n0 w1 w3.
Proof.
  intros (F1 & D1 & N1) (F2 & D2 & N2). repeat split; first [congruence | exact N2].
Qed.

Lemma stalled_live (n0 : nat) (w w' : World) : stalled n0 w w' -> live w' = live w.
Proof. intros (F & _ & _). unfold live. now rewrite F. Qed.

Lemma stalled_wirable (env : Env) (n0 : nat) (w w' : World) (payload : dict) :
  stalled n0 w w' -> wirable env w payload -> wirable env w' payload.
Proof.
  intros (_ & D & _) Hx name Hn. unfold examinable_at. rewrite D.
  now apply Hx.
Qed.

Lemma stalled_wirable_store (env : Env) (n0 : nat) (w w' : World) :
  stalled n0 w w' -> wirable_store env w -> wirable_store env w'.
Proof.
  intros Hst Hx t Hin. rewrite (stalled_live n0 w w' Hst) in Hin.
  apply (stalled_wirable env n0 w w' _ Hst). now apply Hx.
Qed.

Lemma after_update_refused (env : Env) (n0 : nat) i s r (w : World) :
  refusing_from env n0 -> n0 <= n_disk w ->
  stalled n0 w (after_update env i s r w).
Proof.
  intros Href Hn. unfold after_update.
  set (l := update_first_with _ _ _).
  assert (H1 : stalled n0 w (after_update_first env i s r (live w) w)).
  { unfold after_update_first.
    destruct (first_with_id i (live w)); [|now apply stalled_refl].
    destruct s; unfold stalled, after_archive, tick_clock;
      cbn [tasks_file completed_dir n_disk];
      try (rewrite (Href _ Hn)); repeat split; lia. }
  destruct H1 as (F1 & D1 & N1).
  unfold stalled, after_persist. cbn [tasks_file completed_dir n_disk].
  rewrite (Href _ N1). repeat split; auto.
Qed.

Lemma process_task_refused (env : Env) (n0 : nat) (agent : Worker) (x : Task)
      (acc : Processing) (w : World) :
  refusing_from env n0 -> n0 <= n_disk w -> wirable env w (payload x) ->
  exists acc' w',
    process_task env agent x acc w = (Ret acc', w') /\
    stalled n0 w w' /\ n_exec w' = S (n_exec w) /\
    tasks_processed acc' <= S (tasks_processed acc) /\
    (always_succeeds agent -> tasks_processed acc' = S (tasks_processed acc)).
Proof.
  intros Href Hn Hx. rewrite process_task_spec. cbv zeta.
  set (w1 := after_update env (id x) IN_PROGRESS None w).
  assert (H1 : stalled n0 w w1) by now apply after_update_refused.
  rewrite attempt_wirable by exact (stalled_wirable env n0 w w1 _ H1 Hx).
  assert (E1 : n_exec w1 = n_exec w) by apply n_exec_after_update.
  assert (Ht : n0 <= n_disk (tick_exec w1)) by (destruct H1 as (_ & _ & H); exact H).
  assert (H2 : forall s r, stalled n0 w (after_update env (id x) s r (tick_exec w1))).
  { intros s r. apply stalled_trans with (w2 := tick_exec w1).
    - destruct H1 as (F & D & N). repeat split; assumption.
    - now apply after_update_refused. }
  assert (E2 : forall s r,
             n_exec (after_update env (id x) s r (tick_exec w1)) = S (n_exec w)).
  { intros s r. rewrite n_exec_after_update. unfold tick_exec. cbn [n_exec].
    now rewrite E1. }
  destruct (agent (n_exec w1) (dispatched_payload env x w1)) as [result|e] eqn:Ea.
  - eexists _, _. split; [reflexivity|].
    cbn [tasks_processed]. split; [apply H2|]. split; [apply E2|].
    split; [lia | reflexivity].
  - eexists _, _. split; [reflexivity|].
    cbn [tasks_processed]. split; [apply H2|]. split; [apply E2|].
    split; [lia|].
    intros Hs. destruct (Hs (n_exec w1) (dispatched_payload env x w1)) as (r & Er).
    congruence.
Qed.

Lemma process_tasks_refused (env : Env) (n0 : nat) (agent : Worker)
      (l : list Task) :
  refusing_from env n0 ->
  forall (acc : Processing) (w : World),
    n0 <= n_disk w -> (forall x, In x l -> wirable env w (payload x)) ->
    exists acc' w',
      for_each l (process_task env agent) acc w = (Ret acc', w') /\
      stalled n0 w w' /\ n_exec w' = n_exec w + List.length l /\
      tasks_processed acc' <= tasks_processed acc + List.length l /\
      (always_succeeds agent ->
       tasks_processed acc' = tasks_processed acc + List.length l).
Proof.
  intros Href. induction l as [|x l IH]; intros acc w Hn Hx.
  - exists acc, w. split; [reflexivity|].
    simpl. rewrite !Nat.add_0_r. repeat split; auto.
  - destruct (process_task_refused env n0 agent x acc w Href Hn
                (Hx x (or_introl eq_refl)))
      as (acc1 & w1 & E1 & S1 & X1 & L1 & A1).
    destruct (IH acc1 w1 ltac:(destruct S1 as (_ & _ & H); exact H)
                 (fun y Hy => stalled_wirable env n0 w w1 _ S1
                                (Hx y (or_intror Hy))))
      as (acc2 & w2 & E2 & S2 & X2 & L2 & A2).
    exists acc2, w2. split.
    { rewrite for_each_cons. unfold bind. now rewrite E1. }
    split; [now apply stalled_trans with (w2 := w1)|].
    simpl List.length. split; [lia|]. split; [lia|].
    intros Hs. rewrite (A2 Hs), (A1 Hs). lia.
Qed.

Lemma ready_length (agent_id : string) (all : list Task) :
  List.length (ready agent_id all) = List.length (agent_tasks agent_id all).
Proof. unfold ready. apply Permutation_length, sorted_perm. Qed.

Lemma dispatch_count_cons (agent_id : string) (agent : Worker)
      (agents : list (string * Worker)) (all : list Task) :
  dispatch_count ((agent_id, agent) :: agents) all
  = (if String.eqb agent_id "agent:coordinator:main" then 0
     else List.length (agent_tasks agent_id all))
    + dispatch_count agents all.
Proof. reflexivity. Qed.

Lemma pass_refused (env : Env) (n0 : nat) (agents : list (string * Worker)) :
  refusing_from env n0 ->
  forall (acc : Processing) (w : World),
    n0 <= n_disk w -> wirable_store env w ->
    exists acc' w',
      for_each agents (agent_step env) acc w = (Ret acc', w') /\
      stalled n0 w w' /\
      n_exec w' = n_exec w + dispatch_count agents (live w) /\
      tasks_processed acc' <= tasks_processed acc + dispatch_count agents (live w) /\
      ((forall entry, In entry agents -> always_succeeds (snd entry)) ->
       tasks_processed acc' = tasks_processed acc + dispatch_count agents (live w)).
Proof.
  intros Href. induction agents as [|[agent_id agent] agents IH];
    intros acc w Hn Hx.
  - exists acc, w. split; [reflexivity|].
    unfold dispatch_count. simpl. rewrite !Nat.add_0_r.
    repeat split; auto.
  - rewrite for_each_cons. unfold bind at 1, agent_step at 1.
    rewrite !dispatch_count_cons.
    destruct (String.eqb agent_id "agent:coordinator:main").
    + unfold ret at 1.
      destruct (IH acc w Hn Hx) as (acc2 & w2 & E2 & S2 & X2 & L2 & A2).
      exists acc2, w2. split; [exact E2|]. split; [exact S2|].
      split; [lia|]. split; [lia|].
      intros Hs. rewrite A2; [lia|]. intros entry Hin. apply Hs. now right.
    + unfold bind at 1. rewrite get_pending_tasks_ready.
      destruct (process_tasks_refused env n0 agent (ready agent_id (live w)) Href
                  acc w Hn) as (acc1 & w1 & E1 & S1 & X1 & L1 & A1).
      { intros x Hin. apply Hx. apply ready_In, agent_tasks_In in Hin. tauto. }
      rewrite E1. rewrite ready_length in X1, L1, A1.
      destruct (IH acc1 w1 ltac:(destruct S1 as (_ & _ & H); exact H)
                   (stalled_wirable_store env n0 w w1 S1 Hx))
        as (acc2 & w2 & E2 & S2 & X2 & L2 & A2).
      rewrite (stalled_live n0 w w1 S1) in X2, L2, A2.
      exists acc2, w2. split; [exact E2|].
      split; [now apply stalled_trans with (w2 := w1)|].
      split; [lia|]. split; [lia|].
      intros Hs. rewrite A2 by (intros entry Hin; apply Hs; now right).
      rewrite (A1 (Hs (agent_id, agent) (or_introl eq_refl))). lia.
Qed.

Lemma loop_refused (env : Env) (n0 : nat) (agents : list (string * Worker))
      (p : Pipeline) (max_iterations : nat) (w0 : World) :
  refusing_from env n0 ->
  (forall entry, In entry agents -> always_succeeds (snd entry)) ->
  0 < dispatch_count agents (live w0) ->
  wirable_store env w0 ->
  forall iteration all_results w,
    iteration <= max_iterations ->
    stalled n0 w0 w ->
    exists res w',
      run_loop env agents max_iterations p iteration all_results w
      = (Ret (max_iterations, res), w') /\
      stalled n0 w0 w' /\
      n_exec w'
      = n_exec w + (max_iterations - iteration) * dispatch_count agents (live w0).
Proof.
  intros Href Hs Hpos Hx iteration.
  remember (max_iterations - iteration) as k eqn:Hk.
  revert iteration Hk.
  induction k as [|k IH]; intros iteration Hk all_results w Hle Hst;
    rewrite run_loop_step.
  - destruct (Nat.ltb_spec iteration max_iterations); [lia|].
    replace iteration with max_iterations by lia.
    eexists _, w. split; [reflexivity|]. split; [exact Hst | simpl; lia].
  - destruct (Nat.ltb_spec iteration max_iterations); [|lia].
    unfold bind at 1. rewrite load_all_tasks_live.
    unfold bind at 1. rewrite process_pending_tasks_steps.
    destruct (pass_refused env n0 agents Href (mkProcessing 0 []) w
                (proj2 (proj2 Hst)) (stalled_wirable_store env n0 w0 w Hst Hx))
      as (pr & w1 & E1 & S1 & X1 & _ & A1).
    rewrite E1. specialize (A1 Hs). cbn [tasks_processed] in A1.
    rewrite (stalled_live n0 w0 w Hst) in X1, A1.
    destruct (tasks_processed pr) as [|tp] eqn:Etp; [lia|].
    simpl Nat.eqb. cbv iota. unfold bind at 1, ret at 1.
    destruct (IH (S iteration) ltac:(lia)
                 (dict_update all_results (results pr)) w1 ltac:(lia)
                 (stalled_trans n0 w0 w w1 Hst S1))
      as (res & w' & E & S' & X').
    exists res, w'. split; [exact E|]. split; [exact S'|].
    rewrite X', X1. replace (max_iterations - S iteration) with k by lia. lia.
Qed.

Lemma written_file_refused (env : Env) (n : nat) (f : file_state) (t : Task) :
  disk env n = WriteRefused -> written_file env n f t = f.
Proof. intros H. unfold written_file. now rewrite H. Qed.

Lemma execute_content_pipeline_refused (env : Env) (n0 : nat)
      (the_topic : string) (w : World) :
  refusing_from env n0 -> n0 <= n_disk w ->
  exists w',
    execute_content_pipeline env the_topic w
    = (Ret (built_pipeline env the_topic w), w')
    /\ stalled n0 w w' /\ n_exec w' = n_exec w.
Proof.
  intros Href Hn. destruct w as [f d nu nc nd ne]. cbn [n_disk] in Hn.
  unfold execute_content_pipeline.
  unfold bind at 1. unfold uuid8 at 1.
  cbn [n_uuid tasks_file completed_dir n_clock n_disk n_exec].
  rewrite !bind_add_task. unfold ret.
  eexists. split; [reflexivity|].
  unfold stalled. cbn [tasks_file completed_dir n_disk n_exec].
  rewrite !written_file_refused by (apply Href; lia).
  repeat split; lia.
Qed.

(** X22. One pass on a store that refuses writes: when every write from now
    on is refused and [exists()] answers for every archive name the payload
    of a stored task refers to (so that the wiring of every ready task
    returns; a task that refers to a name that cannot be examined, such as
    one too long for a file name, is marked FAILED without a dispatch),
    [process_pending_tasks] still dispatches every ready task of every agent
    but the coordinator, whatever the workers answer, and none of it reaches
    the store: [tasks.json] and the archive are as before, so the same tasks
    are ready for the next pass. *)
Theorem refused_writes_dispatch_without_progress
        (env : Env) (agents : list (string * Worker)) (w : World) :
  refusing_from env (n_disk w) ->
  wirable_store env w ->
  exists pr w',
    process_pending_tasks env agents w = (Ret pr, w') /\
    tasks_file w' = tasks_file w /\
    completed_dir w' = completed_dir w /\
    n_exec w' = n_exec w + dispatch_count agents (live w) /\
    tasks_processed pr <= dispatch_count agents (live w) /\
    dispatch_count agents (live w') = dispatch_count agents (live w).
Proof.
  intros Href Hx. rewrite process_pending_tasks_steps.
  destruct (pass_refused env (n_disk w) agents Href (mkProcessing 0 []) w
              (Nat.le_refl _) Hx) as (pr & w' & E & S & X & L & _).
  exists pr, w'. split; [exact E|].
  rewrite (stalled_live _ _ _ S). destruct S as (F & D & _).
  repeat match goal with |- _ /\ _ => split end; auto.
Qed.

(** X22, witness: one stored research task, which refers to no other task,
    and a disk that has stopped taking writes. *)
Lemma refused_writes_dispatch_without_progress_witness :
  exists pr w',
    process_pending_tasks first_write_only_env succeeding_agents
                          world_one_research_task = (Ret pr, w') /\
    tasks_file w' = tasks_file world_one_research_task /\
    n_exec w' = 1.
Proof.
  destruct (refused_writes_dispatch_without_progress first_write_only_env
              succeeding_agents world_one_research_task)
    as (pr & w' & E & F & _ & X & _).
  - intros n Hn. change (n_disk world_one_research_task) with 1 in Hn.
    destruct n; [lia | reflexivity].
  - intros t Hin name Hname. discriminate.
  - exists pr, w'. split; [exact E|]. split; [exact F|]. exact X.
Defined.

(** X23. The run re-executes what it cannot record: when every write from
    now on is refused, [exists()] answers for every archive name the payload
    of a stored task refers to (so that the wiring of every ready task
    returns), the workers all return, and the store holds at least one
    ready task, [run_content_pipeline] stores none
    of its five tasks, never breaks out of the loop, and dispatches every
    ready task again in each of the [max_iterations] passes; the files are
    left as they were. *)
Theorem refused_writes_repeat_dispatch
        (env : Env) (agents : list (string * Worker)) (w : World)
        (the_topic : string) (max_iterations : nat) :
  refusing_from env (n_disk w) ->
  wirable_store env w ->
  (forall entry, In entry agents -> always_succeeds (snd entry)) ->
  0 < dispatch_count agents (live w) ->
  exists run w',
    run_content_pipeline_with env agents max_iterations the_topic w
    = (Ret run, w') /\
    iterations run = max_iterations /\
    n_exec w' = n_exec w + max_iterations * dispatch_count agents (live w) /\
    tasks_file w' = tasks_file w /\
    completed_dir w' = completed_dir w.
Proof.
  intros Href Hx Hs Hpos.
  destruct (execute_content_pipeline_refused env (n_disk w) the_topic w Href
              (Nat.le_refl _)) as (w0 & Ebuild & S0 & X0).
  set (p := built_pipeline env the_topic w) in *.
  destruct (loop_refused env (n_disk w) agents p max_iterations w Href Hs Hpos
              Hx 0 [] w0 ltac:(lia) S0) as (res & w1 & Eloop & S1 & X1).
  destruct (collect_final_results_quiet p w1) as (fr & Efr).
  exists (mkPipelineRun p max_iterations fr), w1. split.
  { unfold run_content_pipeline_with, bind. rewrite Ebuild. fold p.
    rewrite Eloop, Efr. reflexivity. }
  split; [reflexivity|]. destruct S1 as (F & D & _).
  split; [rewrite X1, X0, Nat.sub_0_r; reflexivity|]. auto.
Qed.

(** X23, witness: the stored research task is executed twenty times. *)
Lemma refused_writes_repeat_dispatch_witness :
  exists run w',
    run_content_pipeline first_write_only_env succeeding_agents "AI"
                         world_one_research_task = (Ret run, w') /\
    iterations run = 20 /\ n_exec w' = 20.
Proof.
  destruct (refused_writes_repeat_dispatch first_write_only_env
              succeeding_agents world_one_research_task "AI" MAX_ITERATIONS)
    as (run & w' & E & Hit & X & _).
  - intros n Hn. change (n_disk world_one_research_task) with 1 in Hn.
    destruct n; [lia | reflexivity].
  - intros t Hin name Hname. discriminate.
  - intros entry Hin n payload.
    unfold succeeding_agents, engine_agents in Hin. simpl in Hin.
    destruct Hin as [<-|[<-|[<-|[<-|[<-|[<-|[]]]]]]]; eexists; reflexivity.
  - vm_compute. lia.
  - exists run, w'. split; [exact E|]. split; [exact Hit|]. exact X.
Defined.

(* ===================================================================== *)
(** ** The wiring of the later stages *)
(* ===================================================================== *)

Lemma dict_has_of_get {V} k (v : V) d : dict_get k d = Some v -> dict_has k d = true.
Proof. intros H. apply dict_has_get. congruence. Qed.

Lemma truthy_id (s : string) : s <> "" -> truthy (VStr s) = true.
Proof. intros H. simpl. apply String.eqb_neq in H. now rewrite H. Qed.

Lemma bind_ret_l {A B} (a : A) (k : A -> M B) (w : World) :
  bind (ret a) k w = k a w.
Proof. reflexivity. Qed.

Lemma bind_eq {A B} (m : M A) (k : A -> M B) (w w' : World) (a : A) :
  m w = (Ret a, w') -> bind m k w = k a w'.
Proof. intros H. unfold bind. now rewrite H. Qed.

Lemma bind_bind_eq {A B C} (m : M A) (f : A -> M B) (k : B -> M C)
      (w w' : World) (a : A) :
  m w = (Ret a, w') -> bind (bind m f) k w = bind (f a) k w'.
Proof. intros H. unfold bind. now rewrite H. Qed.

Lemma py_get_of_get (k : string) (v : value) (d : dict) :
  dict_get k d = Some v -> py_get k d = v.
Proof. intros H. unfold py_get, dict_get_default. now rewrite H. Qed.

(** X24. The analysis stage receives the research result: for a task whose
    payload names a research task under "research_task_id" and carries none
    of the other three reference keys, as the analysis task of a pipeline
    does, [_load_dependent_task_data] puts the non-empty result that
    [get_task_result] returns for the research task under "research_data" and
    changes nothing else, in the payload or in the store. *)
Theorem analysis_task_receives_research_result
        (env : Env) (task : Task) (research_task_id : string)
        (research_result : dict) (w : World) :
  dict_get "research_task_id" (payload task) = Some (VStr research_task_id) ->
  research_task_id <> "" ->
  dict_has "analysis_task_id" (payload task) = false ->
  dict_has "writing_task_id" (payload task) = false ->
  dict_has "seo_task_id" (payload task) = false ->
  get_task_result research_task_id w = (Ret (Some research_result), w) ->
  research_result <> [] ->
  _load_dependent_task_data env task w
  = (Ret (set_payload
            (dict_set "research_data" (VDict research_result) (payload task))
            task),
     w).
Proof.
  intros Hget Hid Ha Hw Hs Hres Hne.
  unfold _load_dependent_task_data.
  rewrite (dict_has_of_get _ _ _ Hget). cbv beta iota zeta.
  rewrite (py_get_of_get _ _ _ Hget), (truthy_id _ Hid). cbv beta iota.
  rewrite (bind_bind_eq _ _ _ _ _ _ Hres).
  destruct research_result as [|kv rest]; [contradiction|].
  cbn [result_truthy]. cbv beta iota. rewrite bind_ret_l. cbv beta.
  cbn [payload set_payload].
  rewrite (dict_has_set_other "analysis_task_id" "research_data") by discriminate.
  rewrite Ha. cbv beta iota. rewrite bind_ret_l. cbv beta.
  cbn [payload set_payload].
  rewrite (dict_has_set_other "writing_task_id" "research_data") by discriminate.
  rewrite Hw. cbv beta iota. rewrite bind_ret_l. cbv beta.
  cbn [payload set_payload].
  rewrite (dict_has_set_other "seo_task_id" "research_data") by discriminate.
  rewrite Hs. reflexivity.
Qed.

(** X24, witness: an analysis task that refers to the completed task of the
    example store. *)
Lemma analysis_task_receives_research_result_witness :
  _load_dependent_task_data example_env example_analysis_task world_one_completed
  = (Ret (set_payload
            (dict_set "research_data" (VDict example_result)
                      (payload example_analysis_task))
            example_analysis_task),
     world_one_completed).
Proof.
  apply (analysis_task_receives_research_result example_env example_analysis_task
           "c0ffee00" example_result world_one_completed);
    try reflexivity; discriminate.
Defined.

(** X25. The SEO stage takes content and topic from the writer: for a task
    whose payload names a writing task under "writing_task_id" and carries no
    other reference key, as the SEO task of a pipeline does,
    [_load_dependent_task_data] replaces "content" and "topic" by those of
    the non-empty writing result; a writing result without a "topic" key
    therefore replaces the topic the pipeline builder stored by the empty
    string. *)
Theorem seo_task_takes_topic_from_writer
        (env : Env) (task : Task) (writing_task_id : string)
        (writing_result : dict) (w : World) :
  dict_has "research_task_id" (payload task) = false ->
  dict_has "analysis_task_id" (payload task) = false ->
  dict_get "writing_task_id" (payload task) = Some (VStr writing_task_id) ->
  writing_task_id <> "" ->
  dict_has "seo_task_id" (payload task) = false ->
  get_task_result writing_task_id w = (Ret (Some writing_result), w) ->
  writing_result <> [] ->
  exists wired_task,
    _load_dependent_task_data env task w = (Ret wired_task, w) /\
    payload wired_task
    = dict_set "topic" (dict_get_default "topic" (VStr "") writing_result)
        (dict_set "content" (dict_get_default "content" (VStr "") writing_result)
           (payload task)) /\
    (dict_has "topic" writing_result = false ->
     dict_get "topic" (payload wired_task) = Some (VStr "")).
Proof.
  intros Hr Ha Hget Hid Hs Hres Hne.
  unfold _load_dependent_task_data.
  rewrite Hr. cbv beta iota. rewrite bind_ret_l. cbv beta.
  rewrite Ha. cbv beta iota. rewrite bind_ret_l. cbv beta.
  rewrite (dict_has_of_get _ _ _ Hget). cbv beta iota zeta.
  rewrite (py_get_of_get _ _ _ Hget), (truthy_id _ Hid). cbv beta iota.
  rewrite (bind_bind_eq _ _ _ _ _ _ Hres).
  destruct writing_result as [|kv rest]; [contradiction|].
  cbn [result_truthy]. cbv beta iota. rewrite bind_ret_l. cbv beta.
  cbn [payload set_payload].
  rewrite (dict_has_set_other "seo_task_id" "topic") by discriminate.
  rewrite (dict_has_set_other "seo_task_id" "content") by discriminate.
  rewrite Hs. unfold ret.
  eexists. split; [reflexivity|]. cbn [payload set_payload].
  split; [reflexivity|].
  intros Hno. rewrite dict_get_set_same.
  unfold dict_get_default.
  apply dict_has_false in Hno. now rewrite Hno.
Qed.

(** X25, witness: the stored result has no "topic" key, and the topic "AI"
    of the SEO task becomes the empty string. *)
Lemma seo_task_takes_topic_from_writer_witness :
  exists wired_task,
    _load_dependent_task_data example_env example_seo_task world_one_completed
    = (Ret wired_task, world_one_completed) /\
    dict_get "topic" (payload example_seo_task) = Some (VStr "AI") /\
    dict_get "topic" (payload wired_task) = Some (VStr "").
Proof.
  destruct (seo_task_takes_topic_from_writer example_env example_seo_task
              "c0ffee00" example_result world_one_completed)
    as (wired_task & E & _ & Htopic);
    try reflexivity; try discriminate.
  exists wired_task. split; [exact E|]. split; [reflexivity|].
  apply Htopic. reflexivity.
Defined.

(** X26. The quality stage receives the SEO result: for a task whose payload
    names an SEO task under "seo_task_id" and carries no other reference key,
    as the quality task of a pipeline does, [_load_dependent_task_data] puts
    the "optimized_content" of the non-empty SEO result (the empty string
    when that key is missing) under "content" and the whole result under
    "seo_data", and changes nothing else. *)
Theorem quality_task_receives_seo_result
        (env : Env) (task : Task) (seo_task_id : string)
        (seo_result : dict) (w : World) :
  dict_has "research_task_id" (payload task) = false ->
  dict_has "analysis_task_id" (payload task) = false ->
  dict_has "writing_task_id" (payload task) = false ->
  dict_get "seo_task_id" (payload task) = Some (VStr seo_task_id) ->
  seo_task_id <> "" ->
  get_task_result seo_task_id w = (Ret (Some seo_result), w) ->
  seo_result <> [] ->
  _load_dependent_task_data env task w
  = (Ret (set_payload
            (dict_set "seo_data" (VDict seo_result)
               (dict_set "content"
                  (dict_get_default "optimized_content" (VStr "") seo_result)
                  (payload task)))
            task),
     w).
Proof.
  intros Hr Ha Hw Hget Hid Hres Hne.
  unfold _load_dependent_task_data.
  rewrite Hr. cbv beta iota. rewrite bind_ret_l. cbv beta.
  rewrite Ha. cbv beta iota. rewrite bind_ret_l. cbv beta.
  rewrite Hw. cbv beta iota. rewrite bind_ret_l. cbv beta.
  rewrite (dict_has_of_get _ _ _ Hget). cbv beta iota zeta.
  rewrite (py_get_of_get _ _ _ Hget), (truthy_id _ Hid). cbv beta iota.
  rewrite (bind_eq _ _ _ _ _ Hres).
  destruct seo_result as [|kv rest]; [contradiction|].
  reflexivity.
Qed.

(** X26, witness: a quality task that refers to the completed task of the
    example store. *)
Lemma quality_task_receives_seo_result_witness :
  _load_dependent_task_data example_env example_quality_task world_one_completed
  = (Ret (set_payload
            (dict_set "seo_data" (VDict example_result)
               (dict_set "content"
                  (dict_get_default "optimized_content" (VStr "") example_result)
                  (payload example_quality_task)))
            example_quality_task),
     world_one_completed).
Proof.
  apply (quality_task_receives_seo_result example_env example_quality_task
           "c0ffee00" example_result world_one_completed);
    try reflexivity; discriminate.
Defined.
